(** * The RAG evaluation script [scripts/evaluate-rag.py]

    A shallow embedding of the batch evaluation pipeline
    ([load_evaluation_data], [prepare_dataset], [run_evaluation],
    [save_results], [print_summary], [main]) and the properties that
    the specification states about it.

    The script is glue around three libraries: [datasets]
    ([Dataset.from_dict]), [ragas] ([evaluate], the result object) and
    [pandas] (the score table).  The script's own control flow is embedded
    from the source, over a record [World] holding those collaborators;
    reference models of the collaborators are given separately, each one
    marked as such. *)

From Stdlib Require Import List Ascii String Bool Arith ZArith QArith Lia.
Import ListNotations.
Open Scope string_scope.
Open Scope list_scope.
Set Warnings "-register-all".

(** ** Python values *)

(** Exception classes the pipeline can meet.  [KeyboardInterrupt] and
    [SystemExit] derive from [BaseException] only; all the others derive
    from [Exception]. *)
Inductive exn_class : Type :=
| FileNotFoundError
| PermissionError
| OSError
| JSONDecodeError
| AttributeError
| KeyError
| TypeError
| ValueError
| ArrowInvalid
| RuntimeError
| KeyboardInterrupt
| SystemExit.

Record exn : Type := mk_exn { cls : exn_class; msg : string }.

(** [except Exception] *)
Definition is_Exception (e : exn) : bool :=
  match cls e with
  | KeyboardInterrupt | SystemExit => false
  | _ => true
  end.

(** [except FileNotFoundError] *)
Definition is_FileNotFoundError (e : exn) : bool :=
  match cls e with
  | FileNotFoundError => true
  | _ => false
  end.

(** What [json.load] returns.  Python's [None] is [JNull]; a [dict] is the
    list of its items. *)
Inductive json : Type :=
| JNull
| JBool (b : bool)
| JNum (q : Q)
| JStr (s : string)
| JArr (items : list json)
| JObj (fields : list (string * json)).

Fixpoint dict_get (fields : list (string * json)) (key : string)
  (default : json) : json :=
  match fields with
  | [] => default
  | (k, v) :: rest => if String.eqb k key then v else dict_get rest key default
  end.

Definition dict_has (fields : list (string * json)) (key : string) : bool :=
  existsb (fun kv => String.eqb (fst kv) key) fields.

(** [data.get(key, default)]: only a [dict] has the method. *)
Definition py_get (data : json) (key : string) (default : json) : exn + json :=
  match data with
  | JObj fields => inr (dict_get fields key default)
  | JNull => inl (mk_exn AttributeError "'NoneType' object has no attribute 'get'")
  | JArr _ => inl (mk_exn AttributeError "'list' object has no attribute 'get'")
  | JStr _ => inl (mk_exn AttributeError "'str' object has no attribute 'get'")
  | JBool _ => inl (mk_exn AttributeError "'bool' object has no attribute 'get'")
  | JNum _ => inl (mk_exn AttributeError "'float' object has no attribute 'get'")
  end.

(** ** The evaluation data *)

(** The argument of [Dataset.from_dict]: the four columns
    ['question'], ['answer'], ['contexts'], ['ground_truth']. *)
Record columns : Type := mk_columns {
  col_question : json;
  col_answer : json;
  col_contexts : json;
  col_ground_truth : json
}.

(** A built dataset: four parallel columns. *)
Record Dataset : Type := mk_Dataset {
  question : list json;
  answer : list json;
  contexts : list json;
  ground_truth : list json
}.

(** [len(dataset)] *)
Definition Dataset_len (ds : Dataset) : nat := List.length (question ds).

(** The metrics imported from [ragas.metrics]. *)
Inductive metric : Type :=
| faithfulness
| answer_relevancy
| context_precision
| context_recall
| context_entity_recall
| answer_similarity
| answer_correctness.

Definition metric_name (m : metric) : string :=
  match m with
  | faithfulness => "faithfulness"
  | answer_relevancy => "answer_relevancy"
  | context_precision => "context_precision"
  | context_recall => "context_recall"
  | context_entity_recall => "context_entity_recall"
  | answer_similarity => "answer_similarity"
  | answer_correctness => "answer_correctness"
  end.

Definition metric_eqb (a b : metric) : bool :=
  String.eqb (metric_name a) (metric_name b).

(** One scorer's output for one sample.  Scores are 64-bit floats in the
    program; they are taken here as exact rationals. *)
Inductive MetricResult : Type :=
| Score (q : Q)
| Unavailable (reason : string).

(** The result of an evaluation: metric name to per-sample sequence, in
    the order the metrics ran. *)
Definition Results : Type := list (string * list MetricResult).

Fixpoint Results_get (r : Results) (name : string) : option (list MetricResult) :=
  match r with
  | [] => None
  | (k, v) :: rest => if String.eqb k name then Some v else Results_get rest name
  end.

(** A [pandas] table of scores: named columns, [None] for [NaN]. *)
Definition Series : Type := list (option Q).
Definition DataFrame : Type := list (string * Series).

(** [col in df.columns] *)
Definition df_has (df : DataFrame) (col : string) : bool :=
  existsb (fun c => String.eqb (fst c) col) df.

(** [df[col]] for a label that is present. *)
Fixpoint df_col (df : DataFrame) (col : string) : Series :=
  match df with
  | [] => []
  | (k, v) :: rest => if String.eqb k col then v else df_col rest col
  end.

(** ** Console output and the event log *)

(** The standard deviation that is printed: undefined, or the square root
    of a rational variance. *)
Inductive stdev : Type :=
| StdNaN
| StdSqrt (variance : Q).

(** One constructor per [print] call site of the script; the arguments
    are the values interpolated into the format string. *)
Inductive message : Type :=
| MsgLoading (file_path : string)          (* load_evaluation_data, line 23 *)
| MsgFileNotFound (file_path : string)     (* line 30 *)
| MsgPreparing                             (* prepare_dataset, line 35 *)
| MsgPrepared (n : nat)                    (* line 44 *)
| MsgRunning                               (* run_evaluation, line 49 *)
| MsgMayTakeMinutes                        (* line 50 *)
| MsgEvalError (e : exn)                   (* line 70 *)
| MsgSaving (output_file : string)         (* save_results, line 75 *)
| MsgSaved (output_file : string)          (* line 83 *)
| MsgRule                                  (* "="*60 *)
| MsgDashes                                (* "-"*60 *)
| MsgResultsTitle                          (* print_summary, line 88 *)
| MsgSummaryTitle                          (* line 95 *)
| MsgMetric (col : string) (mean : option Q) (std : stdev)   (* line 105 *)
| MsgPerSampleTitle                        (* line 110 *)
| MsgTable (df : DataFrame)                (* line 112 *)
| MsgToolTitle                             (* main, line 118 *)
| MsgUsage (line : nat).                   (* main, lines 124-132 *)

Inductive event : Type :=
| Print (m : message)
| OpenRead (path : string)
| OpenWrite (path : string)
| Dump (path : string) (payload : string)
| FromDict (cols : columns)
| Evaluate (ds : Dataset) (ms : list metric) (raise_exceptions : bool)
| Invoke (m : metric).

(** ** The file system *)

Inductive inode : Type :=
| Absent
| File (content : string)
| Broken (e : exn)                       (* every [open] raises [e] *)
| ReadOnly (content : string) (e : exn)  (* [open(..., 'w')] raises [e] *)
| Flaky (content : string) (n : nat) (e : exn).
    (* opens for writing, and the write raises [e] after [n] bytes *)

Definition filesystem : Type := string -> inode.

Definition fs_set (fs : filesystem) (path : string) (i : inode) : filesystem :=
  fun p => if String.eqb p path then i else fs p.

Fixpoint prefix (n : nat) (s : string) : string :=
  match n, s with
  | S n', String c s' => String c (prefix n' s')
  | _, _ => EmptyString
  end.

(** ** The monad of the script: file system, event log, exceptions *)

Record state : Type := mk_state { fs : filesystem; log : list event }.

Inductive outcome (A : Type) : Type :=
| Ret (a : A)
| Raise (e : exn).
Arguments Ret {A} a.
Arguments Raise {A} e.

Definition M (A : Type) : Type := state -> outcome A * state.

Definition ret {A} (a : A) : M A := fun s => (Ret a, s).

Definition raise {A} (e : exn) : M A := fun s => (Raise e, s).

Definition bind {A B} (m : M A) (k : A -> M B) : M B :=
  fun s =>
    match m s with
    | (Ret a, s') => k a s'
    | (Raise e, s') => (Raise e, s')
    end.

Notation "x <- c1 ;; c2" := (bind c1 (fun x => c2))
  (at level 61, c1 at next level, right associativity).
Notation "c1 ;; c2" := (bind c1 (fun _ => c2))
  (at level 61, right associativity).

(** [try: body  except <handles> as e: handler e] *)
Definition try_except {A} (body : M A) (handles : exn -> bool)
  (handler : exn -> M A) : M A :=
  fun s =>
    match body s with
    | (Ret a, s') => (Ret a, s')
    | (Raise e, s') => if handles e then handler e s' else (Raise e, s')
    end.

Definition emit (ev : event) : M unit :=
  fun s => (Ret tt, mk_state (fs s) (log s ++ [ev])).

Definition print (m : message) : M unit := emit (Print m).

Definition lift {A} (r : exn + A) : M A :=
  match r with
  | inl e => raise e
  | inr a => ret a
  end.

Fixpoint for_each {A} (l : list A) (body : A -> M unit) : M unit :=
  match l with
  | [] => ret tt
  | x :: rest => body x ;; for_each rest body
  end.

(** What opening an inode for reading gives. *)
Definition inode_read (path : string) (i : inode) : exn + string :=
  match i with
  | Absent => inl (mk_exn FileNotFoundError path)
  | File c => inr c
  | Broken e => inl e
  | ReadOnly c _ => inr c
  | Flaky c _ _ => inr c
  end.

(** The exception, if any, of opening an inode for writing. *)
Definition open_fault (i : inode) : option exn :=
  match i with
  | Broken e => Some e
  | ReadOnly _ e => Some e
  | _ => None
  end.

(** The exception, if any, of writing to an inode once it is open. *)
Definition dump_fault (i : inode) : option exn :=
  match i with
  | Flaky _ _ e => Some e
  | _ => None
  end.

(** The inode after it was opened with mode ['w'] and [payload] was
    written to it. *)
Definition written (payload : string) (i : inode) : inode :=
  match i with
  | Absent => File payload
  | File _ => File payload
  | Flaky _ n e => Flaky (prefix n payload) n e
  | Broken e => Broken e
  | ReadOnly c e => ReadOnly c e
  end.

(** [with open(path, 'r') as f: f.read()] *)
Definition read_file (path : string) : M string :=
  emit (OpenRead path) ;;
  fun s => (match inode_read path (fs s path) with
            | inl e => Raise e
            | inr c => Ret c
            end, s).

(** [with open(path, 'w') as f: f.write(payload)] *)
Definition write_file (path : string) (payload : string) : M unit :=
  emit (OpenWrite path) ;;
  fun s =>
    match open_fault (fs s path) with
    | Some e => (Raise e, s)
    | None =>
        (match dump_fault (fs s path) with
         | Some e => Raise e
         | None => Ret tt
         end,
         mk_state (fs_set (fs s) path (written payload (fs s path)))
                  (log s ++ [Dump path payload]))
    end.

(** ** The collaborators *)

Record World : Type := mk_World {
  json_load : string -> exn + json;          (* [json.load] on a file's bytes *)
  json_dump : json -> string;                (* [json.dump(_, f, indent=2)] *)
  from_dict : columns -> exn + Dataset;      (* [datasets.Dataset.from_dict] *)
  evaluate : Dataset -> list metric -> bool -> (exn + Results) * list metric;
    (* [ragas.evaluate]: what it returns or raises, and the metric
       capabilities it invoked, in order *)
  to_dict : Results -> exn + json;           (* [results.to_dict()] *)
  to_pandas : Results -> exn + DataFrame     (* [results.to_pandas()] *)
}.

(** ** The script *)

Definition default_input : string := "outputs/evaluation_data.json".
Definition default_output : string := "outputs/evaluation_results.json".

(** [load_evaluation_data(file_path)]; the [None] it returns when the file
    is not found is [JNull]. *)
Definition load_evaluation_data (W : World) (file_path : string) : M json :=
  print (MsgLoading file_path) ;;
  try_except
    (bytes <- read_file file_path ;;
     data <- lift (json_load W bytes) ;;
     ret data)
    is_FileNotFoundError
    (fun _ => print (MsgFileNotFound file_path) ;; ret JNull).

(** [prepare_dataset(data)] *)
Definition prepare_dataset (W : World) (data : json) : M Dataset :=
  print MsgPreparing ;;
  q <- lift (py_get data "questions" (JArr [])) ;;
  a <- lift (py_get data "answers" (JArr [])) ;;
  c <- lift (py_get data "contexts" (JArr [])) ;;
  g <- lift (py_get data "ground_truths" (JArr [])) ;;
  emit (FromDict (mk_columns q a c g)) ;;
  dataset <- lift (from_dict W (mk_columns q a c g)) ;;
  print (MsgPrepared (Dataset_len dataset)) ;;
  ret dataset.

(** The list [metrics] of [run_evaluation]. *)
Definition metrics : list metric :=
  [ faithfulness; answer_relevancy; context_precision; context_recall;
    context_entity_recall; answer_similarity; answer_correctness ].

(** The call [evaluate(dataset=..., metrics=..., raise_exceptions=...)]. *)
Definition call_evaluate (W : World) (ds : Dataset) (ms : list metric)
  (raise_exceptions : bool) : M Results :=
  emit (Evaluate ds ms raise_exceptions) ;;
  for_each (snd (evaluate W ds ms raise_exceptions)) (fun m => emit (Invoke m)) ;;
  lift (fst (evaluate W ds ms raise_exceptions)).

(** [run_evaluation(dataset)] *)
Definition run_evaluation (W : World) (dataset : Dataset) : M (option Results) :=
  print MsgRunning ;;
  print MsgMayTakeMinutes ;;
  try_except
    (results <- call_evaluate W dataset metrics false ;;
     ret (Some results))
    is_Exception
    (fun e => print (MsgEvalError e) ;; ret None).

(** [save_results(results, output_file)] *)
Definition save_results (W : World) (results : Results) (output_file : string)
  : M unit :=
  print (MsgSaving output_file) ;;
  results_dict <- lift (to_dict W results) ;;
  write_file output_file (json_dump W results_dict) ;;
  print (MsgSaved output_file).

(** *** The [pandas] operations used by [print_summary] *)

(** The values of a column that are not [NaN]. *)
Fixpoint dropna (s : Series) : list Q :=
  match s with
  | [] => []
  | Some q :: rest => q :: dropna rest
  | None :: rest => dropna rest
  end.

Definition Qsum (l : list Q) : Q := fold_right Qplus 0%Q l.

Definition Qcount (l : list Q) : Q := inject_Z (Z.of_nat (List.length l)).

(** Modelled from the spec: [pandas.Series.mean()] is library code.  With
    its default [skipna=True] it averages the values that are not [NaN],
    and is [NaN] when there is none. *)
Definition Series_mean (s : Series) : option Q :=
  match dropna s with
  | [] => None
  | x :: xs => Some (Qsum (x :: xs) / Qcount (x :: xs))%Q
  end.

Definition sq_dev (m : Q) (l : list Q) : list Q :=
  map (fun x => ((x - m) * (x - m))%Q) l.

(** Modelled from the spec: [pandas.Series.std()] is library code.  With
    its defaults [skipna=True], [ddof=1] it is the sample standard
    deviation of the values that are not [NaN]: the square root of the
    squared deviations from their mean, summed and divided by [K - 1];
    it is [NaN] for fewer than two values. *)
Definition Series_std (s : Series) : stdev :=
  match dropna s with
  | [] => StdNaN
  | [_] => StdNaN
  | x :: xs =>
      let m := (Qsum (x :: xs) / Qcount (x :: xs))%Q in
      StdSqrt (Qsum (sq_dev m (x :: xs)) / Qcount xs)%Q
  end.

(** [df[cols]] with a list of labels: [KeyError] when one is missing. *)
Definition df_select (df : DataFrame) (cols : list string) : exn + DataFrame :=
  match filter (fun c => negb (df_has df c)) cols with
  | [] => inr (map (fun c => (c, df_col df c)) cols)
  | c :: _ => inl (mk_exn KeyError c)
  end.

(** The list [metrics_cols] of [print_summary]. *)
Definition metrics_cols : list string :=
  [ "faithfulness"; "answer_relevancy"; "context_precision";
    "context_recall"; "answer_correctness" ].

(** The loop body of [print_summary]. *)
Definition print_metric (df : DataFrame) (col : string) : M unit :=
  if df_has df col
  then print (MsgMetric col (Series_mean (df_col df col)) (Series_std (df_col df col)))
  else ret tt.

(** [print_summary(results)].  [MsgTable] carries the table selected by
    [df[metrics_cols]]; rounding to four places and layout are the
    printer's. *)
Definition print_summary (W : World) (results : Results) : M unit :=
  print MsgRule ;;
  print MsgResultsTitle ;;
  print MsgRule ;;
  df <- lift (to_pandas W results) ;;
  print MsgSummaryTitle ;;
  print MsgDashes ;;
  for_each metrics_cols (print_metric df) ;;
  print MsgRule ;;
  print MsgPerSampleTitle ;;
  print MsgDashes ;;
  table <- lift (df_select df metrics_cols) ;;
  print (MsgTable table) ;;
  print MsgRule.

Definition print_usage : M unit :=
  for_each (seq 0 9) (fun i => print (MsgUsage i)).

(** [main()] *)
Definition main (W : World) : M unit :=
  print MsgRule ;;
  print MsgToolTitle ;;
  print MsgRule ;;
  data <- load_evaluation_data W default_input ;;
  match data with
  | JNull => print_usage
  | _ =>
      dataset <- prepare_dataset W data ;;
      results <- run_evaluation W dataset ;;
      match results with
      | None => ret tt
      | Some r =>
          save_results W r default_output ;;
          print_summary W r
      end
  end.

(** A run from a given file system, with an empty log. *)
Definition run {A} (m : M A) (disk : filesystem) : outcome A * state :=
  m (mk_state disk []).

(** ** Reference models of the libraries *)

(** Modelled from the spec: [datasets.Dataset.from_dict] is library code.
    It is a structural adapter: the columns are kept as given, in order;
    it raises when a column is not a sequence or when the columns differ in
    length, and it accepts columns of length 0. *)
Definition Dataset_from_dict (c : columns) : exn + Dataset :=
  match col_question c, col_answer c, col_contexts c, col_ground_truth c with
  | JArr q, JArr a, JArr x, JArr g =>
      if negb (List.length a =? List.length q)%nat
      then inl (mk_exn ArrowInvalid "answer")
      else if negb (List.length x =? List.length q)%nat
      then inl (mk_exn ArrowInvalid "contexts")
      else if negb (List.length g =? List.length q)%nat
      then inl (mk_exn ArrowInvalid "ground_truth")
      else inr (mk_Dataset q a x g)
  | _, _, _, _ => inl (mk_exn TypeError "column is not a sequence")
  end.

(** A metric capability: one [MetricResult] per sample, or an exception. *)
Definition capability : Type := Dataset -> exn + list MetricResult.

(** The entry recorded for a metric whose invocation raised [e]. *)
Definition all_unavailable (e : exn) (ds : Dataset) : list MetricResult :=
  repeat (Unavailable (msg e)) (Dataset_len ds).

(** Modelled from the spec: [ragas.evaluate] is library code; this is the
    Metric Runner of the specification.  The metrics run one at a time in
    list order, each once over the whole dataset.  When an invocation
    raises and [raise_exceptions] is off, the metric is recorded as
    unavailable for every sample and the next metric runs; when it is on,
    the exception leaves [evaluate].  The second component lists the
    capabilities that were invoked. *)
Fixpoint Runner (cap : metric -> capability) (ds : Dataset) (ms : list metric)
  (raise_exceptions : bool) : (exn + Results) * list metric :=
  match ms with
  | [] => (inr [], [])
  | m :: rest =>
      match cap m ds with
      | inr scores =>
          match Runner cap ds rest raise_exceptions with
          | (inr r, invoked) => (inr ((metric_name m, scores) :: r), m :: invoked)
          | (inl e, invoked) => (inl e, m :: invoked)
          end
      | inl e =>
          if raise_exceptions then (inl e, [m])
          else
            match Runner cap ds rest raise_exceptions with
            | (inr r, invoked) =>
                (inr ((metric_name m, all_unavailable e ds) :: r), m :: invoked)
            | (inl e', invoked) => (inl e', m :: invoked)
            end
      end
  end.

Definition cell_of (r : MetricResult) : option Q :=
  match r with
  | Score q => Some q
  | Unavailable _ => None
  end.

(** Modelled from the spec: [to_pandas] of the [ragas] result is library
    code.  One column per metric, in order, [NaN] where the metric is
    unavailable. *)
Definition Result_to_pandas (r : Results) : DataFrame :=
  map (fun kv => (fst kv, map cell_of (snd kv))) r.

Definition json_of (r : MetricResult) : json :=
  match r with
  | Score q => JNum q
  | Unavailable reason => JStr reason
  end.

(** Modelled from the spec: [to_dict] of the [ragas] result is library
    code.  A mapping from metric name to the per-sample sequence. *)
Definition Result_to_dict (r : Results) : json :=
  JObj (map (fun kv => (fst kv, JArr (map json_of (snd kv)))) r).

(** The world in which the libraries are their reference models; the JSON
    codec and the metric capabilities stay parameters. *)
Definition library_world (loads : string -> exn + json) (dumps : json -> string)
  (cap : metric -> capability) : World :=
  {| json_load := loads;
     json_dump := dumps;
     from_dict := Dataset_from_dict;
     evaluate := Runner cap;
     to_dict := fun r => inr (Result_to_dict r);
     to_pandas := fun r => inr (Result_to_pandas r) |}.

(** ** Vocabulary of the statements *)

(** The columns [prepare_dataset] hands to [Dataset.from_dict]. *)
Definition columns_of (fields : list (string * json)) : columns :=
  mk_columns (dict_get fields "questions" (JArr []))
             (dict_get fields "answers" (JArr []))
             (dict_get fields "contexts" (JArr []))
             (dict_get fields "ground_truths" (JArr [])).

(** The events of one call of [evaluate]. *)
Definition evaluate_events (W : World) (ds : Dataset) (ms : list metric)
  (flag : bool) : list event :=
  Evaluate ds ms flag :: map Invoke (snd (evaluate W ds ms flag)).

(** The events of the script before [prepare_dataset]. *)
Definition loading_events : list event :=
  [ Print MsgRule; Print MsgToolTitle; Print MsgRule;
    Print (MsgLoading default_input); OpenRead default_input ].

(** The events of [prepare_dataset] when the dataset is built. *)
Definition prepare_events (fields : list (string * json)) (ds : Dataset)
  : list event :=
  [ Print MsgPreparing; FromDict (columns_of fields);
    Print (MsgPrepared (Dataset_len ds)) ].

(** Building a dataset, metric work, writing the output. *)
Definition is_build (ev : event) : bool :=
  match ev with
  | FromDict _ => true
  | _ => false
  end.

Definition is_metric_work (ev : event) : bool :=
  match ev with
  | Evaluate _ _ _ => true
  | Invoke _ => true
  | _ => false
  end.

Definition is_output (ev : event) : bool :=
  match ev with
  | OpenWrite _ => true
  | Dump _ _ => true
  | _ => false
  end.

(** Printing results: the summary lines and the per-sample table. *)
Definition is_result_print (ev : event) : bool :=
  match ev with
  | Print (MsgMetric _ _ _) => true
  | Print (MsgTable _) => true
  | _ => false
  end.

(** The file cannot be found: opening it raises [FileNotFoundError]. *)
Definition file_missing (path : string) (i : inode) : bool :=
  match inode_read path i with
  | inl e => is_FileNotFoundError e
  | inr _ => false
  end.

(** The exception, if any, of writing a file at an inode. *)
Definition write_fault (i : inode) : option exn :=
  match open_fault i with
  | Some e => Some e
  | None => dump_fault i
  end.

(** The effect on one inode of the [Dump] events of a log. *)
Fixpoint replay (l : list event) (path : string) (i : inode) : inode :=
  match l with
  | [] => i
  | Dump p payload :: rest =>
      replay rest path (if String.eqb path p then written payload i else i)
  | _ :: rest => replay rest path i
  end.

(** The last payload a log dumps at a path. *)
Fixpoint last_dump (l : list event) (path : string) : option string :=
  match l with
  | [] => None
  | Dump p payload :: rest =>
      match last_dump rest path with
      | Some q => Some q
      | None => if String.eqb path p then Some payload else None
      end
  | _ :: rest => last_dump rest path
  end.

(** Every [Dump] of a log goes to the default output file. *)
Definition dumps_to_output (ev : event) : Prop :=
  match ev with
  | Dump p _ => p = default_output
  | _ => True
  end.

(** ** Sample inputs *)

(** Three samples; the second answer is empty. *)
Definition sample_data : json :=
  JObj [ ("questions", JArr [JStr "q1"; JStr "q2"; JStr "q3"]);
         ("answers", JArr [JStr "a1"; JStr ""; JStr "a3"]);
         ("contexts", JArr [JArr [JStr "c1"]; JArr []; JArr [JStr "c3"; JStr "c4"]]);
         ("ground_truths", JArr [JStr "g1"; JStr "g2"; JStr "g3"]) ].

(** One sample, and no [ground_truths] key. *)
Definition no_truth_data : json :=
  JObj [ ("questions", JArr [JStr "q1"]);
         ("answers", JArr [JStr "a1"]);
         ("contexts", JArr [JArr [JStr "c1"]]) ].

(** A decoder for three known files. *)
Definition sample_loads (bytes : string) : exn + json :=
  if String.eqb bytes "{}" then inr (JObj [])
  else if String.eqb bytes "no truth" then inr no_truth_data
  else if String.eqb bytes "data" then inr sample_data
  else inl (mk_exn JSONDecodeError "Expecting value").

(** An encoder that keeps the keys of a mapping. *)
Definition sample_dumps (j : json) : string :=
  match j with
  | JObj kv => String.concat "," (map fst kv)
  | _ => "null"
  end.

Definition nonempty_answer (a : json) : MetricResult :=
  match a with
  | JStr EmptyString => Score 0
  | _ => Score 1
  end.

(** [context_recall] raises; [answer_relevancy] scores 1 for a non-empty
    answer and 0 otherwise; the others score one half everywhere. *)
Definition sample_cap (m : metric) : capability :=
  match m with
  | context_recall => fun _ => inl (mk_exn RuntimeError "judge timed out")
  | answer_relevancy => fun ds => inr (map nonempty_answer (answer ds))
  | _ => fun ds => inr (map (fun _ => Score (1 # 2)) (question ds))
  end.

(** Every capability raises. *)
Definition failing_cap (m : metric) : capability :=
  fun _ => inl (mk_exn RuntimeError (metric_name m)).

Definition sample_world : World :=
  library_world sample_loads sample_dumps sample_cap.

(** A world whose [evaluate] itself raises. *)
Definition broken_evaluate_world : World :=
  {| json_load := sample_loads;
     json_dump := sample_dumps;
     from_dict := Dataset_from_dict;
     evaluate := fun _ _ _ => (inl (mk_exn ValueError "no judge model"), []);
     to_dict := fun r => inr (Result_to_dict r);
     to_pandas := fun r => inr (Result_to_pandas r) |}.

Definition disk_with (input : inode) (output : inode) : filesystem :=
  fun p =>
    if String.eqb p default_input then input
    else if String.eqb p default_output then output
    else Absent.

Definition sample_dataset : Dataset :=
  {| question := [JStr "q1"; JStr "q2"; JStr "q3"];
     answer := [JStr "a1"; JStr ""; JStr "a3"];
     contexts := [JArr [JStr "c1"]; JArr []; JArr [JStr "c3"; JStr "c4"]];
     ground_truth := [JStr "g1"; JStr "g2"; JStr "g3"] |}.

(** ** Invariants of the script's computations *)

(** A computation only appends to the log, dumps only to the default
    output file, and changes the file system as its [Dump] events say. *)
Definition tracked {A} (m : M A) : Prop :=
  forall s, exists l,
    log (snd (m s)) = log s ++ l
    /\ Forall dumps_to_output l
    /\ forall p, fs (snd (m s)) p = replay l p (fs s p).

(** Two inodes behave alike when written to. *)
Definition same_class (i j : inode) : Prop :=
  open_fault i = open_fault j /\ dump_fault i = dump_fault j.

(** Two states the script cannot tell apart: the same log, the same input
    file, and files that behave alike when written. *)
Definition sim (s t : state) : Prop :=
  log s = log t
  /\ fs s default_input = fs t default_input
  /\ forall p, same_class (fs s p) (fs t p).

(** A computation that gives the same outcome from states it cannot tell
    apart, and leaves them so. *)
Definition respects {A} (m : M A) : Prop :=
  forall s t, sim s t -> fst (m s) = fst (m t) /\ sim (snd (m s)) (snd (m t)).

(** The lengths of the four columns, when all four are sequences. *)
Definition column_lengths (c : columns) : option (nat * nat * nat * nat) :=
  match col_question c, col_answer c, col_contexts c, col_ground_truth c with
  | JArr q, JArr a, JArr x, JArr g =>
      Some (List.length q, List.length a, List.length x, List.length g)
  | _, _, _, _ => None
  end.

(** The four sequences differ in length. *)
Definition lengths_differ (c : columns) : bool :=
  match column_lengths c with
  | Some (n, na, nx, ng) => negb ((na =? n)%nat && (nx =? n)%nat && (ng =? n)%nat)
  | None => false
  end.

(** The four sequences differ in length, or their common length is 0. *)
Definition lengths_invalid (c : columns) : bool :=
  match column_lengths c with
  | Some (n, _, _, _) => lengths_differ c || (n =? 0)%nat
  | None => false
  end.

(** The entry of one metric in the result of a run in non-fatal mode. *)
Definition entry_of (cap : metric -> capability) (ds : Dataset) (m : metric)
  : string * list MetricResult :=
  (metric_name m,
   match cap m ds with
   | inr scores => scores
   | inl e => all_unavailable e ds
   end).

(** The result mapping of a run of the Metric Runner in non-fatal mode. *)
Definition runner_results (cap : metric -> capability) (ds : Dataset)
  (ms : list metric) : Results :=
  match fst (Runner cap ds ms false) with
  | inr r => r
  | inl _ => []
  end.

(** A list of metrics without one of them. *)
Definition without (m : metric) (ms : list metric) : list metric :=
  filter (fun m' => negb (metric_eqb m' m)) ms.

(** The summary lines of a log: column, mean, standard deviation. *)
Fixpoint summary_lines (l : list event) : list (string * option Q * stdev) :=
  match l with
  | [] => []
  | Print (MsgMetric col mean std) :: rest => (col, mean, std) :: summary_lines rest
  | _ :: rest => summary_lines rest
  end.

(** The summary line of a column of a table. *)
Definition summary_of (df : DataFrame) (col : string) : string * option Q * stdev :=
  (col, Series_mean (df_col df col), Series_std (df_col df col)).

(** The numeric scores of a metric: those of the samples for which it is
    available. *)
Fixpoint scores_of (v : list MetricResult) : list Q :=
  match v with
  | [] => []
  | Score q :: rest => q :: scores_of rest
  | Unavailable _ :: rest => scores_of rest
  end.

(** ** Further sample worlds *)

(** [json.load] gives a mapping: the only value with a [get] method. *)
Definition is_mapping (data : json) : bool :=
  match data with
  | JObj _ => true
  | _ => false
  end.

(** A world over the reference libraries whose input decodes to [data]. *)
Definition world_of (data : json) (cap : metric -> capability) : World :=
  library_world (fun _ => inr data) sample_dumps cap.

(** A world whose [evaluate] is interrupted from the keyboard. *)
Definition interrupted_world : World :=
  {| json_load := sample_loads;
     json_dump := sample_dumps;
     from_dict := Dataset_from_dict;
     evaluate := fun _ _ _ => (inl (mk_exn KeyboardInterrupt ""), [faithfulness]);
     to_dict := fun r => inr (Result_to_dict r);
     to_pandas := fun r => inr (Result_to_pandas r) |}.

(** A world whose result object has no [to_dict]. *)
Definition no_to_dict_world : World :=
  {| json_load := sample_loads;
     json_dump := sample_dumps;
     from_dict := Dataset_from_dict;
     evaluate := Runner sample_cap;
     to_dict := fun _ => inl (mk_exn AttributeError "to_dict");
     to_pandas := fun r => inr (Result_to_pandas r) |}.


(** The first label of a list that a table lacks. *)
Definition first_missing (df : DataFrame) (cols : list string) : option string :=
  match filter (fun c => negb (df_has df c)) cols with
  | [] => None
  | c :: _ => Some c
  end.

(** The usage lines of [main]. *)
Definition usage_events : list event :=
  map (fun i => Print (MsgUsage i)) (seq 0 9).

(** The events of [save_results] when the file is written. *)
Definition save_events (payload : string) : list event :=
  [ Print (MsgSaving default_output); OpenWrite default_output;
    Dump default_output payload; Print (MsgSaved default_output) ].

(** The events of [print_summary] up to the selection of the table. *)
Definition summary_events (df : DataFrame) : list event :=
  [ Print MsgRule; Print MsgResultsTitle; Print MsgRule;
    Print MsgSummaryTitle; Print MsgDashes ]
  ++ map (fun col => Print (MsgMetric col (Series_mean (df_col df col))
                                      (Series_std (df_col df col))))
         (filter (df_has df) metrics_cols)
  ++ [ Print MsgRule; Print MsgPerSampleTitle; Print MsgDashes ].

(** What the script may do to the outside: read the default input file,
    write the default output file, and call [evaluate] in non-fatal mode
    with its seven metrics. *)
Definition allowed (ev : event) : Prop :=
  match ev with
  | OpenRead p => p = default_input
  | OpenWrite p => p = default_output
  | Dump p _ => p = default_output
  | Evaluate _ ms flag => ms = metrics /\ flag = false
  | _ => True
  end.

Definition is_evaluate (ev : event) : bool :=
  match ev with
  | Evaluate _ _ _ => true
  | _ => false
  end.

Definition is_dump (ev : event) : bool :=
  match ev with
  | Dump _ _ => true
  | _ => false
  end.

(** The place of a call in a run: the input is opened, the dataset built,
    [evaluate] called, the output opened, the results dumped.  Printing and
    the invocations inside [evaluate] have no place of their own. *)
Definition rank (ev : event) : nat :=
  match ev with
  | Print _ => 0
  | Invoke _ => 0
  | OpenRead _ => 1
  | FromDict _ => 2
  | Evaluate _ _ _ => 3
  | OpenWrite _ => 4
  | Dump _ _ => 5
  end.

(** The calls of a log come in strictly increasing rank, above [k]. *)
Fixpoint ordered_from (k : nat) (l : list event) : bool :=
  match l with
  | [] => true
  | ev :: rest =>
      match rank ev with
      | O => ordered_from k rest
      | S r => (k <? S r)%nat && ordered_from (S r) rest
      end
  end.

(** The rank of the last call of a log, [k] when it has none. *)
Fixpoint final_rank (k : nat) (l : list event) : nat :=
  match l with
  | [] => k
  | ev :: rest =>
      match rank ev with
      | O => final_rank k rest
      | S r => final_rank (S r) rest
      end
  end.

(** A computation whose events are allowed and whose calls come in order,
    with ranks above [lo] and up to [hi]. *)
Definition staged (lo hi : nat) {A} (m : M A) : Prop :=
  forall s, exists l,
    log (snd (m s)) = log s ++ l
    /\ Forall allowed l
    /\ forall k, (k <= lo)%nat ->
         ordered_from k l = true /\ (final_rank k l <= hi)%nat.

(** * The provisioning script [scripts/setup-bedrock.py]

    The script creates an IAM role, an OpenSearch Serverless collection and
    an S3 bucket through [boto3].  Its control flow is embedded from the
    source over a record [AWS] of the service calls it makes; each call is
    made once at most in a run, so a call is a value of the record. *)
Module SetupBedrock.

(** What a call can raise.  [ClientError] carries
    [e.response['Error']['Code']] and [str(e)]; [OtherError] is any other
    instance of [Exception]; [Interrupt] and [SystemExit] derive from
    [BaseException] only. *)
Inductive error : Type :=
| ClientError (code : string) (text : string)
| OtherError (text : string)
| Interrupt
| SystemExit (status : nat).

(** [except Exception] *)
Definition is_Exception (e : error) : bool :=
  match e with
  | ClientError _ _ => true
  | OtherError _ => true
  | Interrupt => false
  | SystemExit _ => false
  end.

(** [except ClientError] *)
Definition is_ClientError (e : error) : bool :=
  match e with
  | ClientError _ _ => true
  | _ => false
  end.

(** [e.response['Error']['Code']] of a [ClientError]. *)
Definition error_code (e : error) : string :=
  match e with
  | ClientError code _ => code
  | _ => EmptyString
  end.

(** [str(e)] *)
Definition str (e : error) : string :=
  match e with
  | ClientError _ text => text
  | OtherError text => text
  | Interrupt => EmptyString
  | SystemExit _ => EmptyString
  end.

(** One constructor per [print] call site; the arguments are the values
    interpolated. *)
Inductive line : Type :=
| LRule                                   (* "="*60 *)
| LTitle                                  (* main, line 142 *)
| LAccount (account_id : string)          (* get_account_id, line 22 *)
| LAccountError (e : error)               (* line 25 *)
| LCreatingRole (role_name : string)      (* create_iam_role, line 30 *)
| LRoleCreated (role_arn : string)        (* line 52 *)
| LRoleExists                             (* line 56 *)
| LError (e : error)                      (* lines 60, 93, 117, 136 *)
| LAttaching (role_name : string)         (* attach_policies, line 65 *)
| LAttached                               (* line 91 *)
| LCreatingCollection (name : string)     (* create_aoss_collection, line 98 *)
| LCollectionCreated (arn : string)       (* line 107 *)
| LCollectionExists                       (* line 111 *)
| LCreatingBucket (bucket_name : string)  (* create_s3_bucket, line 122 *)
| LBucketCreated (bucket_name : string)   (* line 129 *)
| LBucketExists (bucket_name : string)    (* line 133 *)
| LComplete                               (* main, line 164 *)
| LSaveThese                              (* line 166 *)
| LRoleArn (role_arn : string)            (* line 167 *)
| LAossArn (aoss_arn : option string)     (* line 168 *)
| LBucket (s3_bucket : string).           (* line 169 *)

(** What the script does to the outside, in order. *)
Inductive call : Type :=
| Say (l : line)
| GetCallerIdentity
| CreateRole (role_name document description : string)
| GetRole (role_name : string)
| PutRolePolicy (role_name policy_name document : string)
| CreateCollection (name type description : string)
| ListCollections
| CreateBucket (bucket region : string).

(** The service calls, with the field the script reads from the response.
    A collection summary is its name and its ARN. *)
Record AWS : Type := mk_AWS {
  get_caller_identity : error + string;
  create_role : string -> string -> string -> error + string;
  get_role : string -> error + string;
  put_role_policy : string -> string -> string -> option error;
  create_collection : string -> string -> string -> error + string;
  list_collections : error + list (string * string);
  create_bucket : string -> string -> option error;
  dumps : json -> string
}.

(** The monad of the script: the log of calls, and exceptions. *)
Inductive result (A : Type) : Type :=
| Returns (a : A)
| Raises (e : error).
Arguments Returns {A} a.
Arguments Raises {A} e.

Definition T (A : Type) : Type := list call -> result A * list call.

Definition ret {A} (a : A) : T A := fun l => (Returns a, l).

Definition raise {A} (e : error) : T A := fun l => (Raises e, l).

Definition bind {A B} (m : T A) (k : A -> T B) : T B :=
  fun l =>
    match m l with
    | (Returns a, l') => k a l'
    | (Raises e, l') => (Raises e, l')
    end.

Notation "'let*' x ':=' c 'in' k" := (bind c (fun x => k))
  (at level 61, x name, c at next level, right associativity).
Notation "c >> k" := (bind c (fun _ => k))
  (at level 61, right associativity).

(** [try: body  except <handles> as e: handler e] *)
Definition try_except {A} (body : T A) (handles : error -> bool)
  (handler : error -> T A) : T A :=
  fun l =>
    match body l with
    | (Returns a, l') => (Returns a, l')
    | (Raises e, l') => if handles e then handler e l' else (Raises e, l')
    end.

Definition say (x : line) : T unit := fun l => (Returns tt, l ++ [Say x]).

(** A service call that returns a value. *)
Definition api {A} (c : call) (r : error + A) : T A :=
  fun l => (match r with
            | inl e => Raises e
            | inr a => Returns a
            end, l ++ [c]).

(** A service call whose response is not read. *)
Definition api_ (c : call) (r : option error) : T unit :=
  fun l => (match r with
            | Some e => Raises e
            | None => Returns tt
            end, l ++ [c]).

(** [sys.exit(status)] *)
Definition sys_exit {A} (status : nat) : T A := raise (SystemExit status).

(** [s.split(sep)] for a separator of one character. *)
Fixpoint split (sep : ascii) (s : string) : list string :=
  match s with
  | EmptyString => [EmptyString]
  | String c rest =>
      if Ascii.eqb c sep then EmptyString :: split sep rest
      else match split sep rest with
           | seg :: segs => String c seg :: segs
           | [] => [String c EmptyString]
           end
  end.

(** [role_arn.split('/')[-1]] *)
Definition last_segment (s : string) : string :=
  List.last (split "/"%char s) EmptyString.

(** [needle in hay] *)
Fixpoint contains (needle hay : string) : bool :=
  String.prefix needle hay
  || match hay with
     | EmptyString => false
     | String _ rest => contains needle rest
     end.

(** The loop of [create_aoss_collection] over the collection summaries:
    the ARN of the first one with the name, [None] when the loop ends. *)
Fixpoint find_collection (name : string) (summaries : list (string * string))
  : option string :=
  match summaries with
  | [] => None
  | (n, arn) :: rest =>
      if String.eqb n name then Some arn else find_collection name rest
  end.

Definition assume_role_policy : json :=
  JObj [ ("Version", JStr "2012-10-17");
         ("Statement",
          JArr [ JObj [ ("Effect", JStr "Allow");
                        ("Principal", JObj [("Service", JStr "bedrock.amazonaws.com")]);
                        ("Action", JStr "sts:AssumeRole") ] ]) ].

Definition policy_document : json :=
  JObj [ ("Version", JStr "2012-10-17");
         ("Statement",
          JArr [ JObj [ ("Effect", JStr "Allow");
                        ("Action",
                         JArr [ JStr "bedrock:*"; JStr "aoss:*"; JStr "s3:GetObject";
                                JStr "s3:ListBucket"; JStr "s3:PutObject";
                                JStr "s3:DeleteObject" ]);
                        ("Resource", JStr "*") ] ]) ].

(** [get_account_id()] *)
Definition get_account_id (W : AWS) : T string :=
  try_except
    (let* account_id := api GetCallerIdentity (get_caller_identity W) in
     say (LAccount account_id) >>
     ret account_id)
    is_Exception
    (fun e => say (LAccountError e) >> sys_exit 1).

(** [create_iam_role(role_name)] *)
Definition create_iam_role (W : AWS) (role_name : string) : T string :=
  say (LCreatingRole role_name) >>
  try_except
    (let* role_arn :=
       api (CreateRole role_name (dumps W assume_role_policy)
                       "Role for Bedrock Knowledge Base")
           (create_role W role_name (dumps W assume_role_policy)
                        "Role for Bedrock Knowledge Base") in
     say (LRoleCreated role_arn) >>
     ret role_arn)
    is_ClientError
    (fun e =>
       if String.eqb (error_code e) "EntityAlreadyExists"
       then say LRoleExists >>
            let* role_arn := api (GetRole role_name) (get_role W role_name) in
            ret role_arn
       else say (LError e) >> sys_exit 1).

(** [attach_policies(role_name)] *)
Definition attach_policies (W : AWS) (role_name : string) : T unit :=
  say (LAttaching role_name) >>
  try_except
    (api_ (PutRolePolicy role_name "bedrock-kb-policy" (dumps W policy_document))
          (put_role_policy W role_name "bedrock-kb-policy" (dumps W policy_document)) >>
     say LAttached)
    is_Exception
    (fun e => say (LError e) >> sys_exit 1).

(** [create_aoss_collection(collection_name)]; falling off the end of the
    loop returns [None]. *)
Definition create_aoss_collection (W : AWS) (collection_name : string)
  : T (option string) :=
  say (LCreatingCollection collection_name) >>
  try_except
    (let* collection_arn :=
       api (CreateCollection collection_name "VECTORSEARCH"
                             "Vector store for Bedrock Knowledge Base")
           (create_collection W collection_name "VECTORSEARCH"
                              "Vector store for Bedrock Knowledge Base") in
     say (LCollectionCreated collection_arn) >>
     ret (Some collection_arn))
    is_ClientError
    (fun e =>
       if contains "already exists" (str e)
       then say LCollectionExists >>
            let* summaries := api ListCollections (list_collections W) in
            ret (find_collection collection_name summaries)
       else say (LError e) >> sys_exit 1).

(** [create_s3_bucket(bucket_name)] *)
Definition create_s3_bucket (W : AWS) (bucket_name : string) : T string :=
  say (LCreatingBucket bucket_name) >>
  try_except
    (api_ (CreateBucket bucket_name "us-west-2")
          (create_bucket W bucket_name "us-west-2") >>
     say (LBucketCreated bucket_name) >>
     ret bucket_name)
    is_ClientError
    (fun e =>
       if String.eqb (error_code e) "BucketAlreadyOwnedByYou"
       then say (LBucketExists bucket_name) >> ret bucket_name
       else say (LError e) >> sys_exit 1).

(** [main()] *)
Definition main (W : AWS) : T unit :=
  say LRule >>
  say LTitle >>
  say LRule >>
  let* account_id := get_account_id W in
  let* role_arn := create_iam_role W "bedrock-kb-role" in
  let* _ := attach_policies W (last_segment role_arn) in
  let* aoss_arn := create_aoss_collection W "bedrock-kb-collection" in
  let* s3_bucket := create_s3_bucket W ("bedrock-kb-documents-" ++ account_id)%string in
  say LRule >>
  say LComplete >>
  say LRule >>
  say LSaveThese >>
  say (LRoleArn role_arn) >>
  say (LAossArn aoss_arn) >>
  say (LBucket s3_bucket) >>
  say LRule.

(** A run, from an empty log. *)
Definition run {A} (m : T A) : result A * list call := m [].

(** ** Vocabulary of the statements *)

(** The service calls of a log, without what is printed. *)
Fixpoint service_calls (l : list call) : list call :=
  match l with
  | [] => []
  | Say _ :: rest => service_calls rest
  | c :: rest => c :: service_calls rest
  end.

(** The values [main] reports at its end. *)
Fixpoint report (l : list call) : list line :=
  match l with
  | [] => []
  | Say (LRoleArn a) :: rest => LRoleArn a :: report rest
  | Say (LAossArn a) :: rest => LAossArn a :: report rest
  | Say (LBucket b) :: rest => LBucket b :: report rest
  | _ :: rest => report rest
  end.

(** No [/] in a string. *)
Fixpoint no_slash (s : string) : bool :=
  match s with
  | EmptyString => true
  | String c rest => negb (Ascii.eqb c "/"%char) && no_slash rest
  end.

(** The lines [main] starts with, and the lines it ends with. *)
Definition greeting : list call := [Say LRule; Say LTitle; Say LRule].

Definition closing (role_arn : string) (aoss_arn : option string)
  (s3_bucket : string) : list call :=
  [ Say LRule; Say LComplete; Say LRule; Say LSaveThese;
    Say (LRoleArn role_arn); Say (LAossArn aoss_arn); Say (LBucket s3_bucket);
    Say LRule ].

(** The calls of the first three steps when each succeeds at once. *)
Definition account_events (account_id : string) : list call :=
  [ GetCallerIdentity; Say (LAccount account_id) ].

Definition role_created_events (W : AWS) (role_arn : string) : list call :=
  [ Say (LCreatingRole "bedrock-kb-role");
    CreateRole "bedrock-kb-role" (dumps W assume_role_policy)
               "Role for Bedrock Knowledge Base";
    Say (LRoleCreated role_arn) ].

Definition role_existing_events (W : AWS) : list call :=
  [ Say (LCreatingRole "bedrock-kb-role");
    CreateRole "bedrock-kb-role" (dumps W assume_role_policy)
               "Role for Bedrock Knowledge Base";
    Say LRoleExists; GetRole "bedrock-kb-role" ].

Definition attach_events (W : AWS) (role_name : string) : list call :=
  [ Say (LAttaching role_name);
    PutRolePolicy role_name "bedrock-kb-policy" (dumps W policy_document);
    Say LAttached ].

Definition collection_created_events (arn : string) : list call :=
  [ Say (LCreatingCollection "bedrock-kb-collection");
    CreateCollection "bedrock-kb-collection" "VECTORSEARCH"
                     "Vector store for Bedrock Knowledge Base";
    Say (LCollectionCreated arn) ].

Definition collection_existing_events : list call :=
  [ Say (LCreatingCollection "bedrock-kb-collection");
    CreateCollection "bedrock-kb-collection" "VECTORSEARCH"
                     "Vector store for Bedrock Knowledge Base";
    Say LCollectionExists; ListCollections ].

Definition bucket_events (bucket_name : string) (created : bool) : list call :=
  [ Say (LCreatingBucket bucket_name); CreateBucket bucket_name "us-west-2";
    Say (if created then LBucketCreated bucket_name else LBucketExists bucket_name) ].

(** The place of a service call in a run; printing has none. *)
Definition step (c : call) : nat :=
  match c with
  | Say _ => 0
  | GetCallerIdentity => 1
  | CreateRole _ _ _ => 2
  | GetRole _ => 3
  | PutRolePolicy _ _ _ => 4
  | CreateCollection _ _ _ => 5
  | ListCollections => 6
  | CreateBucket _ _ => 7
  end.

(** A list of numbers that increases strictly, from above [k]. *)
Fixpoint increasing (k : nat) (l : list nat) : bool :=
  match l with
  | [] => true
  | n :: rest => (k <? n)%nat && increasing n rest
  end.

(** The call of place [n] was made. *)
Definition made (n : nat) (l : list call) : bool :=
  existsb (fun c => (step c =? n)%nat) l.

(** ** Sample accounts *)

(** An account in which nothing exists yet. *)
Definition fresh_aws : AWS :=
  {| get_caller_identity := inr "123456789012";
     create_role := fun name _ _ => inr ("arn:aws:iam::123456789012:role/" ++ name)%string;
     get_role := fun _ => inl (ClientError "NoSuchEntity" "no such role");
     put_role_policy := fun _ _ _ => None;
     create_collection := fun name _ _ =>
       inr ("arn:aws:aoss:us-west-2:123456789012:collection/" ++ name)%string;
     list_collections := inr [];
     create_bucket := fun _ _ => None;
     dumps := sample_dumps |}.

(** The same account after a run: every resource exists. *)
Definition provisioned_aws : AWS :=
  {| get_caller_identity := inr "123456789012";
     create_role := fun _ _ _ =>
       inl (ClientError "EntityAlreadyExists" "role already exists");
     get_role := fun name => inr ("arn:aws:iam::123456789012:role/" ++ name)%string;
     put_role_policy := fun _ _ _ => None;
     create_collection := fun _ _ _ =>
       inl (ClientError "ConflictException" "collection already exists");
     list_collections :=
       inr [ ("other", "arn:aws:aoss:us-west-2:123456789012:collection/other");
             ("bedrock-kb-collection",
              "arn:aws:aoss:us-west-2:123456789012:collection/bedrock-kb-collection") ];
     create_bucket := fun _ _ =>
       Some (ClientError "BucketAlreadyOwnedByYou" "bucket exists");
     dumps := sample_dumps |}.

(** An account whose collection exists but is not listed. *)
Definition unlisted_aws : AWS :=
  {| get_caller_identity := inr "123456789012";
     create_role := fun name _ _ => inr ("arn:aws:iam::123456789012:role/" ++ name)%string;
     get_role := fun _ => inl (ClientError "NoSuchEntity" "no such role");
     put_role_policy := fun _ _ _ => None;
     create_collection := fun _ _ _ =>
       inl (ClientError "ConflictException" "collection already exists");
     list_collections := inr [ ("other", "arn:other") ];
     create_bucket := fun _ _ => None;
     dumps := sample_dumps |}.

(** No credentials. *)
Definition anonymous_aws : AWS :=
  {| get_caller_identity := inl (OtherError "Unable to locate credentials");
     create_role := fun name _ _ => inr name;
     get_role := fun name => inr name;
     put_role_policy := fun _ _ _ => None;
     create_collection := fun name _ _ => inr name;
     list_collections := inr [];
     create_bucket := fun _ _ => None;
     dumps := sample_dumps |}.

End SetupBedrock.

(** * Properties *)

(** ** Stepping through the script *)

Lemma state_eta (s : state) : mk_state (fs s) (log s) = s.
Proof. destruct s; reflexivity. Qed.

Lemma for_each_emit {A} (f : A -> event) (l : list A) (s : state) :
  for_each l (fun x => emit (f x)) s
  = (Ret tt, mk_state (fs s) (log s ++ map f l)).
Proof.
  revert s; induction l as [|x l IH]; intros s; simpl.
  - rewrite app_nil_r, state_eta. reflexivity.
  - unfold bind at 1. unfold emit at 1. rewrite IH. simpl.
    rewrite <- app_assoc. reflexivity.
Qed.

(** The file is read and decoded. *)
Lemma load_ok (W : World) (path bytes : string) (data : json) (s : state) :
  inode_read path (fs s path) = inr bytes ->
  json_load W bytes = inr data ->
  load_evaluation_data W path s
  = (Ret data, mk_state (fs s) (log s ++ [Print (MsgLoading path); OpenRead path])).
Proof.
  intros Hr Hl.
  unfold load_evaluation_data, try_except, read_file, print, emit, lift, bind, ret.
  cbn. rewrite Hr, Hl. rewrite <- app_assoc. reflexivity.
Qed.

(** Opening the file raises [FileNotFoundError]. *)
Lemma load_missing (W : World) (path : string) (e : exn) (s : state) :
  inode_read path (fs s path) = inl e ->
  is_FileNotFoundError e = true ->
  load_evaluation_data W path s
  = (Ret JNull,
     mk_state (fs s)
       (log s ++ [Print (MsgLoading path); OpenRead path; Print (MsgFileNotFound path)])).
Proof.
  intros Hr He.
  unfold load_evaluation_data, try_except, read_file, print, emit, lift, bind, ret.
  cbn. rewrite Hr, He. cbn. rewrite <- !app_assoc. reflexivity.
Qed.

Lemma prepare_built (W : World) (fields : list (string * json)) (ds : Dataset)
  (s : state) :
  from_dict W (columns_of fields) = inr ds ->
  prepare_dataset W (JObj fields) s
  = (Ret ds,
     mk_state (fs s)
       (log s ++ [Print MsgPreparing; FromDict (columns_of fields);
                  Print (MsgPrepared (Dataset_len ds))])).
Proof.
  intros H.
  unfold prepare_dataset, print, emit, lift, bind, ret, py_get.
  cbn. fold (columns_of fields). rewrite H. cbn.
  rewrite <- !app_assoc. reflexivity.
Qed.

Lemma prepare_raises (W : World) (fields : list (string * json)) (e : exn)
  (s : state) :
  from_dict W (columns_of fields) = inl e ->
  prepare_dataset W (JObj fields) s
  = (Raise e,
     mk_state (fs s) (log s ++ [Print MsgPreparing; FromDict (columns_of fields)])).
Proof.
  intros H.
  unfold prepare_dataset, print, emit, lift, bind, ret, raise, py_get.
  cbn. fold (columns_of fields). rewrite H. cbn.
  rewrite <- !app_assoc. reflexivity.
Qed.

Lemma call_evaluate_eq (W : World) (ds : Dataset) (ms : list metric)
  (flag : bool) (s : state) :
  call_evaluate W ds ms flag s
  = (match fst (evaluate W ds ms flag) with
     | inl e => Raise e
     | inr r => Ret r
     end,
     mk_state (fs s) (log s ++ evaluate_events W ds ms flag)).
Proof.
  unfold call_evaluate, evaluate_events.
  unfold bind at 1. unfold emit at 1.
  unfold bind. rewrite for_each_emit. cbn.
  rewrite <- app_assoc. cbn.
  destruct (fst (evaluate W ds ms flag)); reflexivity.
Qed.

Lemma run_evaluation_returns (W : World) (ds : Dataset) (r : Results) (s : state) :
  fst (evaluate W ds metrics false) = inr r ->
  run_evaluation W ds s
  = (Ret (Some r),
     mk_state (fs s)
       (log s ++ [Print MsgRunning; Print MsgMayTakeMinutes]
              ++ evaluate_events W ds metrics false)).
Proof.
  intros H. unfold run_evaluation, try_except.
  unfold bind at 1. unfold print at 1, emit at 1.
  unfold bind at 1. unfold print at 1, emit at 1.
  unfold bind. rewrite call_evaluate_eq, H. cbn.
  rewrite <- !app_assoc. reflexivity.
Qed.

Lemma run_evaluation_caught (W : World) (ds : Dataset) (e : exn) (s : state) :
  fst (evaluate W ds metrics false) = inl e ->
  is_Exception e = true ->
  run_evaluation W ds s
  = (Ret None,
     mk_state (fs s)
       (log s ++ [Print MsgRunning; Print MsgMayTakeMinutes]
              ++ evaluate_events W ds metrics false
              ++ [Print (MsgEvalError e)])).
Proof.
  intros H He. unfold run_evaluation, try_except.
  unfold bind at 1. unfold print at 1, emit at 1.
  unfold bind at 1. unfold print at 1, emit at 1.
  unfold bind at 1. rewrite call_evaluate_eq, H, He.
  unfold bind, print, emit, ret. cbn.
  rewrite <- !app_assoc. reflexivity.
Qed.

(** ** The log and the file system along a run *)

Lemma replay_app (l1 l2 : list event) (p : string) (i : inode) :
  replay (l1 ++ l2) p i = replay l2 p (replay l1 p i).
Proof.
  revert i; induction l1 as [|ev l1 IH]; intros i; simpl; [reflexivity|].
  destruct ev; apply IH.
Qed.

Lemma tracked_ret {A} (a : A) : tracked (ret a).
Proof.
  intros s. exists []. cbn. rewrite app_nil_r. repeat split; auto.
Qed.

Lemma tracked_raise {A} (e : exn) : tracked (@raise A e).
Proof.
  intros s. exists []. cbn. rewrite app_nil_r. repeat split; auto.
Qed.

Lemma tracked_lift {A} (r : exn + A) : tracked (lift r).
Proof. destruct r; [apply tracked_raise | apply tracked_ret]. Qed.

Lemma tracked_emit (ev : event) : dumps_to_output ev -> (forall p q, ev <> Dump p q) ->
  tracked (emit ev).
Proof.
  intros Hd Hn s. exists [ev]. cbn. repeat split; auto.
  intros p. destruct ev; try reflexivity. exfalso. eapply Hn; reflexivity.
Qed.

Lemma tracked_print (m : message) : tracked (print m).
Proof. apply tracked_emit; [exact I | discriminate]. Qed.

Lemma tracked_bind {A B} (m : M A) (k : A -> M B) :
  tracked m -> (forall a, tracked (k a)) -> tracked (bind m k).
Proof.
  intros Hm Hk s. unfold bind.
  destruct (Hm s) as (l1 & Hl1 & Hd1 & Hf1).
  destruct (m s) as [[a|e] s1]; cbn in *.
  - destruct (Hk a s1) as (l2 & Hl2 & Hd2 & Hf2).
    exists (l1 ++ l2). rewrite Hl2, Hl1, app_assoc. repeat split.
    + apply Forall_app; auto.
    + intros p. rewrite Hf2, Hf1, replay_app. reflexivity.
  - exists l1. auto.
Qed.

Lemma tracked_try {A} (body : M A) (handles : exn -> bool) (handler : exn -> M A) :
  tracked body -> (forall e, tracked (handler e)) ->
  tracked (try_except body handles handler).
Proof.
  intros Hm Hk s. unfold try_except.
  destruct (Hm s) as (l1 & Hl1 & Hd1 & Hf1).
  destruct (body s) as [[a|e] s1]; cbn in *.
  - exists l1. auto.
  - destruct (handles e); cbn; [|exists l1; auto].
    destruct (Hk e s1) as (l2 & Hl2 & Hd2 & Hf2).
    exists (l1 ++ l2). rewrite Hl2, Hl1, app_assoc. repeat split.
    + apply Forall_app; auto.
    + intros p. rewrite Hf2, Hf1, replay_app. reflexivity.
Qed.

Lemma tracked_for_each {A} (l : list A) (body : A -> M unit) :
  (forall x, tracked (body x)) -> tracked (for_each l body).
Proof.
  intros Hb. induction l as [|x l IH]; simpl.
  - apply tracked_ret.
  - apply tracked_bind; auto.
Qed.

Lemma tracked_read_file (path : string) : tracked (read_file path).
Proof.
  unfold read_file. apply tracked_bind.
  - apply tracked_emit; [exact I | discriminate].
  - intros _ s. exists []. cbn. rewrite app_nil_r. repeat split; auto.
Qed.

Lemma tracked_write_file (payload : string) :
  tracked (write_file default_output payload).
Proof.
  unfold write_file. apply tracked_bind.
  - apply tracked_emit; [exact I | discriminate].
  - intros _ s. destruct (open_fault (fs s default_output)) eqn:Ho.
    + exists []. cbn. rewrite app_nil_r. repeat split; auto.
    + exists [Dump default_output payload]. cbn. repeat split.
      * constructor; [reflexivity | constructor].
      * intros p. unfold fs_set.
        destruct (String.eqb p default_output) eqn:E; [|reflexivity].
        apply String.eqb_eq in E. rewrite E. reflexivity.
Qed.

Create HintDb tracked.
#[local] Hint Resolve tracked_ret tracked_raise tracked_lift tracked_print
  tracked_read_file tracked_write_file : tracked.

Ltac tracked_steps :=
  repeat lazymatch goal with
    | |- tracked (bind _ _) => apply tracked_bind; [| intros ? ]
    | |- tracked (try_except _ _ _) => apply tracked_try; [| intros ? ]
    | |- tracked (for_each _ _) => apply tracked_for_each; intros ?
    | |- tracked (emit _) => apply tracked_emit; [exact I | discriminate]
    | |- tracked _ => solve [ auto with tracked ]
    end.

Lemma tracked_load (W : World) (path : string) :
  tracked (load_evaluation_data W path).
Proof. unfold load_evaluation_data. tracked_steps. Qed.

Lemma tracked_prepare (W : World) (data : json) : tracked (prepare_dataset W data).
Proof. unfold prepare_dataset. tracked_steps. Qed.

Lemma tracked_run_evaluation (W : World) (ds : Dataset) :
  tracked (run_evaluation W ds).
Proof. unfold run_evaluation, call_evaluate. tracked_steps. Qed.

Lemma tracked_save (W : World) (r : Results) :
  tracked (save_results W r default_output).
Proof. unfold save_results. tracked_steps. Qed.

Lemma tracked_print_summary (W : World) (r : Results) : tracked (print_summary W r).
Proof.
  unfold print_summary. tracked_steps.
  unfold print_metric. destruct (df_has _ _); auto with tracked.
Qed.

Lemma tracked_main (W : World) : tracked (main W).
Proof.
  unfold main. tracked_steps.
  - apply tracked_load.
  - match goal with d : json |- _ => destruct d end;
      try (apply tracked_bind; [apply tracked_prepare | intros ds];
           apply tracked_bind; [apply tracked_run_evaluation | intros [r|]];
           [ apply tracked_bind; [apply tracked_save | intros _; apply tracked_print_summary]
           | apply tracked_ret ]).
    unfold print_usage. tracked_steps.
Qed.

(** ** Runs that start from states the script cannot tell apart *)

Lemma sim_refl (s : state) : sim s s.
Proof. repeat split. Qed.

Lemma respects_ret {A} (a : A) : respects (ret a).
Proof. intros s t H. split; [reflexivity | exact H]. Qed.

Lemma respects_raise {A} (e : exn) : respects (@raise A e).
Proof. intros s t H. split; [reflexivity | exact H]. Qed.

Lemma respects_lift {A} (r : exn + A) : respects (lift r).
Proof. destruct r; [apply respects_raise | apply respects_ret]. Qed.

Lemma respects_emit (ev : event) : respects (emit ev).
Proof.
  intros s t (Hl & Hi & Hc). split; [reflexivity|].
  repeat split; cbn; auto; try apply Hc. now rewrite Hl.
Qed.

Lemma respects_print (m : message) : respects (print m).
Proof. apply respects_emit. Qed.

Lemma respects_bind {A B} (m : M A) (k : A -> M B) :
  respects m -> (forall a, respects (k a)) -> respects (bind m k).
Proof.
  intros Hm Hk s t H. unfold bind.
  destruct (Hm s t H) as [Ho Hs].
  destruct (m s) as [[a|e] s1], (m t) as [[a'|e'] t1]; cbn in *;
    try discriminate.
  - inversion Ho; subst a'. apply Hk, Hs.
  - inversion Ho; subst e'. split; [reflexivity | exact Hs].
Qed.

Lemma respects_try {A} (body : M A) (handles : exn -> bool) (handler : exn -> M A) :
  respects body -> (forall e, respects (handler e)) ->
  respects (try_except body handles handler).
Proof.
  intros Hm Hk s t H. unfold try_except.
  destruct (Hm s t H) as [Ho Hs].
  destruct (body s) as [[a|e] s1], (body t) as [[a'|e'] t1]; cbn in *;
    try discriminate.
  - inversion Ho; subst a'. split; [reflexivity | exact Hs].
  - inversion Ho; subst e'. destruct (handles e).
    + apply Hk, Hs.
    + split; [reflexivity | exact Hs].
Qed.

Lemma respects_for_each {A} (l : list A) (body : A -> M unit) :
  (forall x, respects (body x)) -> respects (for_each l body).
Proof.
  intros Hb. induction l as [|x l IH]; simpl.
  - apply respects_ret.
  - apply respects_bind; auto.
Qed.

Lemma respects_read_input : respects (read_file default_input).
Proof.
  unfold read_file. apply respects_bind; [apply respects_emit|].
  intros _ s t H. cbn. pose proof H as (Hl & Hi & Hc). rewrite Hi.
  split; [reflexivity | exact H].
Qed.

Lemma open_fault_written (q : string) (i : inode) :
  open_fault (written q i) = open_fault i.
Proof. destruct i; reflexivity. Qed.

Lemma dump_fault_written (q : string) (i : inode) :
  dump_fault (written q i) = dump_fault i.
Proof. destruct i; reflexivity. Qed.

Lemma same_class_written (q : string) (i j : inode) :
  same_class i j -> same_class (written q i) (written q j).
Proof.
  intros [Ho Hd]. split.
  - now rewrite !open_fault_written.
  - now rewrite !dump_fault_written.
Qed.

Lemma respects_write_output (payload : string) :
  respects (write_file default_output payload).
Proof.
  unfold write_file. apply respects_bind; [apply respects_emit|].
  intros _ s t H. destruct H as (Hl & Hi & Hc).
  destruct (Hc default_output) as [Ho Hd]. rewrite Ho, Hd.
  destruct (open_fault (fs t default_output)) eqn:Ht; cbn.
  - split; [reflexivity | repeat split; auto; apply Hc].
  - split; [reflexivity|].
    split; [cbn; now rewrite Hl|].
    split; [exact Hi|].
    intros p. cbn. unfold fs_set.
    destruct (String.eqb p default_output); [apply same_class_written|]; apply Hc.
Qed.

Create HintDb respects.
#[local] Hint Resolve respects_ret respects_raise respects_lift respects_print
  respects_emit respects_read_input respects_write_output : respects.

Ltac respects_steps :=
  repeat lazymatch goal with
    | |- respects (bind _ _) => apply respects_bind; [| intros ? ]
    | |- respects (try_except _ _ _) => apply respects_try; [| intros ? ]
    | |- respects (for_each _ _) => apply respects_for_each; intros ?
    | |- respects _ => solve [ auto with respects ]
    end.

Lemma respects_load (W : World) : respects (load_evaluation_data W default_input).
Proof. unfold load_evaluation_data. respects_steps. Qed.

Lemma respects_prepare (W : World) (data : json) : respects (prepare_dataset W data).
Proof. unfold prepare_dataset. respects_steps. Qed.

Lemma respects_run_evaluation (W : World) (ds : Dataset) :
  respects (run_evaluation W ds).
Proof. unfold run_evaluation, call_evaluate. respects_steps. Qed.

Lemma respects_save (W : World) (r : Results) :
  respects (save_results W r default_output).
Proof. unfold save_results. respects_steps. Qed.

Lemma respects_print_summary (W : World) (r : Results) :
  respects (print_summary W r).
Proof.
  unfold print_summary. respects_steps.
  unfold print_metric. destruct (df_has _ _); auto with respects.
Qed.

Lemma respects_main (W : World) : respects (main W).
Proof.
  unfold main. respects_steps.
  - apply respects_load.
  - match goal with d : json |- _ => destruct d end;
      try (apply respects_bind; [apply respects_prepare | intros ds];
           apply respects_bind; [apply respects_run_evaluation | intros [r|]];
           [ apply respects_bind;
             [apply respects_save | intros _; apply respects_print_summary]
           | apply respects_ret ]).
    unfold print_usage. respects_steps.
Qed.

(** ** Replaying the dumps of a log *)

Lemma written_absorbs (p q : string) (i : inode) :
  written q (written p i) = written q i.
Proof. destruct i; reflexivity. Qed.

Lemma replay_last (l : list event) (p : string) (i : inode) :
  replay l p i
  = match last_dump l p with
    | Some q => written q i
    | None => i
    end.
Proof.
  revert i; induction l as [|ev l IH]; intros i; simpl; [reflexivity|].
  destruct ev; try apply IH.
  rewrite IH. destruct (last_dump l p) as [q|].
  - destruct (String.eqb p path); [apply written_absorbs | reflexivity].
  - destruct (String.eqb p path); reflexivity.
Qed.

Lemma replay_twice (l : list event) (p : string) (i : inode) :
  replay l p (replay l p i) = replay l p i.
Proof.
  rewrite !replay_last. destruct (last_dump l p); [apply written_absorbs | reflexivity].
Qed.

Lemma replay_same_class (l : list event) (p : string) (i : inode) :
  same_class i (replay l p i).
Proof.
  rewrite replay_last. destruct (last_dump l p).
  - split; [now rewrite open_fault_written | now rewrite dump_fault_written].
  - split; reflexivity.
Qed.

Lemma last_dump_elsewhere (l : list event) (p : string) :
  Forall dumps_to_output l -> p <> default_output -> last_dump l p = None.
Proof.
  intros H Hp. induction H as [|ev l Hev _ IH]; simpl; [reflexivity|].
  destruct ev; try exact IH.
  rewrite IH. cbn in Hev. subst path.
  destruct (String.eqb p default_output) eqn:E; [|reflexivity].
  apply String.eqb_eq in E. contradiction.
Qed.

Lemma replay_input (l : list event) (i : inode) :
  Forall dumps_to_output l -> replay l default_input i = i.
Proof.
  intros H. rewrite replay_last, last_dump_elsewhere; auto. discriminate.
Qed.

(** ** The pipeline run twice *)

(** C7: the pipeline run a second time, on the file system the first run
    left, gives the same outcome, prints and performs the same events, and
    leaves every file as the first run left it: the output artifact of the
    second run is byte-identical to that of the first. *)
Theorem C7_main_twice_same_report (W : World) (disk : filesystem) :
  let first := run (main W) disk in
  let second := run (main W) (fs (snd first)) in
  fst second = fst first
  /\ log (snd second) = log (snd first)
  /\ forall p, fs (snd second) p = fs (snd first) p.
Proof.
  cbv zeta. unfold run.
  set (s0 := mk_state disk []).
  set (s1 := snd (main W s0)).
  set (t0 := mk_state (fs s1) []).
  destruct (tracked_main W s0) as (l & Hl & Hd & Hf).
  fold s1 in Hl, Hf. change (log s0 ++ l) with l in Hl.
  change (fs s0) with disk in Hf.
  assert (Hsim : sim s0 t0).
  { split; [reflexivity|]. split.
    - change (disk default_input = fs s1 default_input).
      rewrite Hf. symmetry. apply replay_input, Hd.
    - intros p. change (same_class (disk p) (fs s1 p)).
      rewrite Hf. apply replay_same_class. }
  destruct (respects_main W s0 t0 Hsim) as [Ho (Hlog & _ & _)].
  fold s1 in Hlog.
  destruct (tracked_main W t0) as (l' & Hl' & _ & Hf').
  change (log t0 ++ l') with l' in Hl'. change (fs t0) with (fs s1) in Hf'.
  assert (E : l' = l) by congruence. rewrite E in Hf'.
  split; [symmetry; exact Ho|]. split; [symmetry; exact Hlog|].
  intros p. rewrite Hf', !Hf. apply replay_twice.
Qed.

(** ** The stages of [main] *)

Lemma main_missing (W : World) (e : exn) (s : state) :
  inode_read default_input (fs s default_input) = inl e ->
  is_FileNotFoundError e = true ->
  main W s
  = (Ret tt,
     mk_state (fs s)
       (log s ++ loading_events ++ Print (MsgFileNotFound default_input)
              :: map (fun i => Print (MsgUsage i)) (seq 0 9))).
Proof.
  intros Hr He. unfold main.
  unfold bind at 1, print at 1, emit at 1.
  unfold bind at 1, print at 1, emit at 1.
  unfold bind at 1, print at 1, emit at 1.
  unfold bind at 1.
  rewrite (load_missing W default_input e); [| exact Hr | exact He].
  unfold print_usage, print. rewrite for_each_emit. cbn.
  rewrite <- !app_assoc. reflexivity.
Qed.

(** What [main] does once the input file is decoded to a mapping. *)
Lemma main_loaded (W : World) (bytes : string) (fields : list (string * json))
  (s : state) :
  inode_read default_input (fs s default_input) = inr bytes ->
  json_load W bytes = inr (JObj fields) ->
  main W s
  = (dataset <- prepare_dataset W (JObj fields) ;;
     results <- run_evaluation W dataset ;;
     match results with
     | None => ret tt
     | Some r => save_results W r default_output ;; print_summary W r
     end) (mk_state (fs s) (log s ++ loading_events)).
Proof.
  intros Hr Hl. unfold main.
  unfold bind at 1, print at 1, emit at 1.
  unfold bind at 1, print at 1, emit at 1.
  unfold bind at 1, print at 1, emit at 1.
  unfold bind at 1.
  rewrite (load_ok W default_input bytes (JObj fields)); [| exact Hr | exact Hl].
  cbn [fs log]. rewrite <- !app_assoc. reflexivity.
Qed.

Lemma existsb_map_Invoke (f : event -> bool) (l : list metric) :
  (forall m, f (Invoke m) = false) -> existsb f (map Invoke l) = false.
Proof.
  intros H. induction l as [|m l IH]; simpl; [reflexivity|].
  now rewrite H, IH.
Qed.

(** ** Loading *)

(** C9: when the input file cannot be found, [load_evaluation_data]
    returns [None] and raises nothing; [main] then prints the usage
    instructions and returns, with no dataset built, no metric work and no
    output written: the file system is left as it was. *)
Theorem C9_missing_input_stops_the_run (W : World) (disk : filesystem) :
  file_missing default_input (disk default_input) = true ->
  run (load_evaluation_data W default_input) disk
  = (Ret JNull,
     mk_state disk [ Print (MsgLoading default_input); OpenRead default_input;
                     Print (MsgFileNotFound default_input) ])
  /\ run (main W) disk
     = (Ret tt,
        mk_state disk
          (loading_events ++ Print (MsgFileNotFound default_input)
             :: map (fun i => Print (MsgUsage i)) (seq 0 9)))
  /\ existsb is_build (log (snd (run (main W) disk))) = false
  /\ existsb is_metric_work (log (snd (run (main W) disk))) = false
  /\ existsb is_output (log (snd (run (main W) disk))) = false.
Proof.
  unfold file_missing. intros H.
  destruct (inode_read default_input (disk default_input)) as [e|] eqn:Hr;
    [| discriminate].
  assert (Hm : run (main W) disk
               = (Ret tt,
                  mk_state disk
                    (loading_events ++ Print (MsgFileNotFound default_input)
                       :: map (fun i => Print (MsgUsage i)) (seq 0 9)))).
  { unfold run. rewrite (main_missing W e); [reflexivity | exact Hr | exact H]. }
  split.
  - unfold run. rewrite (load_missing W default_input e); [reflexivity | exact Hr | exact H].
  - split; [exact Hm|]. rewrite Hm. repeat split; reflexivity.
Qed.

Lemma C9_missing_input_witness :
  file_missing default_input (disk_with Absent Absent default_input) = true
  /\ fst (run (main sample_world) (disk_with Absent Absent)) = Ret tt.
Proof.
  split; [reflexivity|].
  destruct (C9_missing_input_stops_the_run sample_world (disk_with Absent Absent))
    as (_ & Hm & _); [reflexivity|].
  rewrite Hm. reflexivity.
Defined.

(** ** An exception of [evaluate] *)

(** C10: when the call of [evaluate] raises an exception (an instance of
    [Exception]), [run_evaluation] prints the error and returns [None];
    [main] then returns at once: nothing is opened for writing, no result
    is printed, and the file system is left as it was. *)
Theorem C10_evaluate_exception_ends_the_run (W : World) (disk : filesystem)
  (bytes : string) (fields : list (string * json)) (ds : Dataset) (e : exn) :
  inode_read default_input (disk default_input) = inr bytes ->
  json_load W bytes = inr (JObj fields) ->
  from_dict W (columns_of fields) = inr ds ->
  fst (evaluate W ds metrics false) = inl e ->
  is_Exception e = true ->
  (forall s, run_evaluation W ds s
             = (Ret None,
                mk_state (fs s)
                  (log s ++ [Print MsgRunning; Print MsgMayTakeMinutes]
                         ++ evaluate_events W ds metrics false
                         ++ [Print (MsgEvalError e)])))
  /\ run (main W) disk
     = (Ret tt,
        mk_state disk
          (loading_events ++ prepare_events fields ds
             ++ [Print MsgRunning; Print MsgMayTakeMinutes]
             ++ evaluate_events W ds metrics false
             ++ [Print (MsgEvalError e)]))
  /\ existsb is_output (log (snd (run (main W) disk))) = false
  /\ existsb is_result_print (log (snd (run (main W) disk))) = false.
Proof.
  intros Hr Hl Hd Hev He.
  assert (Hm : run (main W) disk
     = (Ret tt,
        mk_state disk
          (loading_events ++ prepare_events fields ds
             ++ [Print MsgRunning; Print MsgMayTakeMinutes]
             ++ evaluate_events W ds metrics false
             ++ [Print (MsgEvalError e)]))).
  { unfold run. rewrite (main_loaded W bytes fields); [| exact Hr | exact Hl].
    unfold bind at 1. rewrite (prepare_built W fields ds); [| exact Hd].
    unfold bind at 1. rewrite (run_evaluation_caught W ds e); [| exact Hev | exact He].
    cbn [fs log ret]. unfold prepare_events. rewrite <- !app_assoc. reflexivity. }
  split; [intros s; apply run_evaluation_caught; assumption|].
  split; [exact Hm|]. rewrite Hm. cbn [snd log].
  unfold evaluate_events.
  split; rewrite !existsb_app; simpl; rewrite existsb_map_Invoke; reflexivity.
Qed.

Lemma C10_evaluate_exception_witness :
  is_Exception (mk_exn ValueError "no judge model") = true
  /\ fst (run (main broken_evaluate_world) (disk_with (File "data") Absent)) = Ret tt
  /\ fs (snd (run (main broken_evaluate_world) (disk_with (File "data") Absent)))
       default_output = Absent.
Proof.
  destruct (C10_evaluate_exception_ends_the_run broken_evaluate_world
              (disk_with (File "data") Absent) "data"
              [ ("questions", JArr [JStr "q1"; JStr "q2"; JStr "q3"]);
                ("answers", JArr [JStr "a1"; JStr ""; JStr "a3"]);
                ("contexts", JArr [JArr [JStr "c1"]; JArr []; JArr [JStr "c3"; JStr "c4"]]);
                ("ground_truths", JArr [JStr "g1"; JStr "g2"; JStr "g3"]) ]
              sample_dataset (mk_exn ValueError "no judge model"))
    as (_ & Hm & _); try reflexivity.
  rewrite Hm. repeat split; reflexivity.
Defined.

(** ** Building the dataset *)

Lemma run_evaluation_escapes (W : World) (ds : Dataset) (e : exn) (s : state) :
  fst (evaluate W ds metrics false) = inl e ->
  is_Exception e = false ->
  run_evaluation W ds s
  = (Raise e,
     mk_state (fs s)
       (log s ++ [Print MsgRunning; Print MsgMayTakeMinutes]
              ++ evaluate_events W ds metrics false)).
Proof.
  intros H He. unfold run_evaluation, try_except.
  unfold bind at 1. unfold print at 1, emit at 1.
  unfold bind at 1. unfold print at 1, emit at 1.
  unfold bind at 1. rewrite call_evaluate_eq, H, He. cbn.
  rewrite <- !app_assoc. reflexivity.
Qed.

(** Whatever [evaluate] does, [run_evaluation] logs its call. *)
Lemma run_evaluation_log (W : World) (ds : Dataset) (s : state) :
  exists tail,
    snd (run_evaluation W ds s)
    = mk_state (fs s)
        (log s ++ [Print MsgRunning; Print MsgMayTakeMinutes]
               ++ evaluate_events W ds metrics false ++ tail).
Proof.
  destruct (fst (evaluate W ds metrics false)) as [e|r] eqn:H.
  - destruct (is_Exception e) eqn:He.
    + exists [Print (MsgEvalError e)]. now rewrite (run_evaluation_caught W ds e).
    + exists []. rewrite (run_evaluation_escapes W ds e); auto.
      now rewrite app_nil_r.
  - exists []. rewrite (run_evaluation_returns W ds r); auto.
    now rewrite app_nil_r.
Qed.

Lemma tracked_report (W : World) (results : option Results) :
  tracked (match results with
           | None => ret tt
           | Some r => save_results W r default_output ;; print_summary W r
           end).
Proof.
  destruct results as [r|]; [| apply tracked_ret].
  apply tracked_bind; [apply tracked_save | intros _; apply tracked_print_summary].
Qed.

Lemma report_log (W : World) (ds : Dataset) (s : state) :
  exists tail,
    log (snd ((results <- run_evaluation W ds ;;
               match results with
               | None => ret tt
               | Some r => save_results W r default_output ;; print_summary W r
               end) s))
    = log s ++ [Print MsgRunning; Print MsgMayTakeMinutes]
            ++ evaluate_events W ds metrics false ++ tail.
Proof.
  unfold bind at 1.
  destruct (run_evaluation_log W ds s) as [tail Ht].
  destruct (run_evaluation W ds s) as [[res|e] s3]; cbn [snd] in *.
  - destruct (tracked_report W res s3) as (l & Hlog & _).
    rewrite Hlog, Ht. cbn [log]. exists (tail ++ l).
    rewrite <- !app_assoc. reflexivity.
  - rewrite Ht. cbn [log]. exists tail. reflexivity.
Qed.

Lemma Dataset_from_dict_differ (c : columns) :
  lengths_differ c = true ->
  exists e, Dataset_from_dict c = inl e /\ cls e = ArrowInvalid.
Proof.
  unfold lengths_differ, column_lengths, Dataset_from_dict.
  destruct (col_question c), (col_answer c), (col_contexts c),
    (col_ground_truth c); try discriminate.
  intros H.
  destruct (List.length items0 =? List.length items)%nat; cbn in *;
    [| eexists; split; reflexivity].
  destruct (List.length items1 =? List.length items)%nat; cbn in *;
    [| eexists; split; reflexivity].
  destruct (List.length items2 =? List.length items)%nat; cbn in *;
    [discriminate | eexists; split; reflexivity].
Qed.

Lemma Dataset_from_dict_equal (q a x g : list json) :
  List.length a = List.length q ->
  List.length x = List.length q ->
  List.length g = List.length q ->
  Dataset_from_dict (mk_columns (JArr q) (JArr a) (JArr x) (JArr g))
  = inr (mk_Dataset q a x g).
Proof.
  intros Ha Hx Hg. unfold Dataset_from_dict. cbn.
  rewrite Ha, Hx, Hg, Nat.eqb_refl. reflexivity.
Qed.

(** An exception of [Dataset.from_dict] leaves [main] unchanged. *)
Lemma main_from_dict_raises (W : World) (disk : filesystem) (bytes : string)
  (fields : list (string * json)) (e : exn) :
  inode_read default_input (disk default_input) = inr bytes ->
  json_load W bytes = inr (JObj fields) ->
  from_dict W (columns_of fields) = inl e ->
  run (main W) disk
  = (Raise e,
     mk_state disk
       (loading_events ++ [Print MsgPreparing; FromDict (columns_of fields)]))
  /\ existsb is_metric_work (log (snd (run (main W) disk))) = false.
Proof.
  intros Hr Hl He.
  assert (Hm : run (main W) disk
     = (Raise e,
        mk_state disk
          (loading_events ++ [Print MsgPreparing; FromDict (columns_of fields)]))).
  { unfold run. rewrite (main_loaded W bytes fields); [| exact Hr | exact Hl].
    unfold bind at 1. rewrite (prepare_raises W fields e); [| exact He].
    reflexivity. }
  split; [exact Hm|]. rewrite Hm. reflexivity.
Qed.

(** C2, as the code has it: [prepare_dataset] checks nothing itself and
    hands the four columns to [Dataset.from_dict].  When [from_dict] raises,
    as the library does for sequences that differ in length, the exception
    leaves [main] as it is, just after the call, and [evaluate] is never
    called; when it returns a dataset, as the library does for four empty
    sequences, the run goes on and [evaluate] is called on that dataset. *)
Theorem C2_validation_is_left_to_from_dict (W : World) (disk : filesystem)
  (bytes : string) (fields : list (string * json)) :
  inode_read default_input (disk default_input) = inr bytes ->
  json_load W bytes = inr (JObj fields) ->
  (forall e, from_dict W (columns_of fields) = inl e ->
     run (main W) disk
     = (Raise e,
        mk_state disk
          (loading_events ++ [Print MsgPreparing; FromDict (columns_of fields)]))
     /\ existsb is_metric_work (log (snd (run (main W) disk))) = false)
  /\ (forall ds, from_dict W (columns_of fields) = inr ds ->
        exists tail,
          log (snd (run (main W) disk))
          = loading_events ++ prepare_events fields ds
              ++ [Print MsgRunning; Print MsgMayTakeMinutes]
              ++ evaluate_events W ds metrics false ++ tail)
  /\ (lengths_differ (columns_of fields) = true ->
        exists e, Dataset_from_dict (columns_of fields) = inl e
                  /\ cls e = ArrowInvalid)
  /\ (column_lengths (columns_of fields) = Some (0, 0, 0, 0)%nat ->
        Dataset_from_dict (columns_of fields) = inr (mk_Dataset [] [] [] [])).
Proof.
  intros Hr Hl. split; [| split; [| split]].
  - intros e He. apply (main_from_dict_raises W disk bytes fields e); assumption.
  - intros ds Hd. unfold run.
    rewrite (main_loaded W bytes fields); [| exact Hr | exact Hl].
    unfold bind at 1. rewrite (prepare_built W fields ds); [| exact Hd].
    cbn [fs log app].
    match goal with |- context [bind _ _ ?s] =>
      destruct (report_log W ds s) as [tail Ht]; rewrite Ht
    end.
    cbn [log]. exists tail. unfold loading_events, prepare_events.
    rewrite <- !app_assoc. reflexivity.
  - apply Dataset_from_dict_differ.
  - unfold column_lengths, Dataset_from_dict.
    destruct (col_question (columns_of fields)),
      (col_answer (columns_of fields)), (col_contexts (columns_of fields)),
      (col_ground_truth (columns_of fields)); try discriminate.
    intros H. inversion H as [[H1 H2 H3 H4]].
    destruct items, items0, items1, items2; try discriminate. reflexivity.
Qed.

Lemma C2_validation_witness :
  (inode_read default_input (disk_with (File "{}") Absent default_input) = inr "{}"
   /\ json_load sample_world "{}" = inr (JObj [])
   /\ exists tail,
        log (snd (run (main sample_world) (disk_with (File "{}") Absent)))
        = loading_events ++ prepare_events [] (mk_Dataset [] [] [] [])
            ++ [Print MsgRunning; Print MsgMayTakeMinutes]
            ++ evaluate_events sample_world (mk_Dataset [] [] [] []) metrics false
            ++ tail)
  /\ (json_load sample_world "no truth" = inr no_truth_data
      /\ fst (run (main sample_world) (disk_with (File "no truth") Absent))
         = Raise (mk_exn ArrowInvalid "ground_truth")).
Proof.
  split.
  - split; [reflexivity|]. split; [reflexivity|].
    destruct (C2_validation_is_left_to_from_dict sample_world
                (disk_with (File "{}") Absent) "{}" [] eq_refl eq_refl)
      as (_ & Hbuilt & _).
    apply Hbuilt. reflexivity.
  - split; [reflexivity|].
    destruct (C2_validation_is_left_to_from_dict sample_world
                (disk_with (File "no truth") Absent) "no truth"
                [ ("questions", JArr [JStr "q1"]);
                  ("answers", JArr [JStr "a1"]);
                  ("contexts", JArr [JArr [JStr "c1"]]) ] eq_refl eq_refl)
      as (Hraise & _).
    destruct (Hraise (mk_exn ArrowInvalid "ground_truth") eq_refl) as [Hm _].
    rewrite Hm. reflexivity.
Defined.

(** C2 as stated fails on the empty mapping: its four sequences have
    the common length 0, yet a dataset of 0 samples is built, [evaluate] is
    called on it with the seven metrics, and the run ends normally. *)
Lemma C2_empty_input_counterexample :
  ~ (forall (fields : list (string * json)) (disk : filesystem) (bytes : string),
       lengths_invalid (columns_of fields) = true ->
       inode_read default_input (disk default_input) = inr bytes ->
       json_load sample_world bytes = inr (JObj fields) ->
       (exists e, fst (run (prepare_dataset sample_world (JObj fields)) disk) = Raise e)
       /\ existsb is_metric_work (log (snd (run (main sample_world) disk))) = false).
Proof.
  intros H.
  destruct (H [] (disk_with (File "{}") Absent) "{}" eq_refl eq_refl eq_refl)
    as [_ Hwork].
  vm_compute in Hwork. discriminate.
Qed.

(** C5: for a mapping whose four sequences have one common length, the
    dataset that [prepare_dataset] returns holds exactly those four
    sequences: as many samples as the input, each value at the index it had,
    and no value changed.  ([Dataset.from_dict] is its reference model.) *)
Theorem C5_dataset_keeps_the_columns (loads : string -> exn + json)
  (dumps : json -> string) (cap : metric -> capability)
  (fields : list (string * json)) (q a x g : list json) (s : state) :
  dict_get fields "questions" (JArr []) = JArr q ->
  dict_get fields "answers" (JArr []) = JArr a ->
  dict_get fields "contexts" (JArr []) = JArr x ->
  dict_get fields "ground_truths" (JArr []) = JArr g ->
  List.length a = List.length q ->
  List.length x = List.length q ->
  List.length g = List.length q ->
  exists ds,
    fst (prepare_dataset (library_world loads dumps cap) (JObj fields) s) = Ret ds
    /\ Dataset_len ds = List.length q
    /\ (forall i, nth_error (question ds) i = nth_error q i)
    /\ (forall i, nth_error (answer ds) i = nth_error a i)
    /\ (forall i, nth_error (contexts ds) i = nth_error x i)
    /\ (forall i, nth_error (ground_truth ds) i = nth_error g i)
    /\ ds = mk_Dataset q a x g.
Proof.
  intros Hq Ha Hx Hg La Lx Lg.
  exists (mk_Dataset q a x g).
  rewrite (prepare_built _ fields (mk_Dataset q a x g)).
  - repeat split; reflexivity.
  - unfold columns_of. rewrite Hq, Ha, Hx, Hg. cbn [from_dict library_world].
    apply Dataset_from_dict_equal; assumption.
Qed.

Lemma C5_dataset_witness :
  exists ds,
    fst (prepare_dataset sample_world sample_data (mk_state (disk_with Absent Absent) []))
    = Ret ds
    /\ Dataset_len ds = 3%nat
    /\ nth_error (answer ds) 1 = Some (JStr "").
Proof.
  destruct (C5_dataset_keeps_the_columns sample_loads sample_dumps sample_cap
              [ ("questions", JArr [JStr "q1"; JStr "q2"; JStr "q3"]);
                ("answers", JArr [JStr "a1"; JStr ""; JStr "a3"]);
                ("contexts", JArr [JArr [JStr "c1"]; JArr []; JArr [JStr "c3"; JStr "c4"]]);
                ("ground_truths", JArr [JStr "g1"; JStr "g2"; JStr "g3"]) ]
              [JStr "q1"; JStr "q2"; JStr "q3"]
              [JStr "a1"; JStr ""; JStr "a3"]
              [JArr [JStr "c1"]; JArr []; JArr [JStr "c3"; JStr "c4"]]
              [JStr "g1"; JStr "g2"; JStr "g3"]
              (mk_state (disk_with Absent Absent) [])
              eq_refl eq_refl eq_refl eq_refl eq_refl eq_refl eq_refl)
    as (ds & Hret & Hlen & _ & Hans & _).
  exists ds. split; [exact Hret|]. split; [exact Hlen|].
  rewrite Hans. reflexivity.
Defined.

Lemma dict_get_missing (fields : list (string * json)) (key : string)
  (default : json) :
  dict_has fields key = false -> dict_get fields key default = default.
Proof.
  unfold dict_has. induction fields as [|[k v] rest IH]; simpl; [reflexivity|].
  destruct (String.eqb k key); [discriminate | exact IH].
Qed.

(** C6, as the code has it: a key that is missing from the input mapping
    is read as an empty sequence, and the lookup raises nothing.  The empty
    column goes to [Dataset.from_dict] with the others: when [ground_truths]
    is missing and [questions] is a non-empty sequence, [from_dict] raises,
    the exception leaves [main], and [evaluate] is never called.
    ([Dataset.from_dict] is its reference model.) *)
Theorem C6_missing_key_is_an_empty_column (loads : string -> exn + json)
  (dumps : json -> string) (cap : metric -> capability) (disk : filesystem)
  (bytes : string) (fields : list (string * json)) (q : json) (qs : list json) :
  inode_read default_input (disk default_input) = inr bytes ->
  loads bytes = inr (JObj fields) ->
  dict_has fields "ground_truths" = false ->
  dict_get fields "questions" (JArr []) = JArr (q :: qs) ->
  (forall key, dict_has fields key = false ->
     py_get (JObj fields) key (JArr []) = inr (JArr []))
  /\ col_ground_truth (columns_of fields) = JArr []
  /\ exists e,
       Dataset_from_dict (columns_of fields) = inl e
       /\ run (main (library_world loads dumps cap)) disk
          = (Raise e,
             mk_state disk
               (loading_events ++ [Print MsgPreparing; FromDict (columns_of fields)]))
       /\ existsb is_metric_work
            (log (snd (run (main (library_world loads dumps cap)) disk))) = false.
Proof.
  intros Hr Hl Hmiss Hq.
  split; [intros key Hk; cbn; now rewrite dict_get_missing|].
  assert (Hg : col_ground_truth (columns_of fields) = JArr []).
  { cbn. now apply dict_get_missing. }
  split; [exact Hg|].
  assert (He : exists e, Dataset_from_dict (columns_of fields) = inl e).
  { unfold Dataset_from_dict. rewrite Hg. cbn [col_question columns_of]. rewrite Hq.
    destruct (col_answer (columns_of fields)); try (eexists; reflexivity).
    destruct (col_contexts (columns_of fields)); try (eexists; reflexivity).
    destruct (negb _); [eexists; reflexivity|].
    destruct (negb _); [eexists; reflexivity|].
    cbn. eexists; reflexivity. }
  destruct He as [e He]. exists e. split; [exact He|].
  apply (main_from_dict_raises (library_world loads dumps cap) disk bytes fields e);
    assumption.
Qed.

Lemma C6_missing_key_witness :
  dict_has [ ("questions", JArr [JStr "q1"]); ("answers", JArr [JStr "a1"]);
             ("contexts", JArr [JArr [JStr "c1"]]) ] "ground_truths" = false
  /\ fst (run (main sample_world) (disk_with (File "no truth") Absent))
     = Raise (mk_exn ArrowInvalid "ground_truth").
Proof.
  split; [reflexivity|].
  destruct (C6_missing_key_is_an_empty_column sample_loads sample_dumps sample_cap
              (disk_with (File "no truth") Absent) "no truth"
              [ ("questions", JArr [JStr "q1"]); ("answers", JArr [JStr "a1"]);
                ("contexts", JArr [JArr [JStr "c1"]]) ]
              (JStr "q1") [] eq_refl eq_refl eq_refl eq_refl)
    as (_ & _ & e & He & Hm & _).
  change (run (main sample_world) (disk_with (File "no truth") Absent)
          = (Raise e,
             mk_state (disk_with (File "no truth") Absent)
               (loading_events
                  ++ [Print MsgPreparing;
                      FromDict (columns_of
                        [ ("questions", JArr [JStr "q1"]);
                          ("answers", JArr [JStr "a1"]);
                          ("contexts", JArr [JArr [JStr "c1"]]) ])]))) in Hm.
  rewrite Hm. cbn [fst]. vm_compute in He. congruence.
Defined.

(** C6 as stated fails on a one-sample mapping without [ground_truths]:
    the run is aborted by the exception of [Dataset.from_dict], before
    any metric is invoked, so no metric reports anything. *)
Lemma C6_missing_ground_truths_counterexample :
  ~ (forall (fields : list (string * json)) (disk : filesystem) (bytes : string),
       dict_has fields "ground_truths" = false ->
       inode_read default_input (disk default_input) = inr bytes ->
       json_load sample_world bytes = inr (JObj fields) ->
       fst (run (main sample_world) disk) = Ret tt
       /\ existsb is_metric_work (log (snd (run (main sample_world) disk))) = true).
Proof.
  intros H.
  destruct (H [ ("questions", JArr [JStr "q1"]); ("answers", JArr [JStr "a1"]);
                ("contexts", JArr [JArr [JStr "c1"]]) ]
              (disk_with (File "no truth") Absent) "no truth"
              eq_refl eq_refl eq_refl) as [Hret _].
  vm_compute in Hret. discriminate.
Qed.

(** ** The Metric Runner *)

Lemma metric_name_inj (a b : metric) : metric_name a = metric_name b -> a = b.
Proof. destruct a, b; simpl; intros H; try reflexivity; discriminate. Qed.

Lemma metric_eqb_eq (a b : metric) : metric_eqb a b = true <-> a = b.
Proof.
  unfold metric_eqb. rewrite String.eqb_eq. split.
  - apply metric_name_inj.
  - now intros ->.
Qed.

(** In non-fatal mode the Runner invokes every metric and never raises. *)
Lemma Runner_isolates (cap : metric -> capability) (ds : Dataset) (ms : list metric) :
  Runner cap ds ms false = (inr (map (entry_of cap ds) ms), ms).
Proof.
  induction ms as [|m ms IH]; simpl; [reflexivity|].
  rewrite IH. unfold entry_of. destruct (cap m ds); reflexivity.
Qed.

Lemma runner_results_eq (cap : metric -> capability) (ds : Dataset) (ms : list metric) :
  runner_results cap ds ms = map (entry_of cap ds) ms.
Proof. unfold runner_results. now rewrite Runner_isolates. Qed.

Lemma Results_get_entry (cap : metric -> capability) (ds : Dataset)
  (ms : list metric) (m : metric) :
  In m ms ->
  Results_get (map (entry_of cap ds) ms) (metric_name m)
  = Some (snd (entry_of cap ds m)).
Proof.
  induction ms as [|m0 ms IH]; simpl; [contradiction|].
  intros Hin. destruct (String.eqb (metric_name m0) (metric_name m)) eqn:E.
  - apply String.eqb_eq, metric_name_inj in E. now subst m0.
  - destruct Hin as [->|Hin]; [now rewrite String.eqb_refl in E | auto].
Qed.

Lemma Results_get_without (cap : metric -> capability) (ds : Dataset)
  (ms : list metric) (m m' : metric) :
  m' <> m ->
  Results_get (map (entry_of cap ds) (without m ms)) (metric_name m')
  = Results_get (map (entry_of cap ds) ms) (metric_name m').
Proof.
  intros Hne. induction ms as [|m0 ms IH]; simpl; [reflexivity|].
  destruct (metric_eqb m0 m) eqn:E; simpl.
  - apply metric_eqb_eq in E. subst m0.
    destruct (String.eqb (metric_name m) (metric_name m')) eqn:E'.
    + apply String.eqb_eq, metric_name_inj in E'. congruence.
    + exact IH.
  - destruct (String.eqb (metric_name m0) (metric_name m')); [reflexivity | exact IH].
Qed.

Lemma all_metrics (m : metric) : In m metrics.
Proof. destruct m; simpl; auto 8. Qed.

Lemma nth_error_repeat {A} (a : A) (n i : nat) :
  (i < n)%nat -> nth_error (repeat a n) i = Some a.
Proof.
  revert i; induction n as [|n IH]; intros [|i] H; simpl; try lia; auto.
  apply IH. lia.
Qed.

Lemma run_evaluation_library (loads : string -> exn + json) (dumps : json -> string)
  (cap : metric -> capability) (ds : Dataset) (s : state) :
  run_evaluation (library_world loads dumps cap) ds s
  = (Ret (Some (map (entry_of cap ds) metrics)),
     mk_state (fs s)
       (log s ++ [Print MsgRunning; Print MsgMayTakeMinutes]
              ++ Evaluate ds metrics false :: map Invoke metrics)).
Proof.
  rewrite (run_evaluation_returns _ ds (map (entry_of cap ds) metrics)).
  - unfold evaluate_events. cbn [evaluate library_world].
    rewrite Runner_isolates. reflexivity.
  - cbn [evaluate library_world]. rewrite Runner_isolates. reflexivity.
Qed.

(** C1: when the invocation of one metric raises, the Metric Runner (in
    the non-fatal mode [run_evaluation] selects) still invokes every metric
    of the list; the failing metric's entry has, for every sample, the
    failure reason and no score; and the entry of every other metric is the
    one it has in a run without the failing metric, namely the scores its
    own capability returned.  It holds for every list of metrics, and for
    the list of [run_evaluation].  ([evaluate] is its reference model.) *)
Theorem C1_failing_metric_is_isolated (loads : string -> exn + json)
  (dumps : json -> string) (cap : metric -> capability) (ds : Dataset)
  (m : metric) (e : exn) :
  cap m ds = inl e ->
  (forall ms, In m ms ->
     Runner cap ds ms false = (inr (runner_results cap ds ms), ms)
     /\ Results_get (runner_results cap ds ms) (metric_name m)
        = Some (all_unavailable e ds)
     /\ forall m', m' <> m ->
          Results_get (runner_results cap ds ms) (metric_name m')
          = Results_get (runner_results cap ds (without m ms)) (metric_name m'))
  /\ (forall i, (i < Dataset_len ds)%nat ->
        nth_error (all_unavailable e ds) i = Some (Unavailable (msg e)))
  /\ forall s, exists r,
       fst (run_evaluation (library_world loads dumps cap) ds s) = Ret (Some r)
       /\ r = runner_results cap ds metrics
       /\ Results_get r (metric_name m) = Some (all_unavailable e ds)
       /\ forall m', m' <> m ->
            Results_get r (metric_name m')
            = Results_get (runner_results cap ds (without m metrics)) (metric_name m')
            /\ forall scores, cap m' ds = inr scores ->
                 Results_get r (metric_name m') = Some scores.
Proof.
  intros He.
  assert (Hfail : forall ms, In m ms ->
            Results_get (runner_results cap ds ms) (metric_name m)
            = Some (all_unavailable e ds)).
  { intros ms Hin. rewrite runner_results_eq, Results_get_entry by exact Hin.
    unfold entry_of. now rewrite He. }
  assert (Hrest : forall ms m', m' <> m ->
            Results_get (runner_results cap ds ms) (metric_name m')
            = Results_get (runner_results cap ds (without m ms)) (metric_name m')).
  { intros ms m' Hne. rewrite !runner_results_eq. symmetry.
    now apply Results_get_without. }
  split; [| split].
  - intros ms Hin. split; [| split]; auto.
    rewrite runner_results_eq. apply Runner_isolates.
  - intros i Hi. now apply nth_error_repeat.
  - intros s. exists (runner_results cap ds metrics).
    rewrite run_evaluation_library, runner_results_eq.
    split; [reflexivity|]. split; [reflexivity|].
    rewrite <- runner_results_eq.
    split; [apply Hfail, all_metrics|].
    intros m' Hne. split; [now apply Hrest|].
    intros scores Hs. rewrite runner_results_eq, Results_get_entry by apply all_metrics.
    unfold entry_of. now rewrite Hs.
Qed.

Lemma C1_failing_metric_witness :
  sample_cap context_recall sample_dataset
  = inl (mk_exn RuntimeError "judge timed out")
  /\ Results_get (runner_results sample_cap sample_dataset metrics) "context_recall"
     = Some [ Unavailable "judge timed out"; Unavailable "judge timed out";
              Unavailable "judge timed out" ]
  /\ Results_get (runner_results sample_cap sample_dataset metrics) "answer_relevancy"
     = Results_get (runner_results sample_cap sample_dataset
                      (without context_recall metrics)) "answer_relevancy".
Proof.
  split; [reflexivity|].
  destruct (C1_failing_metric_is_isolated sample_loads sample_dumps sample_cap
              sample_dataset context_recall
              (mk_exn RuntimeError "judge timed out") eq_refl)
    as (Hany & _ & _).
  destruct (Hany metrics (all_metrics context_recall)) as (_ & Hfail & Hrest).
  split.
  - exact Hfail.
  - apply (Hrest answer_relevancy). discriminate.
Defined.

Lemma metric_names_NoDup : NoDup (map metric_name metrics).
Proof.
  cbn. repeat constructor; cbn; intuition discriminate.
Qed.

Lemma map_fst_entries (cap : metric -> capability) (ds : Dataset) (ms : list metric) :
  map fst (map (entry_of cap ds) ms) = map metric_name ms.
Proof. rewrite map_map. reflexivity. Qed.

Lemma map_fst_to_pandas (r : Results) : map fst (Result_to_pandas r) = map fst r.
Proof. unfold Result_to_pandas. rewrite map_map. reflexivity. Qed.

(** C3: whatever the capabilities do, the mapping that [run_evaluation]
    returns has the names of the seven configured metrics as its keys, in
    order and each once, so every configured metric has an entry; the score
    table and the saved mapping have the same keys.  When every capability
    raises, a mapping is still returned, and every entry in it is the
    all-unavailable sequence.  ([evaluate] and the result object are their
    reference models.) *)
Theorem C3_one_entry_per_metric (loads : string -> exn + json)
  (dumps : json -> string) (cap : metric -> capability) (ds : Dataset)
  (s : state) :
  exists r,
    fst (run_evaluation (library_world loads dumps cap) ds s) = Ret (Some r)
    /\ map fst r = map metric_name metrics
    /\ NoDup (map fst r)
    /\ (forall m, exists v, Results_get r (metric_name m) = Some v)
    /\ map fst (Result_to_pandas r) = map metric_name metrics
    /\ (exists kv, Result_to_dict r = JObj kv /\ map fst kv = map metric_name metrics)
    /\ ((forall m, exists e, cap m ds = inl e) ->
        forall m, exists e,
          cap m ds = inl e
          /\ Results_get r (metric_name m) = Some (all_unavailable e ds)).
Proof.
  exists (map (entry_of cap ds) metrics).
  rewrite run_evaluation_library.
  split; [reflexivity|].
  split; [apply map_fst_entries|].
  split; [rewrite map_fst_entries; apply metric_names_NoDup|].
  split.
  { intros m. eexists. apply Results_get_entry, all_metrics. }
  split; [now rewrite map_fst_to_pandas, map_fst_entries|].
  split.
  { eexists. split; [reflexivity|]. rewrite map_map. cbn [fst].
    rewrite map_map. reflexivity. }
  intros Hall m. destruct (Hall m) as [e He]. exists e. split; [exact He|].
  rewrite Results_get_entry by apply all_metrics.
  unfold entry_of. now rewrite He.
Qed.

Lemma C3_all_metrics_fail_witness :
  (forall m, exists e, failing_cap m sample_dataset = inl e)
  /\ exists r,
       fst (run_evaluation (library_world sample_loads sample_dumps failing_cap)
              sample_dataset (mk_state (disk_with Absent Absent) []))
       = Ret (Some r)
       /\ Results_get r "faithfulness"
          = Some [ Unavailable "faithfulness"; Unavailable "faithfulness";
                   Unavailable "faithfulness" ].
Proof.
  assert (Hall : forall m, exists e, failing_cap m sample_dataset = inl e).
  { intros m. eexists. reflexivity. }
  split; [exact Hall|].
  destruct (C3_one_entry_per_metric sample_loads sample_dumps failing_cap
              sample_dataset (mk_state (disk_with Absent Absent) []))
    as (r & Hret & _ & _ & _ & _ & _ & Hfail).
  exists r. split; [exact Hret|].
  destruct (Hfail Hall faithfulness) as (e & He & Hget).
  change (metric_name faithfulness) with "faithfulness" in Hget.
  rewrite Hget. cbn in He. injection He as <-. reflexivity.
Defined.

(** ** Saving *)

Lemma save_results_saved (W : World) (r : Results) (d : json) (s : state) :
  to_dict W r = inr d ->
  write_fault (fs s default_output) = None ->
  save_results W r default_output s
  = (Ret tt,
     mk_state (fs_set (fs s) default_output
                 (written (json_dump W d) (fs s default_output)))
       (log s ++ [ Print (MsgSaving default_output); OpenWrite default_output;
                   Dump default_output (json_dump W d);
                   Print (MsgSaved default_output) ])).
Proof.
  unfold write_fault. intros Hd Hw.
  destruct (open_fault (fs s default_output)) eqn:Ho; [discriminate|].
  unfold save_results, write_file, print, emit, lift, bind, ret.
  rewrite Hd. cbn [fs log fst snd]. rewrite Ho, Hw. cbn [fs log].
  rewrite <- !app_assoc. reflexivity.
Qed.

Lemma save_results_fails (W : World) (r : Results) (d : json) (e : exn) (s : state) :
  to_dict W r = inr d ->
  write_fault (fs s default_output) = Some e ->
  exists tail s',
    save_results W r default_output s = (Raise e, s')
    /\ log s' = log s ++ [Print (MsgSaving default_output); OpenWrite default_output]
                     ++ tail
    /\ (tail = [] \/ tail = [Dump default_output (json_dump W d)]).
Proof.
  unfold write_fault. intros Hd Hw.
  unfold save_results, write_file, print, emit, lift, bind, ret.
  rewrite Hd. cbn [fs log fst snd].
  destruct (open_fault (fs s default_output)) eqn:Ho.
  - injection Hw as ->. exists []. eexists. split; [reflexivity|].
    split; [| now left]. cbn [log]. rewrite <- !app_assoc. reflexivity.
  - rewrite Hw. exists [Dump default_output (json_dump W d)]. eexists.
    split; [reflexivity|]. split; [| now right].
    cbn [log]. rewrite <- !app_assoc. reflexivity.
Qed.

Lemma written_reads_back (path payload : string) (i : inode) :
  write_fault i = None -> inode_read path (written payload i) = inr payload.
Proof. destruct i; cbn; intros H; try discriminate; reflexivity. Qed.

(** C8: when writing the output file fails, the exception leaves
    [save_results] and [main] as it is.  By then the evaluation is over: the
    call of [evaluate] and every metric invocation come before the file is
    opened, and the results are those [evaluate] returned.  The same results
    can be saved by another call of [save_results] when the file can be
    written: it returns normally and the file then holds their dump. *)
Theorem C8_write_failure_leaves_results (W : World) (disk : filesystem)
  (bytes : string) (fields : list (string * json)) (ds : Dataset)
  (r : Results) (d : json) (e : exn) :
  inode_read default_input (disk default_input) = inr bytes ->
  json_load W bytes = inr (JObj fields) ->
  from_dict W (columns_of fields) = inr ds ->
  fst (evaluate W ds metrics false) = inr r ->
  to_dict W r = inr d ->
  write_fault (disk default_output) = Some e ->
  fst (run (save_results W r default_output) disk) = Raise e
  /\ fst (run (main W) disk) = Raise e
  /\ (exists tail,
        log (snd (run (main W) disk))
        = loading_events ++ prepare_events fields ds
            ++ [Print MsgRunning; Print MsgMayTakeMinutes]
            ++ evaluate_events W ds metrics false
            ++ [Print (MsgSaving default_output); OpenWrite default_output]
            ++ tail
        /\ (tail = [] \/ tail = [Dump default_output (json_dump W d)]))
  /\ forall disk',
       write_fault (disk' default_output) = None ->
       run (save_results W r default_output) disk'
       = (Ret tt,
          mk_state (fs_set disk' default_output
                      (written (json_dump W d) (disk' default_output)))
            [ Print (MsgSaving default_output); OpenWrite default_output;
              Dump default_output (json_dump W d);
              Print (MsgSaved default_output) ])
       /\ inode_read default_output
            (written (json_dump W d) (disk' default_output))
          = inr (json_dump W d).
Proof.
  intros Hr Hl Hd Hev Ht Hw.
  split; [| split; [| split]].
  - unfold run.
    destruct (save_results_fails W r d e (mk_state disk []) Ht Hw)
      as (tail & s' & Hs & _).
    now rewrite Hs.
  - unfold run. rewrite (main_loaded W bytes fields); [| exact Hr | exact Hl].
    unfold bind at 1. rewrite (prepare_built W fields ds); [| exact Hd].
    unfold bind at 1. rewrite (run_evaluation_returns W ds r); [| exact Hev].
    unfold bind at 1.
    match goal with |- context [save_results W r default_output ?s] =>
      destruct (save_results_fails W r d e s Ht Hw) as (tail & s' & Hs & _);
      rewrite Hs
    end.
    reflexivity.
  - unfold run. rewrite (main_loaded W bytes fields); [| exact Hr | exact Hl].
    unfold bind at 1. rewrite (prepare_built W fields ds); [| exact Hd].
    unfold bind at 1. rewrite (run_evaluation_returns W ds r); [| exact Hev].
    unfold bind at 1.
    match goal with |- context [save_results W r default_output ?s] =>
      destruct (save_results_fails W r d e s Ht Hw)
        as (tail & s' & Hs & Hlog & Htail); rewrite Hs
    end.
    exists tail. split; [| exact Htail].
    cbn [snd]. rewrite Hlog. cbn [log fs]. unfold prepare_events.
    rewrite <- !app_assoc. reflexivity.
  - intros disk' Hw'. split.
    + unfold run. rewrite (save_results_saved W r d); [reflexivity | exact Ht | exact Hw'].
    + now apply written_reads_back.
Qed.

Lemma C8_write_failure_witness :
  write_fault (disk_with (File "data")
                 (ReadOnly "old" (mk_exn PermissionError "denied")) default_output)
  = Some (mk_exn PermissionError "denied")
  /\ fst (run (main sample_world)
            (disk_with (File "data") (ReadOnly "old" (mk_exn PermissionError "denied"))))
     = Raise (mk_exn PermissionError "denied")
  /\ fst (run (save_results sample_world
                 (runner_results sample_cap sample_dataset metrics) default_output)
            (disk_with (File "data") Absent))
     = Ret tt.
Proof.
  split; [reflexivity|].
  destruct (C8_write_failure_leaves_results sample_world
              (disk_with (File "data") (ReadOnly "old" (mk_exn PermissionError "denied")))
              "data"
              [ ("questions", JArr [JStr "q1"; JStr "q2"; JStr "q3"]);
                ("answers", JArr [JStr "a1"; JStr ""; JStr "a3"]);
                ("contexts", JArr [JArr [JStr "c1"]; JArr []; JArr [JStr "c3"; JStr "c4"]]);
                ("ground_truths", JArr [JStr "g1"; JStr "g2"; JStr "g3"]) ]
              sample_dataset
              (runner_results sample_cap sample_dataset metrics)
              (Result_to_dict (runner_results sample_cap sample_dataset metrics))
              (mk_exn PermissionError "denied")
              eq_refl eq_refl eq_refl eq_refl eq_refl eq_refl)
    as (_ & Hmain & _ & Hretry).
  split; [exact Hmain|].
  destruct (Hretry (disk_with (File "data") Absent) eq_refl) as [Hsave _].
  rewrite Hsave. reflexivity.
Defined.

(** ** The summary *)

Lemma for_each_print_metric (df : DataFrame) (cols : list string) (s : state) :
  for_each cols (print_metric df) s
  = (Ret tt,
     mk_state (fs s)
       (log s ++ map (fun col =>
                        Print (MsgMetric col (Series_mean (df_col df col))
                                         (Series_std (df_col df col))))
                     (filter (df_has df) cols))).
Proof.
  revert s; induction cols as [|c cols IH]; intros s; simpl.
  - rewrite app_nil_r, state_eta. reflexivity.
  - unfold bind at 1. unfold print_metric at 1.
    destruct (df_has df c); cbn.
    + rewrite IH. cbn. rewrite <- app_assoc. reflexivity.
    + rewrite IH. reflexivity.
Qed.

Lemma summary_lines_app (l1 l2 : list event) :
  summary_lines (l1 ++ l2) = summary_lines l1 ++ summary_lines l2.
Proof.
  induction l1 as [|ev l1 IH]; simpl; [reflexivity|].
  destruct ev as [m| | | | | |]; try exact IH.
  destruct m; try exact IH. simpl. now rewrite IH.
Qed.

Lemma summary_lines_metrics (df : DataFrame) (cols : list string) :
  summary_lines
    (map (fun col =>
            Print (MsgMetric col (Series_mean (df_col df col))
                             (Series_std (df_col df col)))) cols)
  = map (summary_of df) cols.
Proof.
  induction cols as [|c cols IH]; simpl; [reflexivity|]. now rewrite IH.
Qed.

(** The log of [print_summary] once the table is there. *)
Lemma print_summary_log (W : World) (r : Results) (df : DataFrame) (s : state) :
  to_pandas W r = inr df ->
  exists tail,
    log (snd (print_summary W r s))
    = log s ++ [ Print MsgRule; Print MsgResultsTitle; Print MsgRule;
                 Print MsgSummaryTitle; Print MsgDashes ]
            ++ map (fun col =>
                      Print (MsgMetric col (Series_mean (df_col df col))
                                       (Series_std (df_col df col))))
                   (filter (df_has df) metrics_cols)
            ++ [ Print MsgRule; Print MsgPerSampleTitle; Print MsgDashes ]
            ++ tail
    /\ summary_lines tail = [].
Proof.
  intros Hp. unfold print_summary.
  unfold bind at 1, print at 1, emit at 1.
  unfold bind at 1, print at 1, emit at 1.
  unfold bind at 1, print at 1, emit at 1.
  unfold bind at 1. rewrite Hp. cbn [lift ret].
  unfold bind at 1, print at 1, emit at 1.
  unfold bind at 1, print at 1, emit at 1.
  unfold bind at 1. rewrite for_each_print_metric.
  set (lines := map _ (filter (df_has df) metrics_cols)).
  unfold bind at 1, print at 1, emit at 1.
  unfold bind at 1, print at 1, emit at 1.
  unfold bind at 1, print at 1, emit at 1.
  unfold bind at 1.
  destruct (df_select df metrics_cols) as [e|table];
    unfold lift, raise, ret, bind, print, emit; cbn [fs log snd fst].
  - exists []. rewrite <- !app_assoc. rewrite app_nil_r. split; reflexivity.
  - exists [Print (MsgTable table); Print MsgRule].
    rewrite <- !app_assoc. split; reflexivity.
Qed.

Lemma print_summary_lines (W : World) (r : Results) (df : DataFrame) (s : state) :
  to_pandas W r = inr df ->
  summary_lines (log (snd (print_summary W r s)))
  = summary_lines (log s) ++ map (summary_of df) (filter (df_has df) metrics_cols).
Proof.
  intros Hp. destruct (print_summary_log W r df s Hp) as (tail & Hlog & Htail).
  rewrite Hlog, !summary_lines_app, summary_lines_metrics, Htail.
  cbn [summary_lines app]. now rewrite app_nil_r.
Qed.

Lemma Qcount_pos (x : Q) (xs : list Q) : ~ (Qcount (x :: xs) == 0)%Q.
Proof. unfold Qcount, Qeq. cbn [List.length Qnum Qden inject_Z]. lia. Qed.

Lemma Qcount_pred (x : Q) (xs : list Q) : (Qcount (x :: xs) - 1 == Qcount xs)%Q.
Proof.
  unfold Qcount. cbn [List.length]. rewrite Nat2Z.inj_succ. unfold Z.succ.
  rewrite inject_Z_plus. ring.
Qed.

Lemma Series_mean_none (s : Series) : Series_mean s = None <-> dropna s = [].
Proof.
  unfold Series_mean. destruct (dropna s); split; intros H;
    try reflexivity; discriminate.
Qed.

Lemma Series_mean_average (s : Series) (m : Q) :
  Series_mean s = Some m -> (m * Qcount (dropna s) == Qsum (dropna s))%Q.
Proof.
  unfold Series_mean. destruct (dropna s) as [|x xs]; [discriminate|].
  intros H. injection H as <-.
  rewrite Qmult_comm. apply Qmult_div_r, Qcount_pos.
Qed.

Lemma Series_std_nan (s : Series) :
  Series_std s = StdNaN <-> (List.length (dropna s) <= 1)%nat.
Proof.
  unfold Series_std. destruct (dropna s) as [|x [|y ys]]; cbn [List.length];
    split; intros H; try reflexivity; try lia; discriminate.
Qed.

Lemma Series_std_sample (s : Series) (v : Q) :
  Series_std s = StdSqrt v ->
  exists m, Series_mean s = Some m
            /\ (v * (Qcount (dropna s) - 1) == Qsum (sq_dev m (dropna s)))%Q
            /\ (2 <= List.length (dropna s))%nat.
Proof.
  unfold Series_std, Series_mean.
  destruct (dropna s) as [|x [|y ys]]; try discriminate.
  intros H. injection H as <-.
  eexists. split; [reflexivity|]. split; [| cbn [List.length]; lia].
  rewrite Qcount_pred, Qmult_comm. apply Qmult_div_r, Qcount_pos.
Qed.

Lemma dropna_cells (v : list MetricResult) : dropna (map cell_of v) = scores_of v.
Proof.
  induction v as [|[q|reason] v IH]; simpl; [reflexivity | now rewrite IH | exact IH].
Qed.

Lemma to_pandas_column (r : Results) (name : string) (v : list MetricResult) :
  Results_get r name = Some v ->
  df_has (Result_to_pandas r) name = true
  /\ df_col (Result_to_pandas r) name = map cell_of v.
Proof.
  induction r as [|[k w] r IH]; simpl; [discriminate|].
  destruct (String.eqb k name).
  - intros H. injection H as <-. split; reflexivity.
  - intros H. destruct (IH H) as [Hh Hc]. split; [exact Hh | exact Hc].
Qed.

(** C4, as the code has it: [print_summary] reports a mean and a standard
    deviation for the columns of its list [metrics_cols] that the score
    table has, in that order, and for no other column.  The reported mean
    is the arithmetic average, and the reported standard deviation the
    sample standard deviation, of the K scores of the column that are
    available; with K = 0 both are the undefined marker, never a number.
    ([pandas] and the result table are their reference models.) *)
Theorem C4_summary_over_available_scores (W : World) (r : Results)
  (df : DataFrame) (disk : filesystem) :
  to_pandas W r = inr df ->
  summary_lines (log (snd (run (print_summary W r) disk)))
  = map (summary_of df) (filter (df_has df) metrics_cols)
  /\ (forall col mean std,
        In (col, mean, std) (summary_lines (log (snd (run (print_summary W r) disk)))) ->
        In col metrics_cols /\ df_has df col = true
        /\ mean = Series_mean (df_col df col) /\ std = Series_std (df_col df col))
  /\ (forall s : Series,
        (dropna s = [] -> Series_mean s = None /\ Series_std s = StdNaN)
        /\ (forall m, Series_mean s = Some m ->
              dropna s <> [] /\ (m * Qcount (dropna s) == Qsum (dropna s))%Q)
        /\ (Series_std s = StdNaN <-> (List.length (dropna s) <= 1)%nat)
        /\ (forall v, Series_std s = StdSqrt v ->
              exists m, Series_mean s = Some m
                /\ (v * (Qcount (dropna s) - 1) == Qsum (sq_dev m (dropna s)))%Q))
  /\ (forall name v, Results_get r name = Some v ->
        df_col (Result_to_pandas r) name = map cell_of v
        /\ dropna (map cell_of v) = scores_of v).
Proof.
  intros Hp.
  assert (Hlines : summary_lines (log (snd (run (print_summary W r) disk)))
                   = map (summary_of df) (filter (df_has df) metrics_cols)).
  { unfold run. rewrite (print_summary_lines W r df); [reflexivity | exact Hp]. }
  split; [exact Hlines|]. split; [| split].
  - intros col mean std Hin. rewrite Hlines in Hin.
    apply in_map_iff in Hin. destruct Hin as (c & Hc & Hin).
    apply filter_In in Hin. unfold summary_of in Hc.
    injection Hc as <- <- <-. tauto.
  - intros s. split; [| split; [| split]].
    + intros H. split; [now apply Series_mean_none|].
      apply Series_std_nan. rewrite H. cbn. lia.
    + intros m Hm. split; [| now apply Series_mean_average].
      intros H. apply Series_mean_none in H. congruence.
    + apply Series_std_nan.
    + intros v Hv. destruct (Series_std_sample s v Hv) as (m & Hm & Hv' & _).
      exists m. split; assumption.
  - intros name v Hget. split; [now apply to_pandas_column | apply dropna_cells].
Qed.

Lemma C4_summary_witness :
  to_pandas sample_world (runner_results sample_cap sample_dataset metrics)
  = inr (Result_to_pandas (runner_results sample_cap sample_dataset metrics))
  /\ In ("context_recall", None, StdNaN)
        (summary_lines
           (log (snd (run (print_summary sample_world
                             (runner_results sample_cap sample_dataset metrics))
                        (disk_with Absent Absent)))))
  /\ map (fun line => fst (fst line))
         (summary_lines
            (log (snd (run (print_summary sample_world
                              (runner_results sample_cap sample_dataset metrics))
                         (disk_with Absent Absent)))))
     = metrics_cols.
Proof.
  split; [reflexivity|].
  destruct (C4_summary_over_available_scores sample_world
              (runner_results sample_cap sample_dataset metrics)
              (Result_to_pandas (runner_results sample_cap sample_dataset metrics))
              (disk_with Absent Absent) eq_refl) as (Hlines & _).
  rewrite Hlines. split.
  - vm_compute. tauto.
  - vm_compute. reflexivity.
Defined.

(** C4 as stated fails for [context_entity_recall]: it is one of the seven
    metrics of the evaluation result, with three available scores, and the
    summary reports no mean and no standard deviation for it. *)
Lemma C4_unreported_metric_counterexample :
  ~ (forall (r : Results) (name : string) (v : list MetricResult),
       Results_get r name = Some v ->
       exists mean std,
         In (name, mean, std)
            (summary_lines
               (log (snd (run (print_summary sample_world r)
                            (disk_with Absent Absent)))))).
Proof.
  intros H.
  destruct (H (runner_results sample_cap sample_dataset metrics)
              "context_entity_recall"
              [Score (1 # 2); Score (1 # 2); Score (1 # 2)] eq_refl)
    as (mean & std & Hin).
  vm_compute in Hin.
  repeat (destruct Hin as [Hin|Hin]; [discriminate Hin|]).
  exact Hin.
Qed.

(** * Further properties of the script *)

(** ** Errors while loading *)

Lemma load_raises (W : World) (path : string) (e : exn) (s : state) :
  (inode_read path (fs s path) = inl e
   \/ exists bytes, inode_read path (fs s path) = inr bytes
                    /\ json_load W bytes = inl e) ->
  is_FileNotFoundError e = false ->
  load_evaluation_data W path s
  = (Raise e, mk_state (fs s) (log s ++ [Print (MsgLoading path); OpenRead path])).
Proof.
  intros H He.
  unfold load_evaluation_data, try_except, read_file, print, emit, lift, bind, ret, raise.
  cbn [fs log fst snd].
  destruct H as [Hr | (bytes & Hr & Hl)].
  - rewrite Hr, He. rewrite <- app_assoc. reflexivity.
  - rewrite Hr, Hl, He. rewrite <- app_assoc. reflexivity.
Qed.

(** X1: an error of opening or decoding the input file other than
    [FileNotFoundError] (no permission, malformed JSON) is not handled: it
    leaves [load_evaluation_data] and [main] as it is, right after the file
    was opened; no "file not found" or usage line is printed and nothing is
    built, evaluated or written. *)
Theorem X1_load_error_propagates (W : World) (disk : filesystem) (e : exn) :
  (inode_read default_input (disk default_input) = inl e
   \/ exists bytes, inode_read default_input (disk default_input) = inr bytes
                    /\ json_load W bytes = inl e) ->
  is_FileNotFoundError e = false ->
  run (load_evaluation_data W default_input) disk
  = (Raise e, mk_state disk [Print (MsgLoading default_input); OpenRead default_input])
  /\ run (main W) disk = (Raise e, mk_state disk loading_events).
Proof.
  intros H He. split.
  - unfold run. rewrite (load_raises W default_input e); [reflexivity | exact H | exact He].
  - unfold run, main.
    unfold bind at 1, print at 1, emit at 1.
    unfold bind at 1, print at 1, emit at 1.
    unfold bind at 1, print at 1, emit at 1.
    unfold bind at 1.
    rewrite (load_raises W default_input e); [reflexivity | exact H | exact He].
Qed.

Lemma X1_load_error_witness :
  is_FileNotFoundError (mk_exn JSONDecodeError "Expecting value") = false
  /\ run (main sample_world) (disk_with (File "not json") Absent)
     = (Raise (mk_exn JSONDecodeError "Expecting value"),
        mk_state (disk_with (File "not json") Absent) loading_events).
Proof.
  split; [reflexivity|].
  apply (X1_load_error_propagates sample_world (disk_with (File "not json") Absent)
           (mk_exn JSONDecodeError "Expecting value")); [| reflexivity].
  right. exists "not json". split; reflexivity.
Defined.

(** X2: an input file that holds the JSON value [null] is taken for a
    missing file: [main] prints the usage lines, without the "file not
    found" line, and returns; nothing is built, evaluated or written. *)
Theorem X2_null_input_prints_usage (W : World) (disk : filesystem) (bytes : string) :
  inode_read default_input (disk default_input) = inr bytes ->
  json_load W bytes = inr JNull ->
  run (main W) disk = (Ret tt, mk_state disk (loading_events ++ usage_events)).
Proof.
  intros Hr Hl. unfold run, main.
  unfold bind at 1, print at 1, emit at 1.
  unfold bind at 1, print at 1, emit at 1.
  unfold bind at 1, print at 1, emit at 1.
  unfold bind at 1.
  rewrite (load_ok W default_input bytes JNull); [| exact Hr | exact Hl].
  unfold print_usage, print. rewrite for_each_emit. cbn [fs log].
  rewrite <- !app_assoc. reflexivity.
Qed.

Lemma X2_null_input_witness :
  json_load (world_of JNull sample_cap) "null" = inr JNull
  /\ fst (run (main (world_of JNull sample_cap)) (disk_with (File "null") Absent))
     = Ret tt.
Proof.
  split; [reflexivity|].
  rewrite (X2_null_input_prints_usage (world_of JNull sample_cap)
             (disk_with (File "null") Absent) "null" eq_refl eq_refl).
  reflexivity.
Defined.

(** X3: an input that decodes to a value that is neither [null] nor a
    mapping (a list, a string, a number, a boolean) makes [prepare_dataset]
    raise [AttributeError] at the first [data.get], before
    [Dataset.from_dict] is called; the exception leaves [main]. *)
Theorem X3_non_mapping_input_raises (W : World) (disk : filesystem)
  (bytes : string) (data : json) :
  inode_read default_input (disk default_input) = inr bytes ->
  json_load W bytes = inr data ->
  is_mapping data = false ->
  data <> JNull ->
  exists e,
    cls e = AttributeError
    /\ (forall s, prepare_dataset W data s
                  = (Raise e, mk_state (fs s) (log s ++ [Print MsgPreparing])))
    /\ run (main W) disk
       = (Raise e, mk_state disk (loading_events ++ [Print MsgPreparing])).
Proof.
  intros Hr Hl Hm Hn.
  assert (Hget : exists e, cls e = AttributeError
                           /\ py_get data "questions" (JArr []) = inl e).
  { destruct data; try discriminate; try contradiction;
      (eexists; split; [| reflexivity]; reflexivity). }
  destruct Hget as (e & Hc & Hg). exists e. split; [exact Hc|].
  assert (Hp : forall s, prepare_dataset W data s
                         = (Raise e, mk_state (fs s) (log s ++ [Print MsgPreparing]))).
  { intros s. unfold prepare_dataset.
    unfold bind at 1, print at 1, emit at 1.
    unfold bind at 1. rewrite Hg. reflexivity. }
  split; [exact Hp|].
  unfold run, main.
  unfold bind at 1, print at 1, emit at 1.
  unfold bind at 1, print at 1, emit at 1.
  unfold bind at 1, print at 1, emit at 1.
  unfold bind at 1.
  rewrite (load_ok W default_input bytes data); [| exact Hr | exact Hl].
  destruct data; try discriminate; try contradiction;
    unfold bind at 1; rewrite Hp; cbn [fs log];
    rewrite <- !app_assoc; reflexivity.
Qed.

Lemma X3_non_mapping_witness :
  is_mapping (JArr [JStr "q1"]) = false
  /\ exists e, cls e = AttributeError
       /\ fst (run (main (world_of (JArr [JStr "q1"]) sample_cap))
                 (disk_with (File "[]") Absent)) = Raise e.
Proof.
  split; [reflexivity|].
  destruct (X3_non_mapping_input_raises (world_of (JArr [JStr "q1"]) sample_cap)
              (disk_with (File "[]") Absent) "[]" (JArr [JStr "q1"])
              eq_refl eq_refl eq_refl) as (e & Hc & _ & Hm); [discriminate|].
  exists e. split; [exact Hc|]. rewrite Hm. reflexivity.
Defined.

(** ** Exceptions after the dataset is built *)

(** X4: an exception of [evaluate] that is not an instance of [Exception]
    (a keyboard interrupt, [SystemExit]) is not caught by [run_evaluation]:
    it leaves [main] as it is, no error line is printed, and nothing is
    saved or summarised. *)
Theorem X4_base_exception_escapes (W : World) (disk : filesystem)
  (bytes : string) (fields : list (string * json)) (ds : Dataset) (e : exn) :
  inode_read default_input (disk default_input) = inr bytes ->
  json_load W bytes = inr (JObj fields) ->
  from_dict W (columns_of fields) = inr ds ->
  fst (evaluate W ds metrics false) = inl e ->
  is_Exception e = false ->
  run (main W) disk
  = (Raise e,
     mk_state disk
       (loading_events ++ prepare_events fields ds
          ++ [Print MsgRunning; Print MsgMayTakeMinutes]
          ++ evaluate_events W ds metrics false)).
Proof.
  intros Hr Hl Hd Hev He.
  unfold run. rewrite (main_loaded W bytes fields); [| exact Hr | exact Hl].
  unfold bind at 1. rewrite (prepare_built W fields ds); [| exact Hd].
  unfold bind at 1. rewrite (run_evaluation_escapes W ds e); [| exact Hev | exact He].
  cbn [fs log]. unfold prepare_events. rewrite <- !app_assoc. reflexivity.
Qed.

Lemma X4_base_exception_witness :
  is_Exception (mk_exn KeyboardInterrupt "") = false
  /\ fst (run (main interrupted_world) (disk_with (File "data") Absent))
     = Raise (mk_exn KeyboardInterrupt "")
  /\ fs (snd (run (main interrupted_world) (disk_with (File "data") Absent)))
       default_output = Absent.
Proof.
  split; [reflexivity|].
  rewrite (X4_base_exception_escapes interrupted_world
             (disk_with (File "data") Absent) "data"
             [ ("questions", JArr [JStr "q1"; JStr "q2"; JStr "q3"]);
               ("answers", JArr [JStr "a1"; JStr ""; JStr "a3"]);
               ("contexts", JArr [JArr [JStr "c1"]; JArr []; JArr [JStr "c3"; JStr "c4"]]);
               ("ground_truths", JArr [JStr "g1"; JStr "g2"; JStr "g3"]) ]
             sample_dataset (mk_exn KeyboardInterrupt "")
             eq_refl eq_refl eq_refl eq_refl eq_refl).
  split; reflexivity.
Defined.

(** X5: when [results.to_dict()] raises, [save_results] has not opened
    the output file yet: the exception leaves [save_results] and [main]
    with the file system as it was, and no summary is printed. *)
Theorem X5_to_dict_error_before_open (W : World) (disk : filesystem)
  (bytes : string) (fields : list (string * json)) (ds : Dataset)
  (r : Results) (e : exn) :
  inode_read default_input (disk default_input) = inr bytes ->
  json_load W bytes = inr (JObj fields) ->
  from_dict W (columns_of fields) = inr ds ->
  fst (evaluate W ds metrics false) = inr r ->
  to_dict W r = inl e ->
  (forall s, save_results W r default_output s
             = (Raise e, mk_state (fs s) (log s ++ [Print (MsgSaving default_output)])))
  /\ run (main W) disk
     = (Raise e,
        mk_state disk
          (loading_events ++ prepare_events fields ds
             ++ [Print MsgRunning; Print MsgMayTakeMinutes]
             ++ evaluate_events W ds metrics false
             ++ [Print (MsgSaving default_output)])).
Proof.
  intros Hr Hl Hd Hev Ht.
  assert (Hs : forall s, save_results W r default_output s
             = (Raise e, mk_state (fs s) (log s ++ [Print (MsgSaving default_output)]))).
  { intros s. unfold save_results.
    unfold bind at 1, print at 1, emit at 1.
    unfold bind at 1. rewrite Ht. reflexivity. }
  split; [exact Hs|].
  unfold run. rewrite (main_loaded W bytes fields); [| exact Hr | exact Hl].
  unfold bind at 1. rewrite (prepare_built W fields ds); [| exact Hd].
  unfold bind at 1. rewrite (run_evaluation_returns W ds r); [| exact Hev].
  unfold bind at 1. rewrite Hs.
  cbn [fs log]. unfold prepare_events. rewrite <- !app_assoc. reflexivity.
Qed.

Lemma X5_to_dict_error_witness :
  to_dict no_to_dict_world (runner_results sample_cap sample_dataset metrics)
  = inl (mk_exn AttributeError "to_dict")
  /\ fst (run (main no_to_dict_world) (disk_with (File "data") (File "old")))
     = Raise (mk_exn AttributeError "to_dict")
  /\ fs (snd (run (main no_to_dict_world) (disk_with (File "data") (File "old"))))
       default_output = File "old".
Proof.
  split; [reflexivity|].
  destruct (X5_to_dict_error_before_open no_to_dict_world
              (disk_with (File "data") (File "old")) "data"
              [ ("questions", JArr [JStr "q1"; JStr "q2"; JStr "q3"]);
                ("answers", JArr [JStr "a1"; JStr ""; JStr "a3"]);
                ("contexts", JArr [JArr [JStr "c1"]; JArr []; JArr [JStr "c3"; JStr "c4"]]);
                ("ground_truths", JArr [JStr "g1"; JStr "g2"; JStr "g3"]) ]
              sample_dataset (runner_results sample_cap sample_dataset metrics)
              (mk_exn AttributeError "to_dict")
              eq_refl eq_refl eq_refl eq_refl eq_refl) as [_ Hm].
  rewrite Hm. split; reflexivity.
Defined.

(** ** The summary after the save *)

Lemma print_summary_run (W : World) (r : Results) (df : DataFrame) (s : state) :
  to_pandas W r = inr df ->
  print_summary W r s
  = match df_select df metrics_cols with
    | inl e => (Raise e, mk_state (fs s) (log s ++ summary_events df))
    | inr table =>
        (Ret tt,
         mk_state (fs s)
           (log s ++ summary_events df ++ [Print (MsgTable table); Print MsgRule]))
    end.
Proof.
  intros Hp. unfold print_summary, summary_events.
  unfold bind at 1, print at 1, emit at 1.
  unfold bind at 1, print at 1, emit at 1.
  unfold bind at 1, print at 1, emit at 1.
  unfold bind at 1. rewrite Hp. cbn [lift ret].
  unfold bind at 1, print at 1, emit at 1.
  unfold bind at 1, print at 1, emit at 1.
  unfold bind at 1. rewrite for_each_print_metric.
  set (lines := map _ (filter (df_has df) metrics_cols)).
  unfold bind at 1, print at 1, emit at 1.
  unfold bind at 1, print at 1, emit at 1.
  unfold bind at 1, print at 1, emit at 1.
  unfold bind at 1.
  destruct (df_select df metrics_cols) as [e|table];
    unfold lift, raise, ret, bind, print, emit; cbn [fs log snd fst];
    rewrite <- !app_assoc; reflexivity.
Qed.

Lemma df_select_first_missing (df : DataFrame) (cols : list string) :
  df_select df cols
  = match first_missing df cols with
    | Some c => inl (mk_exn KeyError c)
    | None => inr (map (fun c => (c, df_col df c)) cols)
    end.
Proof.
  unfold df_select, first_missing. destruct (filter _ cols); reflexivity.
Qed.

Lemma first_missing_some (df : DataFrame) (cols : list string) (c : string) :
  first_missing df cols = Some c -> In c cols /\ df_has df c = false.
Proof.
  unfold first_missing. destruct (filter _ cols) as [|c0 rest] eqn:E; [discriminate|].
  intros H. injection H as <-.
  assert (Hin : In c0 (filter (fun c => negb (df_has df c)) cols))
    by (rewrite E; now left).
  apply filter_In in Hin. destruct Hin as [Hin Hn]. split; [exact Hin|].
  now destruct (df_has df c0).
Qed.


Lemma written_fresh (payload : string) (i : inode) :
  write_fault i = None -> written payload i = File payload.
Proof. destruct i; cbn; intros H; try discriminate; reflexivity. Qed.



(** ** A run that succeeds *)

Lemma df_has_to_pandas (r : Results) (c : string) :
  df_has (Result_to_pandas r) c = existsb (fun k => String.eqb k c) (map fst r).
Proof.
  unfold df_has, Result_to_pandas.
  induction r as [|[k v] r IH]; simpl; [reflexivity|]. now rewrite IH.
Qed.

Lemma summary_columns_present (cap : metric -> capability) (ds : Dataset) (c : string) :
  In c metrics_cols ->
  df_has (Result_to_pandas (map (entry_of cap ds) metrics)) c = true.
Proof.
  intros Hin. rewrite df_has_to_pandas, map_fst_entries.
  cbn in Hin. destruct Hin as [<-|[<-|[<-|[<-|[<-|[]]]]]]; reflexivity.
Qed.

Lemma first_missing_none (cap : metric -> capability) (ds : Dataset) :
  first_missing (Result_to_pandas (map (entry_of cap ds) metrics)) metrics_cols = None.
Proof.
  destruct (first_missing _ metrics_cols) as [c|] eqn:E; [| reflexivity].
  apply first_missing_some in E. destruct E as [Hin Hh].
  rewrite summary_columns_present in Hh by exact Hin. discriminate.
Qed.

(** X7: with the libraries as their reference models, an input whose four
    sequences [Dataset.from_dict] accepts and an output file that can be
    written, [main] runs to its end: every metric is invoked once, the dump
    of the seven-entry result is what the output file holds, the table has
    all five summary columns so the per-sample table is printed, and no
    other file changes. *)
Theorem X7_successful_run (loads : string -> exn + json) (dumps : json -> string)
  (cap : metric -> capability) (disk : filesystem) (bytes : string)
  (fields : list (string * json)) (ds : Dataset) :
  inode_read default_input (disk default_input) = inr bytes ->
  loads bytes = inr (JObj fields) ->
  Dataset_from_dict (columns_of fields) = inr ds ->
  write_fault (disk default_output) = None ->
  let r := runner_results cap ds metrics in
  let df := Result_to_pandas r in
  run (main (library_world loads dumps cap)) disk
  = (Ret tt,
     mk_state (fs_set disk default_output (File (dumps (Result_to_dict r))))
       (loading_events ++ prepare_events fields ds
          ++ [Print MsgRunning; Print MsgMayTakeMinutes]
          ++ Evaluate ds metrics false :: map Invoke metrics
          ++ save_events (dumps (Result_to_dict r))
          ++ summary_events df
          ++ [ Print (MsgTable (map (fun c => (c, df_col df c)) metrics_cols));
               Print MsgRule ]))
  /\ filter (df_has df) metrics_cols = metrics_cols.
Proof.
  intros Hr Hl Hd Hw r df. subst r df. rewrite runner_results_eq.
  split.
  - unfold run.
    rewrite (main_loaded (library_world loads dumps cap) bytes fields);
      [| exact Hr | exact Hl].
    unfold bind at 1. rewrite (prepare_built _ fields ds); [| exact Hd].
    unfold bind at 1. rewrite run_evaluation_library.
    unfold bind at 1.
    rewrite (save_results_saved _ _ (Result_to_dict (map (entry_of cap ds) metrics)));
      [| reflexivity | exact Hw].
    rewrite (print_summary_run _ _ (Result_to_pandas (map (entry_of cap ds) metrics)));
      [| reflexivity].
    rewrite df_select_first_missing, first_missing_none.
    cbn [fs log json_dump library_world]. rewrite (written_fresh _ _ Hw).
    unfold prepare_events, save_events. rewrite <- !app_assoc. reflexivity.
  - apply forallb_filter_id. apply forallb_forall.
    intros c Hin. now apply summary_columns_present.
Qed.

Lemma X7_successful_run_witness :
  write_fault (disk_with (File "data") (File "old") default_output) = None
  /\ fst (run (main sample_world) (disk_with (File "data") (File "old"))) = Ret tt
  /\ fs (snd (run (main sample_world) (disk_with (File "data") (File "old"))))
       default_output
     = File "faithfulness,answer_relevancy,context_precision,context_recall,context_entity_recall,answer_similarity,answer_correctness".
Proof.
  split; [reflexivity|].
  destruct (X7_successful_run sample_loads sample_dumps sample_cap
              (disk_with (File "data") (File "old")) "data"
              [ ("questions", JArr [JStr "q1"; JStr "q2"; JStr "q3"]);
                ("answers", JArr [JStr "a1"; JStr ""; JStr "a3"]);
                ("contexts", JArr [JArr [JStr "c1"]; JArr []; JArr [JStr "c3"; JStr "c4"]]);
                ("ground_truths", JArr [JStr "g1"; JStr "g2"; JStr "g3"]) ]
              sample_dataset eq_refl eq_refl eq_refl eq_refl) as [Hm _].
  change (library_world sample_loads sample_dumps sample_cap) with sample_world in Hm.
  rewrite Hm. cbn [fst snd fs]. split; reflexivity.
Defined.

(** ** Which files a run touches *)

Lemma last_dump_output (l : list event) :
  Forall dumps_to_output l -> existsb is_dump l = true ->
  exists q, last_dump l default_output = Some q.
Proof.
  intros H. induction H as [|ev l Hev _ IH]; simpl; [discriminate|].
  destruct ev; simpl; try exact IH.
  intros _. destruct (last_dump l default_output) as [q|]; [now exists q|].
  cbn in Hev. subst path. rewrite ?String.eqb_refl. now eexists.
Qed.


(** X9: the output file is opened with mode ['w']: what it held before the
    run has no influence.  Two runs from file systems that differ only in
    a writable output file have the same outcome and the same log, and
    when the results are dumped they leave the same file system. *)
Theorem X9_old_output_is_overwritten (W : World) (disk1 disk2 : filesystem) :
  (forall p, p <> default_output -> disk1 p = disk2 p) ->
  write_fault (disk1 default_output) = None ->
  write_fault (disk2 default_output) = None ->
  fst (run (main W) disk1) = fst (run (main W) disk2)
  /\ log (snd (run (main W) disk1)) = log (snd (run (main W) disk2))
  /\ (existsb is_dump (log (snd (run (main W) disk1))) = true ->
      forall p, fs (snd (run (main W) disk1)) p = fs (snd (run (main W) disk2)) p).
Proof.
  intros Hsame Hw1 Hw2. unfold run.
  set (s0 := mk_state disk1 []). set (t0 := mk_state disk2 []).
  assert (Hsim : sim s0 t0).
  { split; [reflexivity|]. split.
    - apply Hsame. discriminate.
    - intros p. cbn [fs s0 t0].
      destruct (String.eqb p default_output) eqn:E.
      + apply String.eqb_eq in E. subst p. unfold write_fault in Hw1, Hw2.
        destruct (open_fault (disk1 default_output)) eqn:E1; [discriminate|].
        destruct (open_fault (disk2 default_output)) eqn:E2; [discriminate|].
        split; congruence.
      + apply String.eqb_neq in E. rewrite (Hsame p E). split; reflexivity. }
  destruct (respects_main W s0 t0 Hsim) as [Ho (Hlog & _ & _)].
  split; [exact Ho|]. split; [exact Hlog|].
  intros Hdump p.
  destruct (tracked_main W s0) as (l1 & Hl1 & Hd1 & Hf1).
  destruct (tracked_main W t0) as (l2 & Hl2 & _ & Hf2).
  change (log s0 ++ l1) with l1 in Hl1. change (log t0 ++ l2) with l2 in Hl2.
  assert (E : l2 = l1) by congruence. rewrite E in Hf2.
  rewrite Hl1 in Hdump.
  rewrite Hf1, Hf2. change (fs s0 p) with (disk1 p). change (fs t0 p) with (disk2 p).
  destruct (String.eqb p default_output) eqn:Ep.
  - apply String.eqb_eq in Ep. subst p.
    destruct (last_dump_output l1 Hd1 Hdump) as [q Hq].
    rewrite !replay_last, Hq, !written_fresh by assumption. reflexivity.
  - apply String.eqb_neq in Ep. now rewrite (Hsame p Ep).
Qed.

Lemma X9_old_output_witness :
  write_fault (disk_with (File "data") (File "old report") default_output) = None
  /\ fs (snd (run (main sample_world) (disk_with (File "data") (File "old report"))))
        default_output
     = fs (snd (run (main sample_world) (disk_with (File "data") Absent)))
        default_output.
Proof.
  split; [reflexivity|].
  destruct (X9_old_output_is_overwritten sample_world
              (disk_with (File "data") (File "old report"))
              (disk_with (File "data") Absent)) as (_ & _ & Hfs).
  - intros p Hp. unfold disk_with.
    destruct (String.eqb p default_input); [reflexivity|].
    apply String.eqb_neq in Hp. now rewrite Hp.
  - reflexivity.
  - reflexivity.
  - apply Hfs. vm_compute. reflexivity.
Defined.


(** ** The order of the calls *)

Lemma ordered_from_app (k : nat) (l1 l2 : list event) :
  ordered_from k (l1 ++ l2)
  = ordered_from k l1 && ordered_from (final_rank k l1) l2.
Proof.
  revert k; induction l1 as [|ev l1 IH]; intros k; simpl; [reflexivity|].
  destruct (rank ev); [apply IH|]. rewrite IH, andb_assoc. reflexivity.
Qed.

Lemma final_rank_app (k : nat) (l1 l2 : list event) :
  final_rank k (l1 ++ l2) = final_rank (final_rank k l1) l2.
Proof.
  revert k; induction l1 as [|ev l1 IH]; intros k; simpl; [reflexivity|].
  destruct (rank ev); apply IH.
Qed.

Lemma staged_silent {A} (lo hi : nat) (m : M A) :
  (lo <= hi)%nat -> (forall s, log (snd (m s)) = log s) -> staged lo hi m.
Proof.
  intros Hle Hm s. exists []. rewrite Hm, app_nil_r.
  split; [reflexivity|]. split; [constructor|].
  intros k Hk. cbn. split; [reflexivity | lia].
Qed.

Lemma staged_ret {A} (lo hi : nat) (a : A) : (lo <= hi)%nat -> staged lo hi (ret a).
Proof. intros H. apply staged_silent; [exact H | reflexivity]. Qed.

Lemma staged_raise {A} (lo hi : nat) (e : exn) :
  (lo <= hi)%nat -> staged lo hi (@raise A e).
Proof. intros H. apply staged_silent; [exact H | reflexivity]. Qed.

Lemma staged_lift {A} (lo hi : nat) (r : exn + A) :
  (lo <= hi)%nat -> staged lo hi (lift r).
Proof. destruct r; [apply staged_raise | apply staged_ret]. Qed.

Lemma staged_emit (lo hi : nat) (ev : event) :
  allowed ev ->
  (rank ev = 0 /\ lo <= hi \/ lo < rank ev <= hi)%nat ->
  staged lo hi (emit ev).
Proof.
  intros Ha Hr s. exists [ev]. cbn [emit snd log].
  split; [reflexivity|]. split; [constructor; [exact Ha | constructor]|].
  intros k Hk. cbn. destruct (rank ev) as [|r].
  - split; [reflexivity | lia].
  - destruct Hr as [[Hr _]|Hr]; [discriminate|].
    split; [| lia]. rewrite andb_true_r.
    first [apply Nat.ltb_lt | apply Nat.leb_le]; lia.
Qed.

Lemma staged_weaken {A} (lo hi lo' hi' : nat) (m : M A) :
  staged lo hi m -> (lo' <= lo)%nat -> (hi <= hi')%nat -> staged lo' hi' m.
Proof.
  intros Hm Hlo Hhi s. destruct (Hm s) as (l & Hl & Ha & Ho).
  exists l. split; [exact Hl|]. split; [exact Ha|].
  intros k Hk. destruct (Ho k) as [Hord Hfin]; [lia|]. split; [exact Hord | lia].
Qed.

Lemma staged_print (lo hi : nat) (m : message) :
  (lo <= hi)%nat -> staged lo hi (print m).
Proof. intros H. apply staged_emit; [exact I | left; split; [reflexivity | exact H]]. Qed.

Lemma staged_bind {A B} (lo mid hi : nat) (m : M A) (k : A -> M B) :
  staged lo mid m -> (forall a, staged mid hi (k a)) -> (mid <= hi)%nat ->
  staged lo hi (bind m k).
Proof.
  intros Hm Hk Hle s. unfold bind.
  destruct (Hm s) as (l1 & Hl1 & Ha1 & Ho1).
  destruct (m s) as [[a|e] s1]; cbn [snd] in *.
  - destruct (Hk a s1) as (l2 & Hl2 & Ha2 & Ho2).
    exists (l1 ++ l2). rewrite Hl2, Hl1, app_assoc.
    split; [reflexivity|]. split; [apply Forall_app; auto|].
    intros j Hj. destruct (Ho1 j Hj) as [Hord Hfin].
    destruct (Ho2 (final_rank j l1) Hfin) as [Hord2 Hfin2].
    rewrite ordered_from_app, final_rank_app, Hord, Hord2. split; [reflexivity | exact Hfin2].
  - exists l1. split; [exact Hl1|]. split; [exact Ha1|].
    intros j Hj. destruct (Ho1 j Hj) as [Hord Hfin]. split; [exact Hord | lia].
Qed.

Lemma staged_try {A} (lo mid hi : nat) (body : M A) (handles : exn -> bool)
  (handler : exn -> M A) :
  staged lo mid body -> (forall e, staged mid hi (handler e)) -> (mid <= hi)%nat ->
  staged lo hi (try_except body handles handler).
Proof.
  intros Hm Hk Hle s. unfold try_except.
  destruct (Hm s) as (l1 & Hl1 & Ha1 & Ho1).
  destruct (body s) as [[a|e] s1]; cbn [snd] in *.
  - exists l1. split; [exact Hl1|]. split; [exact Ha1|].
    intros j Hj. destruct (Ho1 j Hj) as [Hord Hfin]. split; [exact Hord | lia].
  - destruct (handles e); cbn [snd].
    + destruct (Hk e s1) as (l2 & Hl2 & Ha2 & Ho2).
      exists (l1 ++ l2). rewrite Hl2, Hl1, app_assoc.
      split; [reflexivity|]. split; [apply Forall_app; auto|].
      intros j Hj. destruct (Ho1 j Hj) as [Hord Hfin].
      destruct (Ho2 (final_rank j l1) Hfin) as [Hord2 Hfin2].
      rewrite ordered_from_app, final_rank_app, Hord, Hord2.
      split; [reflexivity | exact Hfin2].
    + exists l1. split; [exact Hl1|]. split; [exact Ha1|].
      intros j Hj. destruct (Ho1 j Hj) as [Hord Hfin]. split; [exact Hord | lia].
Qed.

Lemma staged_for_each {A} (k : nat) (l : list A) (body : A -> M unit) :
  (forall x, staged k k (body x)) -> staged k k (for_each l body).
Proof.
  intros Hb. induction l as [|x l IH]; simpl.
  - apply staged_ret. lia.
  - apply (staged_bind k k k); auto.
Qed.

Lemma staged_read_input : staged 0 1 (read_file default_input).
Proof.
  unfold read_file. apply (staged_bind 0 1 1); [| | lia].
  - apply staged_emit; [reflexivity | right; cbn; lia].
  - intros _. apply staged_silent; [lia | reflexivity].
Qed.

Lemma staged_write_output (payload : string) :
  staged 3 5 (write_file default_output payload).
Proof.
  unfold write_file. apply (staged_bind 3 4 5); [| | lia].
  - apply staged_emit; [reflexivity | right; cbn; lia].
  - intros _ s. destruct (open_fault (fs s default_output)).
    + exists []. cbn [snd]. rewrite app_nil_r.
      split; [reflexivity|]. split; [constructor|].
      intros k Hk. cbn. split; [reflexivity | lia].
    + exists [Dump default_output payload]. cbn [snd log].
      split; [reflexivity|]. split; [constructor; [reflexivity | constructor]|].
      intros k Hk. cbn. split; [| lia].
      rewrite andb_true_r. first [apply Nat.ltb_lt | apply Nat.leb_le]; lia.
Qed.

(** One step of a sequence: the first computation is silent or prints,
    or is one of the calls. *)
Ltac staged_leaf :=
  lazymatch goal with
  | |- staged _ _ (print _) => apply staged_print; lia
  | |- staged _ _ (ret _) => apply staged_ret; lia
  | |- staged _ _ (raise _) => apply staged_raise; lia
  | |- staged _ _ (lift _) => apply staged_lift; lia
  end.

Ltac staged_steps :=
  repeat lazymatch goal with
    | |- staged ?lo ?hi (bind (emit ?ev) _) =>
        apply (staged_bind lo hi hi);
        [ apply staged_emit; [cbn; auto | right; cbn; lia] | intros ? | lia ]
    | |- staged ?lo ?hi (bind _ _) =>
        apply (staged_bind lo lo hi); [ staged_leaf | intros ? | lia ]
    | |- staged _ _ _ => staged_leaf
    end.

Lemma staged_load (W : World) : staged 0 1 (load_evaluation_data W default_input).
Proof.
  unfold load_evaluation_data.
  apply (staged_bind 0 0 1); [staged_leaf | intros _ | lia].
  apply (staged_try 0 1 1); [| intros e; staged_steps | lia].
  apply (staged_bind 0 1 1); [apply staged_read_input | intros bytes | lia].
  staged_steps.
Qed.

Lemma staged_prepare (W : World) (data : json) : staged 1 2 (prepare_dataset W data).
Proof. unfold prepare_dataset. staged_steps. Qed.

Lemma staged_run_evaluation (W : World) (ds : Dataset) :
  staged 2 3 (run_evaluation W ds).
Proof.
  unfold run_evaluation.
  apply (staged_bind 2 2 3); [staged_leaf | intros _ | lia].
  apply (staged_bind 2 2 3); [staged_leaf | intros _ | lia].
  apply (staged_try 2 3 3); [| intros e; staged_steps | lia].
  apply (staged_bind 2 3 3); [| intros r; staged_steps | lia].
  unfold call_evaluate.
  apply (staged_bind 2 3 3);
    [ apply staged_emit; [split; reflexivity | right; cbn; lia] | intros _ | lia ].
  apply (staged_bind 3 3 3); [| intros _; staged_steps | lia].
  apply staged_for_each. intros m.
  apply staged_emit; [exact I | left; split; [reflexivity | lia]].
Qed.

Lemma staged_save (W : World) (r : Results) :
  staged 3 5 (save_results W r default_output).
Proof.
  unfold save_results.
  apply (staged_bind 3 3 5); [staged_leaf | intros _ | lia].
  apply (staged_bind 3 3 5); [staged_leaf | intros d | lia].
  apply (staged_bind 3 5 5); [apply staged_write_output | intros _ | lia].
  staged_steps.
Qed.

Lemma staged_print_summary (W : World) (r : Results) :
  staged 5 5 (print_summary W r).
Proof.
  unfold print_summary.
  do 6 (apply (staged_bind 5 5 5); [staged_leaf | intros ? | lia]).
  apply (staged_bind 5 5 5); [| intros _; staged_steps | lia].
  apply staged_for_each. intros col. unfold print_metric.
  destruct (df_has _ col); staged_leaf.
Qed.

Lemma staged_main (W : World) : staged 0 5 (main W).
Proof.
  unfold main.
  do 3 (apply (staged_bind 0 0 5); [staged_leaf | intros _ | lia]).
  apply (staged_bind 0 1 5); [apply staged_load | intros data | lia].
  destruct data;
    try (apply (staged_bind 1 2 5); [apply staged_prepare | intros ds | lia];
         apply (staged_bind 2 3 5); [apply staged_run_evaluation | intros [r|] | lia];
         [ apply (staged_bind 3 5 5);
           [apply staged_save | intros _; apply staged_print_summary | lia]
         | apply staged_ret; lia ]).
  apply (staged_weaken 1 1); [| lia | lia].
  unfold print_usage. apply staged_for_each. intros i. staged_leaf.
Qed.

Lemma ordered_count (f : event -> bool) (r : nat) :
  (0 < r)%nat -> (forall ev, f ev = true -> rank ev = r) ->
  forall l k, ordered_from k l = true ->
    (List.length (filter f l) <= if (k <? r)%nat then 1 else 0)%nat.
Proof.
  intros Hr Hf. induction l as [|ev l IH]; intros k Hord; simpl.
  - destruct (k <? r)%nat; lia.
  - simpl in Hord. destruct (rank ev) as [|q] eqn:Eq.
    + destruct (f ev) eqn:Ef; [apply Hf in Ef; lia | now apply IH].
    + apply andb_true_iff in Hord. destruct Hord as [Hk Hord].
      apply Nat.ltb_lt in Hk. specialize (IH (S q) Hord).
      destruct (f ev) eqn:Ef.
      * apply Hf in Ef. rewrite Eq in Ef. subst r.
        rewrite Nat.ltb_irrefl in IH.
        assert (Hlt : (k <? S q)%nat = true) by (apply Nat.ltb_lt; lia).
        rewrite Hlt. simpl. lia.
      * destruct (S q <? r)%nat eqn:E1.
        -- apply Nat.ltb_lt in E1.
           assert (Hlt : (k <? r)%nat = true) by (apply Nat.ltb_lt; lia).
           now rewrite Hlt.
        -- destruct (k <? r)%nat; lia.
Qed.

(** X10: whatever the collaborators do and whatever the file system holds,
    the calls of a run of [main] come in one order, each once at most: the
    input file is opened, the dataset is built, [evaluate] is called, the
    output file is opened, the results are dumped.  The only file read is
    the default input, the only file written the default output, and
    [evaluate] is only ever called in non-fatal mode with the seven metrics
    of [run_evaluation]. *)
Theorem X10_calls_in_order (W : World) (disk : filesystem) :
  Forall allowed (log (snd (run (main W) disk)))
  /\ ordered_from 0 (log (snd (run (main W) disk))) = true
  /\ (List.length (filter is_evaluate (log (snd (run (main W) disk)))) <= 1)%nat
  /\ (List.length (filter is_dump (log (snd (run (main W) disk)))) <= 1)%nat.
Proof.
  unfold run.
  destruct (staged_main W (mk_state disk [])) as (l & Hl & Ha & Ho).
  change (log (mk_state disk []) ++ l) with l in Hl. rewrite Hl.
  destruct (Ho 0%nat (Nat.le_refl 0)) as [Hord _].
  split; [exact Ha|]. split; [exact Hord|]. split.
  - apply (ordered_count is_evaluate 3 ltac:(lia)) with (k := 0%nat); [| exact Hord].
    intros ev Hev. destruct ev; try discriminate. reflexivity.
  - apply (ordered_count is_dump 5 ltac:(lia)) with (k := 0%nat); [| exact Hord].
    intros ev Hev. destruct ev; try discriminate. reflexivity.
Qed.

(** * Properties of the provisioning script *)
Module SetupBedrockFacts.
Import SetupBedrock.

(** ** The role name taken from the ARN *)

Lemma split_nonempty (sep : ascii) (s : string) : split sep s <> [].
Proof.
  destruct s as [|c rest]; simpl; [discriminate|].
  destruct (Ascii.eqb c sep); [discriminate|].
  destruct (split sep rest); discriminate.
Qed.

Lemma split_app (sep : ascii) (a b : string) :
  split sep (a ++ String sep b)%string = split sep a ++ split sep b.
Proof.
  induction a as [|c a IH]; simpl.
  - now rewrite Ascii.eqb_refl.
  - destruct (Ascii.eqb c sep); [now rewrite IH|].
    rewrite IH. destruct (split sep a) as [|seg segs] eqn:E; [| reflexivity].
    now apply split_nonempty in E.
Qed.

Lemma split_no_slash (s : string) : no_slash s = true -> split "/"%char s = [s].
Proof.
  induction s as [|c s IH]; simpl; [reflexivity|].
  intros H. apply andb_true_iff in H. destruct H as [Hc Hs].
  apply negb_true_iff in Hc. rewrite Hc, (IH Hs). reflexivity.
Qed.

Lemma split_segments (s : string) :
  Forall (fun seg => no_slash seg = true) (split "/"%char s).
Proof.
  induction s as [|c s IH]; simpl.
  - constructor; [reflexivity | constructor].
  - destruct (Ascii.eqb c "/"%char) eqn:E.
    + constructor; [reflexivity | exact IH].
    + destruct (split "/"%char s) as [|seg segs]; [repeat constructor; cbn; now rewrite E|].
      inversion IH as [|? ? Hseg Hsegs]; subst.
      constructor; [cbn; now rewrite E, Hseg | exact Hsegs].
Qed.

Lemma last_Forall {A} (P : A -> Prop) (l : list A) (d : A) :
  Forall P l -> P d -> P (List.last l d).
Proof.
  induction 1 as [|x l Hx Hl IH]; intros Hd; simpl; [exact Hd|].
  destruct l; [exact Hx | apply IH, Hd].
Qed.

Lemma last_app_nonempty {A} (l1 l2 : list A) (d : A) :
  l2 <> [] -> List.last (l1 ++ l2) d = List.last l2 d.
Proof.
  intros H. induction l1 as [|x l1 IH]; simpl; [reflexivity|].
  destruct (l1 ++ l2) eqn:E; [| exact IH].
  apply app_eq_nil in E. destruct E as [_ E]. contradiction.
Qed.

Lemma concat_cons_char (c : ascii) (seg : string) (segs : list string) :
  String.concat "/" (String c seg :: segs) = String c (String.concat "/" (seg :: segs)).
Proof. destruct segs; reflexivity. Qed.

Lemma concat_cons_empty (seg : string) (segs : list string) :
  String.concat "/" (EmptyString :: seg :: segs)
  = String "/"%char (String.concat "/" (seg :: segs)).
Proof. reflexivity. Qed.

Lemma concat_split (s : string) : String.concat "/" (split "/"%char s) = s.
Proof.
  induction s as [|c s IH]; simpl; [reflexivity|].
  destruct (Ascii.eqb c "/"%char) eqn:E.
  - apply Ascii.eqb_eq in E. subst c.
    destruct (split "/"%char s) as [|seg segs] eqn:Es; [now apply split_nonempty in Es|].
    rewrite concat_cons_empty, IH. reflexivity.
  - destruct (split "/"%char s) as [|seg segs] eqn:Es; [now apply split_nonempty in Es|].
    rewrite concat_cons_char, IH. reflexivity.
Qed.

(** X11: the role name [main] takes from the role ARN,
    [role_arn.split('/')[-1]], is the part after the last [/]: it holds no
    [/], it is the whole ARN when the ARN holds none, and it is [name] for
    every ARN of the form [prefix/name] where [name] holds no [/], also
    when the prefix holds a role path.  Splitting never gives an empty
    list, so the index [-1] never fails, and joining the segments with [/]
    gives the ARN back. *)
Theorem X11_role_name_is_last_segment (role_arn : string) :
  no_slash (last_segment role_arn) = true
  /\ split "/"%char role_arn <> []
  /\ String.concat "/" (split "/"%char role_arn) = role_arn
  /\ (no_slash role_arn = true -> last_segment role_arn = role_arn)
  /\ (forall pre name,
        role_arn = (pre ++ String "/"%char name)%string ->
        no_slash name = true ->
        last_segment role_arn = name).
Proof.
  unfold last_segment. split; [| split; [| split; [| split]]].
  - apply (last_Forall (fun seg => no_slash seg = true));
      [apply split_segments | reflexivity].
  - apply split_nonempty.
  - apply concat_split.
  - intros H. now rewrite split_no_slash.
  - intros pre name -> Hn.
    rewrite split_app, last_app_nonempty by apply split_nonempty.
    now rewrite split_no_slash.
Qed.

Lemma X11_role_name_witness :
  no_slash "bedrock-kb-role" = true
  /\ last_segment "arn:aws:iam::123456789012:role/service-role/bedrock-kb-role"
     = "bedrock-kb-role".
Proof.
  split; [reflexivity|].
  destruct (X11_role_name_is_last_segment
              "arn:aws:iam::123456789012:role/service-role/bedrock-kb-role")
    as (_ & _ & _ & _ & H).
  apply (H "arn:aws:iam::123456789012:role/service-role" "bedrock-kb-role");
    reflexivity.
Defined.

(** ** The steps of the script *)

Lemma get_account_id_returns (W : AWS) (account_id : string) (l : list call) :
  get_caller_identity W = inr account_id ->
  get_account_id W l = (Returns account_id, l ++ account_events account_id).
Proof.
  intros H. unfold get_account_id, try_except, bind, api, say, ret.
  rewrite H. rewrite <- app_assoc. reflexivity.
Qed.

Lemma get_account_id_raises (W : AWS) (e : error) (l : list call) :
  get_caller_identity W = inl e ->
  get_account_id W l
  = if is_Exception e
    then (Raises (SystemExit 1), l ++ [GetCallerIdentity; Say (LAccountError e)])
    else (Raises e, l ++ [GetCallerIdentity]).
Proof.
  intros H. unfold get_account_id, try_except, bind, api, say, ret, sys_exit, raise.
  rewrite H. destruct (is_Exception e); [| reflexivity].
  rewrite <- app_assoc. reflexivity.
Qed.

Lemma create_iam_role_created (W : AWS) (role_arn : string) (l : list call) :
  create_role W "bedrock-kb-role" (dumps W assume_role_policy)
              "Role for Bedrock Knowledge Base" = inr role_arn ->
  create_iam_role W "bedrock-kb-role" l
  = (Returns role_arn, l ++ role_created_events W role_arn).
Proof.
  intros H. unfold create_iam_role, try_except, bind, api, say, ret.
  rewrite H. rewrite <- !app_assoc. reflexivity.
Qed.

Lemma create_iam_role_raises (W : AWS) (e : error) (l : list call) :
  create_role W "bedrock-kb-role" (dumps W assume_role_policy)
              "Role for Bedrock Knowledge Base" = inl e ->
  create_iam_role W "bedrock-kb-role" l
  = if is_ClientError e
    then if String.eqb (error_code e) "EntityAlreadyExists"
         then (match get_role W "bedrock-kb-role" with
               | inl e' => Raises e'
               | inr role_arn => Returns role_arn
               end, l ++ role_existing_events W)
         else (Raises (SystemExit 1),
               l ++ [ Say (LCreatingRole "bedrock-kb-role");
                      CreateRole "bedrock-kb-role" (dumps W assume_role_policy)
                                 "Role for Bedrock Knowledge Base";
                      Say (LError e) ])
    else (Raises e,
          l ++ [ Say (LCreatingRole "bedrock-kb-role");
                 CreateRole "bedrock-kb-role" (dumps W assume_role_policy)
                            "Role for Bedrock Knowledge Base" ]).
Proof.
  intros H. unfold create_iam_role, try_except, bind, api, say, ret, sys_exit, raise.
  rewrite H. destruct (is_ClientError e).
  - destruct (String.eqb (error_code e) "EntityAlreadyExists").
    + unfold role_existing_events. rewrite <- !app_assoc.
      destruct (get_role W "bedrock-kb-role"); reflexivity.
    + rewrite <- !app_assoc. reflexivity.
  - rewrite <- !app_assoc. reflexivity.
Qed.

Lemma attach_policies_returns (W : AWS) (role_name : string) (l : list call) :
  put_role_policy W role_name "bedrock-kb-policy" (dumps W policy_document) = None ->
  attach_policies W role_name l = (Returns tt, l ++ attach_events W role_name).
Proof.
  intros H. unfold attach_policies, try_except, bind, api_, say, ret.
  rewrite H. rewrite <- !app_assoc. reflexivity.
Qed.

Lemma attach_policies_raises (W : AWS) (role_name : string) (e : error)
  (l : list call) :
  put_role_policy W role_name "bedrock-kb-policy" (dumps W policy_document) = Some e ->
  attach_policies W role_name l
  = if is_Exception e
    then (Raises (SystemExit 1),
          l ++ [ Say (LAttaching role_name);
                 PutRolePolicy role_name "bedrock-kb-policy" (dumps W policy_document);
                 Say (LError e) ])
    else (Raises e,
          l ++ [ Say (LAttaching role_name);
                 PutRolePolicy role_name "bedrock-kb-policy" (dumps W policy_document) ]).
Proof.
  intros H. unfold attach_policies, try_except, bind, api_, say, ret, sys_exit, raise.
  rewrite H. destruct (is_Exception e); rewrite <- !app_assoc; reflexivity.
Qed.

Lemma create_aoss_collection_created (W : AWS) (arn : string) (l : list call) :
  create_collection W "bedrock-kb-collection" "VECTORSEARCH"
                    "Vector store for Bedrock Knowledge Base" = inr arn ->
  create_aoss_collection W "bedrock-kb-collection" l
  = (Returns (Some arn), l ++ collection_created_events arn).
Proof.
  intros H. unfold create_aoss_collection, try_except, bind, api, say, ret.
  rewrite H. rewrite <- !app_assoc. reflexivity.
Qed.

Lemma create_aoss_collection_existing (W : AWS) (code text : string)
  (summaries : list (string * string)) (l : list call) :
  create_collection W "bedrock-kb-collection" "VECTORSEARCH"
                    "Vector store for Bedrock Knowledge Base"
  = inl (ClientError code text) ->
  contains "already exists" text = true ->
  list_collections W = inr summaries ->
  create_aoss_collection W "bedrock-kb-collection" l
  = (Returns (find_collection "bedrock-kb-collection" summaries),
     l ++ collection_existing_events).
Proof.
  intros H Hc Hl.
  unfold create_aoss_collection, try_except, bind, api, say, ret.
  rewrite H. cbn [is_ClientError str]. rewrite Hc, Hl.
  unfold collection_existing_events. rewrite <- !app_assoc. reflexivity.
Qed.

Lemma create_s3_bucket_created (W : AWS) (bucket_name : string) (l : list call) :
  create_bucket W bucket_name "us-west-2" = None ->
  create_s3_bucket W bucket_name l
  = (Returns bucket_name, l ++ bucket_events bucket_name true).
Proof.
  intros H. unfold create_s3_bucket, try_except, bind, api_, say, ret.
  rewrite H. rewrite <- !app_assoc. reflexivity.
Qed.

Lemma create_s3_bucket_raises (W : AWS) (bucket_name : string) (e : error)
  (l : list call) :
  create_bucket W bucket_name "us-west-2" = Some e ->
  create_s3_bucket W bucket_name l
  = if is_ClientError e
    then if String.eqb (error_code e) "BucketAlreadyOwnedByYou"
         then (Returns bucket_name, l ++ bucket_events bucket_name false)
         else (Raises (SystemExit 1),
               l ++ [ Say (LCreatingBucket bucket_name);
                      CreateBucket bucket_name "us-west-2"; Say (LError e) ])
    else (Raises e,
          l ++ [ Say (LCreatingBucket bucket_name);
                 CreateBucket bucket_name "us-west-2" ]).
Proof.
  intros H. unfold create_s3_bucket, try_except, bind, api_, say, ret, sys_exit, raise.
  rewrite H. destruct (is_ClientError e).
  - destruct (String.eqb (error_code e) "BucketAlreadyOwnedByYou");
      rewrite <- !app_assoc; reflexivity.
  - rewrite <- !app_assoc. reflexivity.
Qed.

(** [main] when its five steps return. *)
Lemma main_from_steps (W : AWS) (account_id role_arn : string)
  (aoss_arn : option string) (s3_bucket : string) (l1 l2 l3 l4 l5 : list call) :
  (forall l, get_account_id W l = (Returns account_id, l ++ l1)) ->
  (forall l, create_iam_role W "bedrock-kb-role" l = (Returns role_arn, l ++ l2)) ->
  (forall l, attach_policies W (last_segment role_arn) l = (Returns tt, l ++ l3)) ->
  (forall l, create_aoss_collection W "bedrock-kb-collection" l
             = (Returns aoss_arn, l ++ l4)) ->
  (forall l, create_s3_bucket W ("bedrock-kb-documents-" ++ account_id)%string l
             = (Returns s3_bucket, l ++ l5)) ->
  run (main W)
  = (Returns tt,
     greeting ++ l1 ++ l2 ++ l3 ++ l4 ++ l5 ++ closing role_arn aoss_arn s3_bucket).
Proof.
  intros H1 H2 H3 H4 H5. unfold run, main.
  unfold bind at 1, say at 1. unfold bind at 1, say at 1. unfold bind at 1, say at 1.
  unfold bind at 1. rewrite H1.
  unfold bind at 1. rewrite H2.
  unfold bind at 1. rewrite H3.
  unfold bind at 1. rewrite H4.
  unfold bind at 1. rewrite H5.
  unfold bind, say, greeting, closing. rewrite <- !app_assoc. reflexivity.
Qed.

(** [main] up to the role step, when the account is known. *)
Lemma main_to_role (W : AWS) (account_id : string) :
  get_caller_identity W = inr account_id ->
  run (main W)
  = (let* role_arn := create_iam_role W "bedrock-kb-role" in
     let* _ := attach_policies W (last_segment role_arn) in
     let* aoss_arn := create_aoss_collection W "bedrock-kb-collection" in
     let* s3_bucket :=
       create_s3_bucket W ("bedrock-kb-documents-" ++ account_id)%string in
     say LRule >> say LComplete >> say LRule >> say LSaveThese >>
     say (LRoleArn role_arn) >> say (LAossArn aoss_arn) >>
     say (LBucket s3_bucket) >> say LRule)
    (greeting ++ account_events account_id).
Proof.
  intros H. unfold run, main.
  unfold bind at 1, say at 1. unfold bind at 1, say at 1. unfold bind at 1, say at 1.
  unfold bind at 1. rewrite (get_account_id_returns W account_id); [| exact H].
  reflexivity.
Qed.

(** ** Runs of the script *)

Lemma service_calls_app (l1 l2 : list call) :
  service_calls (l1 ++ l2) = service_calls l1 ++ service_calls l2.
Proof.
  induction l1 as [|c l1 IH]; simpl; [reflexivity|].
  destruct c; simpl; now rewrite IH.
Qed.

Lemma report_app (l1 l2 : list call) : report (l1 ++ l2) = report l1 ++ report l2.
Proof.
  induction l1 as [|c l1 IH]; simpl; [reflexivity|].
  destruct c as [x| | | | | | |]; try exact IH.
  destruct x; simpl; now rewrite IH.
Qed.

(** X12: in an account where every creation succeeds, [main] returns
    after exactly five service calls, in this order: the caller identity,
    the role, the policy put on the role named by the last segment of the
    role's ARN, the collection, and the bucket named
    [bedrock-kb-documents-<account id>] in [us-west-2]; it then reports the
    role ARN, the collection ARN and the bucket name. *)
Theorem X12_fresh_account_is_provisioned (W : AWS)
  (account_id role_arn collection_arn : string) :
  get_caller_identity W = inr account_id ->
  create_role W "bedrock-kb-role" (dumps W assume_role_policy)
              "Role for Bedrock Knowledge Base" = inr role_arn ->
  put_role_policy W (last_segment role_arn) "bedrock-kb-policy"
                  (dumps W policy_document) = None ->
  create_collection W "bedrock-kb-collection" "VECTORSEARCH"
                    "Vector store for Bedrock Knowledge Base" = inr collection_arn ->
  create_bucket W ("bedrock-kb-documents-" ++ account_id)%string "us-west-2" = None ->
  run (main W)
  = (Returns tt,
     greeting ++ account_events account_id ++ role_created_events W role_arn
       ++ attach_events W (last_segment role_arn)
       ++ collection_created_events collection_arn
       ++ bucket_events ("bedrock-kb-documents-" ++ account_id)%string true
       ++ closing role_arn (Some collection_arn)
                  ("bedrock-kb-documents-" ++ account_id)%string)
  /\ service_calls (snd (run (main W)))
     = [ GetCallerIdentity;
         CreateRole "bedrock-kb-role" (dumps W assume_role_policy)
                    "Role for Bedrock Knowledge Base";
         PutRolePolicy (last_segment role_arn) "bedrock-kb-policy"
                       (dumps W policy_document);
         CreateCollection "bedrock-kb-collection" "VECTORSEARCH"
                          "Vector store for Bedrock Knowledge Base";
         CreateBucket ("bedrock-kb-documents-" ++ account_id)%string "us-west-2" ].
Proof.
  intros Ha Hr Hp Hc Hb.
  assert (Hm : run (main W)
    = (Returns tt,
       greeting ++ account_events account_id ++ role_created_events W role_arn
         ++ attach_events W (last_segment role_arn)
         ++ collection_created_events collection_arn
         ++ bucket_events ("bedrock-kb-documents-" ++ account_id)%string true
         ++ closing role_arn (Some collection_arn)
                    ("bedrock-kb-documents-" ++ account_id)%string)).
  { apply (main_from_steps W account_id); intros l.
    - now apply get_account_id_returns.
    - now apply create_iam_role_created.
    - now apply attach_policies_returns.
    - now apply create_aoss_collection_created.
    - now apply create_s3_bucket_created. }
  split; [exact Hm|]. rewrite Hm. cbn [snd].
  rewrite !service_calls_app. reflexivity.
Qed.

Lemma X12_fresh_account_witness :
  get_caller_identity fresh_aws = inr "123456789012"
  /\ fst (run (main fresh_aws)) = Returns tt
  /\ In (PutRolePolicy "bedrock-kb-role" "bedrock-kb-policy"
                       (dumps fresh_aws policy_document))
        (snd (run (main fresh_aws))).
Proof.
  split; [reflexivity|].
  destruct (X12_fresh_account_is_provisioned fresh_aws "123456789012"
              "arn:aws:iam::123456789012:role/bedrock-kb-role"
              "arn:aws:aoss:us-west-2:123456789012:collection/bedrock-kb-collection"
              eq_refl eq_refl eq_refl eq_refl eq_refl) as [Hm _].
  rewrite Hm. split; [reflexivity|]. vm_compute. tauto.
Defined.

(** X13: the script can be run again.  In an account where the role, the
    collection and the bucket exist already (the role creation fails with
    [EntityAlreadyExists], the collection creation with a message holding
    "already exists", the bucket creation with [BucketAlreadyOwnedByYou]),
    [main] still returns: it looks the role and the collection up, puts the
    policy on the role again, and reports the same three values as the run
    that created them. *)
Theorem X13_second_run_reports_the_same (W1 W2 : AWS)
  (account_id role_arn collection_arn : string) (t1 c2 t2 t3 : string)
  (summaries : list (string * string)) :
  get_caller_identity W1 = inr account_id ->
  create_role W1 "bedrock-kb-role" (dumps W1 assume_role_policy)
              "Role for Bedrock Knowledge Base" = inr role_arn ->
  put_role_policy W1 (last_segment role_arn) "bedrock-kb-policy"
                  (dumps W1 policy_document) = None ->
  create_collection W1 "bedrock-kb-collection" "VECTORSEARCH"
                    "Vector store for Bedrock Knowledge Base" = inr collection_arn ->
  create_bucket W1 ("bedrock-kb-documents-" ++ account_id)%string "us-west-2" = None ->
  get_caller_identity W2 = inr account_id ->
  create_role W2 "bedrock-kb-role" (dumps W2 assume_role_policy)
              "Role for Bedrock Knowledge Base"
  = inl (ClientError "EntityAlreadyExists" t1) ->
  get_role W2 "bedrock-kb-role" = inr role_arn ->
  put_role_policy W2 (last_segment role_arn) "bedrock-kb-policy"
                  (dumps W2 policy_document) = None ->
  create_collection W2 "bedrock-kb-collection" "VECTORSEARCH"
                    "Vector store for Bedrock Knowledge Base"
  = inl (ClientError c2 t2) ->
  contains "already exists" t2 = true ->
  list_collections W2 = inr summaries ->
  find_collection "bedrock-kb-collection" summaries = Some collection_arn ->
  create_bucket W2 ("bedrock-kb-documents-" ++ account_id)%string "us-west-2"
  = Some (ClientError "BucketAlreadyOwnedByYou" t3) ->
  fst (run (main W2)) = Returns tt
  /\ report (snd (run (main W2))) = report (snd (run (main W1)))
  /\ report (snd (run (main W2)))
     = [ LRoleArn role_arn; LAossArn (Some collection_arn);
         LBucket ("bedrock-kb-documents-" ++ account_id)%string ]
  /\ service_calls (snd (run (main W2)))
     = [ GetCallerIdentity;
         CreateRole "bedrock-kb-role" (dumps W2 assume_role_policy)
                    "Role for Bedrock Knowledge Base";
         GetRole "bedrock-kb-role";
         PutRolePolicy (last_segment role_arn) "bedrock-kb-policy"
                       (dumps W2 policy_document);
         CreateCollection "bedrock-kb-collection" "VECTORSEARCH"
                          "Vector store for Bedrock Knowledge Base";
         ListCollections;
         CreateBucket ("bedrock-kb-documents-" ++ account_id)%string "us-west-2" ].
Proof.
  intros Ha1 Hr1 Hp1 Hc1 Hb1 Ha2 Hr2 Hg2 Hp2 Hc2 Ht2 Hl2 Hf2 Hb2.
  assert (Hm1 : run (main W1)
    = (Returns tt,
       greeting ++ account_events account_id ++ role_created_events W1 role_arn
         ++ attach_events W1 (last_segment role_arn)
         ++ collection_created_events collection_arn
         ++ bucket_events ("bedrock-kb-documents-" ++ account_id)%string true
         ++ closing role_arn (Some collection_arn)
                    ("bedrock-kb-documents-" ++ account_id)%string)).
  { apply (main_from_steps W1 account_id); intros l.
    - now apply get_account_id_returns.
    - now apply create_iam_role_created.
    - now apply attach_policies_returns.
    - now apply create_aoss_collection_created.
    - now apply create_s3_bucket_created. }
  assert (Hm2 : run (main W2)
    = (Returns tt,
       greeting ++ account_events account_id ++ role_existing_events W2
         ++ attach_events W2 (last_segment role_arn)
         ++ collection_existing_events
         ++ bucket_events ("bedrock-kb-documents-" ++ account_id)%string false
         ++ closing role_arn (Some collection_arn)
                    ("bedrock-kb-documents-" ++ account_id)%string)).
  { apply (main_from_steps W2 account_id); intros l.
    - now apply get_account_id_returns.
    - rewrite (create_iam_role_raises W2 _ l Hr2). cbn. now rewrite Hg2.
    - now apply attach_policies_returns.
    - rewrite (create_aoss_collection_existing W2 c2 t2 summaries l Hc2 Ht2 Hl2).
      now rewrite Hf2.
    - rewrite (create_s3_bucket_raises W2 _ _ l Hb2). reflexivity. }
  rewrite Hm1, Hm2. cbn [fst snd].
  split; [reflexivity|].
  rewrite !report_app, !service_calls_app. repeat split; reflexivity.
Qed.

Lemma X13_second_run_witness :
  contains "already exists" "collection already exists" = true
  /\ fst (run (main provisioned_aws)) = Returns tt
  /\ report (snd (run (main provisioned_aws))) = report (snd (run (main fresh_aws))).
Proof.
  split; [reflexivity|].
  destruct (X13_second_run_reports_the_same fresh_aws provisioned_aws
              "123456789012"
              "arn:aws:iam::123456789012:role/bedrock-kb-role"
              "arn:aws:aoss:us-west-2:123456789012:collection/bedrock-kb-collection"
              "role already exists" "ConflictException" "collection already exists"
              "bucket exists"
              [ ("other", "arn:aws:aoss:us-west-2:123456789012:collection/other");
                ("bedrock-kb-collection",
                 "arn:aws:aoss:us-west-2:123456789012:collection/bedrock-kb-collection") ]
              eq_refl eq_refl eq_refl eq_refl eq_refl eq_refl eq_refl eq_refl
              eq_refl eq_refl eq_refl eq_refl eq_refl eq_refl)
    as (Hret & Hsame & _).
  split; [exact Hret | exact Hsame].
Defined.

Lemma find_collection_none (name : string) (summaries : list (string * string)) :
  (forall arn, ~ In (name, arn) summaries) -> find_collection name summaries = None.
Proof.
  induction summaries as [|[n a] rest IH]; simpl; intros H; [reflexivity|].
  destruct (String.eqb n name) eqn:E.
  - apply String.eqb_eq in E. subst n. exfalso. apply (H a). now left.
  - apply IH. intros arn Hin. apply (H arn). now right.
Qed.

Lemma find_collection_some (name arn : string) (summaries : list (string * string)) :
  find_collection name summaries = Some arn -> In (name, arn) summaries.
Proof.
  induction summaries as [|[n a] rest IH]; simpl; [discriminate|].
  destruct (String.eqb n name) eqn:E.
  - apply String.eqb_eq in E. subst n. intros H. injection H as ->. now left.
  - intros H. right. now apply IH.
Qed.

(** X14: when the collection creation fails with "already exists" and the
    listing has no collection of that name, the lookup loop of
    [create_aoss_collection] ends without a [return]: the function returns
    [None], no error is raised, and [main] goes on, creates the bucket and
    reports [None] as the collection ARN.  When the lookup finds an ARN, it
    is the ARN of a listed collection of that name. *)
Theorem X14_unlisted_collection_gives_None (W : AWS)
  (account_id role_arn code text : string) (summaries : list (string * string)) :
  get_caller_identity W = inr account_id ->
  create_role W "bedrock-kb-role" (dumps W assume_role_policy)
              "Role for Bedrock Knowledge Base" = inr role_arn ->
  put_role_policy W (last_segment role_arn) "bedrock-kb-policy"
                  (dumps W policy_document) = None ->
  create_collection W "bedrock-kb-collection" "VECTORSEARCH"
                    "Vector store for Bedrock Knowledge Base"
  = inl (ClientError code text) ->
  contains "already exists" text = true ->
  list_collections W = inr summaries ->
  create_bucket W ("bedrock-kb-documents-" ++ account_id)%string "us-west-2" = None ->
  ((forall arn, ~ In ("bedrock-kb-collection", arn) summaries) ->
   (forall l, create_aoss_collection W "bedrock-kb-collection" l
              = (Returns None, l ++ collection_existing_events))
   /\ run (main W)
      = (Returns tt,
         greeting ++ account_events account_id ++ role_created_events W role_arn
           ++ attach_events W (last_segment role_arn)
           ++ collection_existing_events
           ++ bucket_events ("bedrock-kb-documents-" ++ account_id)%string true
           ++ closing role_arn None ("bedrock-kb-documents-" ++ account_id)%string))
  /\ (forall arn l,
        fst (create_aoss_collection W "bedrock-kb-collection" l) = Returns (Some arn) ->
        In ("bedrock-kb-collection", arn) summaries).
Proof.
  intros Ha Hr Hp Hc Ht Hl Hb. split.
  - intros Hnone.
    assert (Hs : forall l, create_aoss_collection W "bedrock-kb-collection" l
                           = (Returns None, l ++ collection_existing_events)).
    { intros l.
      rewrite (create_aoss_collection_existing W code text summaries l Hc Ht Hl).
      now rewrite find_collection_none. }
    split; [exact Hs|].
    apply (main_from_steps W account_id); intros l.
    + now apply get_account_id_returns.
    + now apply create_iam_role_created.
    + now apply attach_policies_returns.
    + apply Hs.
    + now apply create_s3_bucket_created.
  - intros arn l.
    rewrite (create_aoss_collection_existing W code text summaries l Hc Ht Hl).
    cbn [fst]. intros H. injection H as H. now apply find_collection_some.
Qed.

Lemma X14_unlisted_collection_witness :
  (forall arn, ~ In ("bedrock-kb-collection", arn) [("other", "arn:other")])
  /\ fst (run (main unlisted_aws)) = Returns tt
  /\ report (snd (run (main unlisted_aws)))
     = [ LRoleArn "arn:aws:iam::123456789012:role/bedrock-kb-role";
         LAossArn None; LBucket "bedrock-kb-documents-123456789012" ].
Proof.
  assert (Hnone : forall arn, ~ In ("bedrock-kb-collection", arn) [("other", "arn:other")]).
  { intros arn [H|[]]. discriminate. }
  split; [exact Hnone|].
  destruct (X14_unlisted_collection_gives_None unlisted_aws "123456789012"
              "arn:aws:iam::123456789012:role/bedrock-kb-role"
              "ConflictException" "collection already exists"
              [("other", "arn:other")]
              eq_refl eq_refl eq_refl eq_refl eq_refl eq_refl eq_refl) as [Hm _].
  destruct (Hm Hnone) as [_ Hrun]. rewrite Hrun. split; reflexivity.
Defined.

(** ** Failures of the script *)

(** X15: when the caller identity cannot be had, nothing is provisioned.
    An instance of [Exception] is reported and turned into
    [sys.exit(1)]; any other exception leaves [main] as it is; in both
    cases the identity call is the only service call of the run. *)
Theorem X15_no_account_no_resources (W : AWS) (e : error) :
  get_caller_identity W = inl e ->
  run (main W)
  = (if is_Exception e
     then (Raises (SystemExit 1),
           greeting ++ [GetCallerIdentity; Say (LAccountError e)])
     else (Raises e, greeting ++ [GetCallerIdentity]))
  /\ service_calls (snd (run (main W))) = [GetCallerIdentity].
Proof.
  intros H.
  assert (Hm : run (main W)
    = (if is_Exception e
       then (Raises (SystemExit 1),
             greeting ++ [GetCallerIdentity; Say (LAccountError e)])
       else (Raises e, greeting ++ [GetCallerIdentity]))).
  { unfold run, main.
    unfold bind at 1, say at 1. unfold bind at 1, say at 1. unfold bind at 1, say at 1.
    unfold bind at 1. rewrite (get_account_id_raises W e _ H).
    destruct (is_Exception e); reflexivity. }
  split; [exact Hm|]. rewrite Hm. destruct (is_Exception e); reflexivity.
Qed.

Lemma X15_no_account_witness :
  get_caller_identity anonymous_aws = inl (OtherError "Unable to locate credentials")
  /\ fst (run (main anonymous_aws)) = Raises (SystemExit 1).
Proof.
  split; [reflexivity|].
  destruct (X15_no_account_no_resources anonymous_aws
              (OtherError "Unable to locate credentials") eq_refl) as [Hm _].
  rewrite Hm. reflexivity.
Defined.

(** X16: the role step handles [ClientError] only, and its fallback not at
    all.  When [create_role] raises a [ClientError] whose code is not
    [EntityAlreadyExists], the error is printed and the run exits with
    status 1; when it raises anything else, that exception leaves [main] as
    it is and no error line is printed; and when the role exists already
    but [get_role] raises, that exception leaves [main] as it is, also when
    it is a [ClientError].  In each case no policy, collection or bucket
    call is made. *)
Theorem X16_role_step_failures (W : AWS) (account_id : string) (e : error) :
  get_caller_identity W = inr account_id ->
  create_role W "bedrock-kb-role" (dumps W assume_role_policy)
              "Role for Bedrock Knowledge Base" = inl e ->
  (is_ClientError e = true -> error_code e <> "EntityAlreadyExists" ->
   run (main W)
   = (Raises (SystemExit 1),
      greeting ++ account_events account_id
        ++ [ Say (LCreatingRole "bedrock-kb-role");
             CreateRole "bedrock-kb-role" (dumps W assume_role_policy)
                        "Role for Bedrock Knowledge Base";
             Say (LError e) ]))
  /\ (is_ClientError e = false ->
      run (main W)
      = (Raises e,
         greeting ++ account_events account_id
           ++ [ Say (LCreatingRole "bedrock-kb-role");
                CreateRole "bedrock-kb-role" (dumps W assume_role_policy)
                           "Role for Bedrock Knowledge Base" ]))
  /\ (is_ClientError e = true -> error_code e = "EntityAlreadyExists" ->
      forall e', get_role W "bedrock-kb-role" = inl e' ->
      run (main W)
      = (Raises e', greeting ++ account_events account_id ++ role_existing_events W)).
Proof.
  intros Ha Hr. split; [| split].
  - intros Hc Hcode. rewrite (main_to_role W account_id Ha).
    unfold bind at 1. rewrite (create_iam_role_raises W e _ Hr), Hc.
    apply String.eqb_neq in Hcode. rewrite Hcode.
    rewrite <- !app_assoc. reflexivity.
  - intros Hc. rewrite (main_to_role W account_id Ha).
    unfold bind at 1. rewrite (create_iam_role_raises W e _ Hr), Hc.
    rewrite <- !app_assoc. reflexivity.
  - intros Hc Hcode e' Hg. rewrite (main_to_role W account_id Ha).
    unfold bind at 1. rewrite (create_iam_role_raises W e _ Hr), Hc, Hcode, Hg.
    rewrite String.eqb_refl.
    rewrite <- !app_assoc. reflexivity.
Qed.

Lemma X16_role_step_witness :
  get_caller_identity
    (mk_AWS (inr "1") (fun _ _ _ => inl (ClientError "EntityAlreadyExists" "exists"))
            (fun _ => inl (ClientError "AccessDenied" "denied"))
            (fun _ _ _ => None) (fun n _ _ => inr n) (inr []) (fun _ _ => None)
            sample_dumps) = inr "1"
  /\ fst (run (main
       (mk_AWS (inr "1") (fun _ _ _ => inl (ClientError "EntityAlreadyExists" "exists"))
               (fun _ => inl (ClientError "AccessDenied" "denied"))
               (fun _ _ _ => None) (fun n _ _ => inr n) (inr []) (fun _ _ => None)
               sample_dumps)))
     = Raises (ClientError "AccessDenied" "denied").
Proof.
  split; [reflexivity|].
  destruct (X16_role_step_failures
              (mk_AWS (inr "1")
                      (fun _ _ _ => inl (ClientError "EntityAlreadyExists" "exists"))
                      (fun _ => inl (ClientError "AccessDenied" "denied"))
                      (fun _ _ _ => None) (fun n _ _ => inr n) (inr [])
                      (fun _ _ => None) sample_dumps)
              "1" (ClientError "EntityAlreadyExists" "exists") eq_refl eq_refl)
    as (_ & _ & Hfall).
  rewrite (Hfall eq_refl eq_refl (ClientError "AccessDenied" "denied") eq_refl).
  reflexivity.
Defined.

(** X17: nothing is undone.  When the role, the policy and the collection
    were created and the bucket creation raises a [ClientError] whose code
    is not [BucketAlreadyOwnedByYou], the run exits with status 1 after
    those calls: the closing report is not printed and no call deletes
    what was created. *)
Theorem X17_bucket_failure_no_rollback (W : AWS)
  (account_id role_arn collection_arn : string) (e : error) :
  get_caller_identity W = inr account_id ->
  create_role W "bedrock-kb-role" (dumps W assume_role_policy)
              "Role for Bedrock Knowledge Base" = inr role_arn ->
  put_role_policy W (last_segment role_arn) "bedrock-kb-policy"
                  (dumps W policy_document) = None ->
  create_collection W "bedrock-kb-collection" "VECTORSEARCH"
                    "Vector store for Bedrock Knowledge Base" = inr collection_arn ->
  create_bucket W ("bedrock-kb-documents-" ++ account_id)%string "us-west-2" = Some e ->
  is_ClientError e = true ->
  error_code e <> "BucketAlreadyOwnedByYou" ->
  run (main W)
  = (Raises (SystemExit 1),
     greeting ++ account_events account_id ++ role_created_events W role_arn
       ++ attach_events W (last_segment role_arn)
       ++ collection_created_events collection_arn
       ++ [ Say (LCreatingBucket ("bedrock-kb-documents-" ++ account_id)%string);
            CreateBucket ("bedrock-kb-documents-" ++ account_id)%string "us-west-2";
            Say (LError e) ])
  /\ report (snd (run (main W))) = []
  /\ service_calls (snd (run (main W)))
     = [ GetCallerIdentity;
         CreateRole "bedrock-kb-role" (dumps W assume_role_policy)
                    "Role for Bedrock Knowledge Base";
         PutRolePolicy (last_segment role_arn) "bedrock-kb-policy"
                       (dumps W policy_document);
         CreateCollection "bedrock-kb-collection" "VECTORSEARCH"
                          "Vector store for Bedrock Knowledge Base";
         CreateBucket ("bedrock-kb-documents-" ++ account_id)%string "us-west-2" ].
Proof.
  intros Ha Hr Hp Hc Hb He Hcode.
  assert (Hm : run (main W)
    = (Raises (SystemExit 1),
       greeting ++ account_events account_id ++ role_created_events W role_arn
         ++ attach_events W (last_segment role_arn)
         ++ collection_created_events collection_arn
         ++ [ Say (LCreatingBucket ("bedrock-kb-documents-" ++ account_id)%string);
              CreateBucket ("bedrock-kb-documents-" ++ account_id)%string "us-west-2";
              Say (LError e) ])).
  { rewrite (main_to_role W account_id Ha).
    unfold bind at 1. rewrite (create_iam_role_created W role_arn _ Hr).
    unfold bind at 1. rewrite (attach_policies_returns W _ _ Hp).
    unfold bind at 1. rewrite (create_aoss_collection_created W collection_arn _ Hc).
    unfold bind at 1. rewrite (create_s3_bucket_raises W _ e _ Hb), He.
    apply String.eqb_neq in Hcode. rewrite Hcode.
    rewrite <- !app_assoc. reflexivity. }
  split; [exact Hm|]. rewrite Hm. cbn [snd].
  rewrite !report_app, !service_calls_app. split; reflexivity.
Qed.

Lemma X17_bucket_failure_witness :
  error_code (ClientError "BucketAlreadyExists" "taken") <> "BucketAlreadyOwnedByYou"
  /\ fst (run (main
       (mk_AWS (inr "1") (fun n _ _ => inr ("role/" ++ n)%string) (fun n => inr n)
               (fun _ _ _ => None) (fun n _ _ => inr n) (inr [])
               (fun _ _ => Some (ClientError "BucketAlreadyExists" "taken"))
               sample_dumps)))
     = Raises (SystemExit 1).
Proof.
  split; [discriminate|].
  destruct (X17_bucket_failure_no_rollback
              (mk_AWS (inr "1") (fun n _ _ => inr ("role/" ++ n)%string) (fun n => inr n)
                      (fun _ _ _ => None) (fun n _ _ => inr n) (inr [])
                      (fun _ _ => Some (ClientError "BucketAlreadyExists" "taken"))
                      sample_dumps)
              "1" "role/bedrock-kb-role" "bedrock-kb-collection"
              (ClientError "BucketAlreadyExists" "taken")
              eq_refl eq_refl eq_refl eq_refl eq_refl eq_refl) as [Hm _];
    [discriminate|].
  rewrite Hm. reflexivity.
Defined.

(** ** The order of the service calls *)

(** X18: whatever the services answer, the service calls of a run of
    [main] come in one order, each once at most: caller identity, role
    creation, role lookup, policy, collection creation, collection listing,
    bucket creation.  And [main] returns normally only when the identity,
    the role creation, the policy, the collection creation and the bucket
    creation were all called: it never reports a setup in which a step was
    skipped. *)
Theorem X18_service_calls_in_order (W : AWS) :
  increasing 0 (map step (service_calls (snd (run (main W))))) = true
  /\ (fst (run (main W)) = Returns tt ->
      made 1 (snd (run (main W))) = true
      /\ made 2 (snd (run (main W))) = true
      /\ made 4 (snd (run (main W))) = true
      /\ made 5 (snd (run (main W))) = true
      /\ made 7 (snd (run (main W))) = true).
Proof.
  unfold run, main, get_account_id, create_iam_role, attach_policies,
    create_aoss_collection, create_s3_bucket, try_except, bind, api, api_, say,
    ret, sys_exit, raise.
  cbn [app].
  repeat first
    [ solve [ cbn; split; [reflexivity | first [discriminate | intros _; repeat split]] ]
    | match goal with
      | |- context [match ?x with inl _ => _ | inr _ => _ end] => destruct x
      | |- context [match ?x with Some _ => _ | None => _ end] => destruct x
      | |- context [is_Exception ?e] => destruct e; cbn [is_Exception]
      | |- context [is_ClientError ?e] =>
          destruct e; cbn [is_ClientError error_code str]
      | |- context [if ?b then _ else _] => destruct b
      end ].
Qed.

End SetupBedrockFacts.
